(** * Model-provider adapters: TEI text embedding and Minimax chat completion

    A shallow embedding of
      - [models/huggingface_tei/models/text_embedding/text_embedding.py]
        ([HuggingfaceTeiTextEmbeddingModel._invoke], [_calc_response_usage]);
      - [models/minimax/models/llm/chat_completion.py]
        ([MinimaxChatCompletion.generate], [_handle_error],
        [_handle_stream_chat_generate_response]).

    Python data is modelled as the interpreter has it: [int] is [Z], [str]
    is a list of Unicode code points, [bytes] is a list of bytes, [float]
    is an IEEE-754 binary64 number ([spec_float] with [prec = 53] and
    [emax = 1024]), a JSON-like object is a [pyval].  Exceptions are values
    of [exn]; a computation that may raise returns a [res].

    What the two classes call but do not define (the tokenizer, the
    pricing and the size lookups of the framework, [TeiHelper], [post],
    [dumps], [loads], [to_completion_dict]) is a variable of the section
    that uses it.  A function that talks to a server takes the state of
    the world and returns the new one, together with the calls it made. *)

From Stdlib Require Import String Ascii.
From Stdlib Require Import ZArith List Bool Lia.
From Stdlib Require Import Floats.SpecFloat.
From Stdlib Require Import Floats.PrimFloat Floats.FloatOps.
From Stdlib Require Import Reals Lra Psatz.
Import ListNotations.

Local Open Scope Z_scope.

Set Warnings "-register-all".

(** ** Python strings and bytes *)

(** A [str] is a sequence of code points; [len] counts code points. *)
Definition codepoint := Z.
Definition pystr := list codepoint.
Definition pybytes := list Byte.byte.

(** An ASCII literal of the source as a [str]. *)
Definition lit (s : string) : pystr :=
  map (fun a => Z.of_N (N_of_ascii a)) (list_ascii_of_string s).

Definition len {A} (l : list A) : Z := Z.of_nat (List.length l).

Fixpoint pystr_eqb (a b : pystr) : bool :=
  match a, b with
  | [], [] => true
  | x :: a', y :: b' => Z.eqb x y && pystr_eqb a' b'
  | _, _ => false
  end.

(** [s[lo:hi]] for a sequence: negative bounds count from the end, and
    bounds are clamped to the sequence. *)
Definition clamp_index (n i : Z) : Z :=
  if i <? 0 then Z.max 0 (n + i) else Z.min n i.

Definition py_slice {A} (l : list A) (lo hi : Z) : list A :=
  let n := len l in
  let lo' := clamp_index n lo in
  let hi' := clamp_index n hi in
  firstn (Z.to_nat (hi' - lo')) (skipn (Z.to_nat lo') l).

(** ** Python values

    The values that JSON decoding produces and that the chat client
    handles: [None], [bool], [int], [float], [str], [list] and [dict] with
    string keys.  A [dict] keeps its items in insertion order. *)

Inductive pyval : Type :=
  | PNone
  | PBool (b : bool)
  | PInt (z : Z)
  | PFloat (f : spec_float)
  | PStr (s : pystr)
  | PList (l : list pyval)
  | PDict (d : list (pystr * pyval)).

Definition pydict := list (pystr * pyval).

(** ** Exceptions *)

Inductive exn : Type :=
  (* builtins *)
  | KeyError (key : pyval)
  | IndexError
  | TypeError
  | AttributeError
  | ValueError
  | ZeroDivisionError
  | OverflowError
  | UnicodeDecodeError
  | JSONDecodeError
  | RuntimeError (msg : pystr)
  | OtherException (name : pystr)
  (* dify_plugin.errors.model *)
  | InvokeServerUnavailableError (msg : pystr)
  (* models.llm.errors; the payload is the constructor argument *)
  | BadRequestError (arg : exn_arg)
  | InsufficientAccountBalanceError (arg : exn_arg)
  | InternalServerError (arg : exn_arg)
  | InvalidAPIKeyError (arg : exn_arg)
  | InvalidAuthenticationError (arg : exn_arg)
  | RateLimitReachedError (arg : exn_arg)
with exn_arg : Type :=
  | ArgVal (v : pyval)
  | ArgExn (e : exn).

Inductive res (A : Type) : Type :=
  | Ok (a : A)
  | Raise (e : exn).
Arguments Ok {A} a.
Arguments Raise {A} e.

Definition bind {A B} (r : res A) (k : A -> res B) : res B :=
  match r with
  | Ok a => k a
  | Raise e => Raise e
  end.

Notation "x <- r ;; k" := (bind r (fun x => k))
  (at level 61, r at next level, right associativity).

(** ** Python floats: IEEE-754 binary64 *)

Module PyFloat.

Definition prec : Z := 53.
Definition emax : Z := 1024.

(** An operand of a true division: the integer itself, as an unrounded
    mantissa with exponent 0. *)
Definition exact_of_Z (n : Z) : spec_float :=
  match n with
  | Z0 => S754_zero false
  | Zpos p => S754_finite false p 0
  | Zneg p => S754_finite true p 0
  end.

(** [float(n)]: round to nearest, ties to even; an integer too large for a
    double raises [OverflowError]. *)
Definition of_int (n : Z) : res spec_float :=
  match binary_normalize prec emax n 0 false with
  | S754_infinity _ => Raise OverflowError
  | f => Ok f
  end.

(** [a / b] on two ints: the exact quotient, rounded once; a zero divisor
    raises [ZeroDivisionError] and a quotient too large for a double
    [OverflowError]. *)
Definition truediv (a b : Z) : res spec_float :=
  if b =? 0 then Raise ZeroDivisionError
  else match SFdiv prec emax (exact_of_Z a) (exact_of_Z b) with
       | S754_infinity _ => Raise OverflowError
       | f => Ok f
       end.

(** [n * f] with [n] an int: the int is converted first, and the product
    of the two doubles is rounded. *)
Definition int_mul (n : Z) (f : spec_float) : res spec_float :=
  x <- of_int n ;; Ok (SFmul prec emax x f).

(** [int(f)]: truncation toward zero. *)
Definition to_int (f : spec_float) : res Z :=
  match f with
  | S754_zero _ => Ok 0
  | S754_infinity _ => Raise OverflowError
  | S754_nan => Raise ValueError
  | S754_finite s m e =>
      let a := if 0 <=? e then Z.shiftl (Zpos m) e
               else Z.shiftr (Zpos m) (- e) in
      Ok (if s then - a else a)
  end.

(** A float that is a zero or a finite number of sign [s], with exponent
    at most [E] and magnitude below [2 ^ K]. *)
Definition within (s : bool) (E K : Z) (f : spec_float) : Prop :=
  match f with
  | S754_zero s' => s' = s
  | S754_finite s' m e => s' = s /\ e <= E /\ Zpos (digits2_pos m) + e <= K
  | _ => False
  end.

(** The real number [m * 2 ^ e]. *)
Definition F2R (m e : Z) : R := (IZR m * powerRZ 2 e)%R.

End PyFloat.

(** ** Operations on Python values *)

Fixpoint dict_get (key : pystr) (d : pydict) : option pyval :=
  match d with
  | [] => None
  | (k, v) :: d' => if pystr_eqb k key then Some v else dict_get key d'
  end.

(** [d[key] = v]: an existing key keeps its position. *)
Fixpoint dict_set (key : pystr) (v : pyval) (d : pydict) : pydict :=
  match d with
  | [] => [(key, v)]
  | (k, v0) :: d' =>
      if pystr_eqb k key then (k, v) :: d' else (k, v0) :: dict_set key v d'
  end.

Definition dict_keys (d : pydict) : list pystr := map fst d.

(** [{**a, **b}]: the items of [b] are assigned over [a], in order. *)
Definition dict_update (a b : pydict) : pydict :=
  fold_left (fun acc kv => dict_set (fst kv) (snd kv) acc) b a.

(** [bool(v)]. *)
Definition py_truthy (v : pyval) : bool :=
  match v with
  | PNone => false
  | PBool b => b
  | PInt z => negb (z =? 0)
  | PFloat (S754_zero _) => false
  | PFloat _ => true
  | PStr s => match s with [] => false | _ => true end
  | PList l => match l with [] => false | _ => true end
  | PDict d => match d with [] => false | _ => true end
  end.

(** [f == k] for a float and an int: the comparison is exact. *)
Definition float_eq_int (f : spec_float) (k : Z) : bool :=
  match f with
  | S754_zero _ => k =? 0
  | S754_finite s m e =>
      let v := if s then Zneg m else Zpos m in
      if 0 <=? e then Z.shiftl v e =? k else v =? Z.shiftl k (- e)
  | _ => false
  end.

(** [v == k] for an int literal [k]; a [bool] is the int 0 or 1. *)
Definition py_eq_int (v : pyval) (k : Z) : bool :=
  match v with
  | PInt z => z =? k
  | PBool b => (if b then 1 else 0) =? k
  | PFloat f => float_eq_int f k
  | _ => false
  end.

(** [v == s] for a string literal [s]. *)
Definition py_eq_str (v : pyval) (s : pystr) : bool :=
  match v with
  | PStr t => pystr_eqb t s
  | _ => false
  end.

(** [code in {k1, ..., kn}]: the left operand is hashed first. *)
Definition py_in_int_set (v : pyval) (ks : list Z) : res bool :=
  match v with
  | PList _ | PDict _ => Raise TypeError
  | _ => Ok (existsb (py_eq_int v) ks)
  end.

Fixpoint starts_with (prefix s : pystr) : bool :=
  match prefix, s with
  | [], _ => true
  | p :: prefix', c :: s' => (p =? c) && starts_with prefix' s'
  | _ :: _, [] => false
  end.

Fixpoint is_substring (needle s : pystr) : bool :=
  starts_with needle s ||
  match s with
  | [] => false
  | _ :: s' => is_substring needle s'
  end.

(** [key in container] for a string literal [key]. *)
Definition py_contains (key : pystr) (container : pyval) : res bool :=
  match container with
  | PDict d => Ok (match dict_get key d with Some _ => true | None => false end)
  | PList l => Ok (existsb (fun v => py_eq_str v key) l)
  | PStr s => Ok (is_substring key s)
  | _ => Raise TypeError
  end.

(** [container[key]] for a string literal [key]. *)
Definition py_getitem (container : pyval) (key : pystr) : res pyval :=
  match container with
  | PDict d =>
      match dict_get key d with
      | Some v => Ok v
      | None => Raise (KeyError (PStr key))
      end
  | _ => Raise TypeError
  end.

(** [container[0]]. *)
Definition py_getitem0 (container : pyval) : res pyval :=
  match container with
  | PList (v :: _) => Ok v
  | PList [] => Raise IndexError
  | PStr (c :: _) => Ok (PStr [c])
  | PStr [] => Raise IndexError
  | PDict _ => Raise (KeyError (PInt 0))
  | _ => Raise TypeError
  end.

(** [container.get(key, default)]: only a [dict] has the method. *)
Definition py_get (container : pyval) (key : pystr) (default : pyval)
    : res pyval :=
  match container with
  | PDict d =>
      Ok (match dict_get key d with Some v => v | None => default end)
  | _ => Raise AttributeError
  end.

(** [len(v)]. *)
Definition py_len (v : pyval) : res Z :=
  match v with
  | PStr s => Ok (len s)
  | PList l => Ok (len l)
  | PDict d => Ok (len d)
  | _ => Raise TypeError
  end.

(** The items [for x in v] visits. *)
Definition py_iter (v : pyval) : res (list pyval) :=
  match v with
  | PList l => Ok l
  | PStr s => Ok (map (fun c => PStr [c]) s)
  | PDict d => Ok (map (fun kv => PStr (fst kv)) d)
  | _ => Raise TypeError
  end.

(** [isinstance(v, int)]; [bool] is a subclass of [int]. *)
Definition isinstance_int (v : pyval) : bool :=
  match v with
  | PInt _ | PBool _ => true
  | _ => false
  end.

(** [isinstance(v, float)]. *)
Definition isinstance_float (v : pyval) : bool :=
  match v with
  | PFloat _ => true
  | _ => false
  end.

(** ** Text codecs *)

(** [bytes.decode("utf-8")], strict. *)
Definition cont (b : Z) : bool := (128 <=? b) && (b <=? 191).

Fixpoint utf8_decode_Z (bs : list Z) : res pystr :=
  match bs with
  | [] => Ok []
  | b0 :: r0 =>
      if b0 <? 128 then s <- utf8_decode_Z r0 ;; Ok (b0 :: s)
      else if (194 <=? b0) && (b0 <=? 223) then
        match r0 with
        | b1 :: r1 =>
            if cont b1 then
              s <- utf8_decode_Z r1 ;;
              Ok (((b0 - 192) * 64 + (b1 - 128)) :: s)
            else Raise UnicodeDecodeError
        | _ => Raise UnicodeDecodeError
        end
      else if (224 <=? b0) && (b0 <=? 239) then
        match r0 with
        | b1 :: b2 :: r2 =>
            let lo := if b0 =? 224 then 160 else 128 in
            let hi := if b0 =? 237 then 159 else 191 in
            if (lo <=? b1) && (b1 <=? hi) && cont b2 then
              s <- utf8_decode_Z r2 ;;
              Ok (((b0 - 224) * 4096 + (b1 - 128) * 64 + (b2 - 128)) :: s)
            else Raise UnicodeDecodeError
        | _ => Raise UnicodeDecodeError
        end
      else if (240 <=? b0) && (b0 <=? 244) then
        match r0 with
        | b1 :: b2 :: b3 :: r3 =>
            let lo := if b0 =? 240 then 144 else 128 in
            let hi := if b0 =? 244 then 143 else 191 in
            if (lo <=? b1) && (b1 <=? hi) && cont b2 && cont b3 then
              s <- utf8_decode_Z r3 ;;
              Ok (((b0 - 240) * 262144 + (b1 - 128) * 4096
                   + (b2 - 128) * 64 + (b3 - 128)) :: s)
            else Raise UnicodeDecodeError
        | _ => Raise UnicodeDecodeError
        end
      else Raise UnicodeDecodeError
  end.

Definition utf8_decode (bs : pybytes) : res pystr :=
  utf8_decode_Z (map (fun b => Z.of_N (Byte.to_N b)) bs).

(** [str.isspace] on one code point. *)
Definition is_space (c : codepoint) : bool :=
  ((9 <=? c) && (c <=? 13)) || ((28 <=? c) && (c <=? 32))
  || (c =? 133) || (c =? 160) || (c =? 5760)
  || ((8192 <=? c) && (c <=? 8202))
  || (c =? 8232) || (c =? 8233) || (c =? 8239) || (c =? 8287)
  || (c =? 12288).

Fixpoint lstrip (s : pystr) : pystr :=
  match s with
  | c :: s' => if is_space c then lstrip s' else s
  | [] => []
  end.

(** [s.strip()]. *)
Definition strip (s : pystr) : pystr := rev (lstrip (rev (lstrip s))).

(** [s.rstrip('/')]. *)
Fixpoint lstrip_slash (s : pystr) : pystr :=
  match s with
  | c :: s' => if c =? 47 then lstrip_slash s' else s
  | [] => []
  end.

Definition rstrip_slash (s : pystr) : pystr := rev (lstrip_slash (rev s)).

(** ** Python [range] *)

(** [range(start, stop, step)] as the list it iterates over; a zero step
    raises [ValueError]. *)
Definition py_range (start stop step : Z) : res (list Z) :=
  if step =? 0 then Raise ValueError
  else
    let count :=
      if 0 <? step then (stop - start + step - 1) / step
      else (start - stop - step - 1) / (- step) in
    Ok (map (fun k => start + Z.of_nat k * step) (seq 0 (Z.to_nat count))).

(** * Text embedding against a TEI server *)

Module Tei.

Definition DEFAULT_MAX_RETRIES : Z := 3.
Definition DEFAULT_INVOKE_TIMEOUT : Z := 60.

(** The credentials dictionary, with the keys [_invoke] reads.  [None] is a
    key that is absent (or holds [None]). *)
Record Credentials : Type := {
  server_url : pystr;
  max_retries : option Z;
  invoke_timeout : option Z;
  api_key : option pystr
}.

(** The arguments of one [TeiHelper.invoke_embeddings] call. *)
Record TeiCall : Type := {
  call_server_url : pystr;
  call_texts : list pystr;
  call_headers : list (pystr * pystr);
  call_timeout : Z;
  call_max_retries : Z
}.

Section Invoke.

(** An embedding vector, a price amount and a latency are opaque here. *)
Variables Embedding Decimal Latency : Type.

(** Modelled from the spec: the JSON body that
    [TeiHelper.invoke_embeddings] of [models/helper.py] returns,
    [{"data": [{"embedding": [...]}, ...]}]. *)
Record EmbeddingItem : Type := { embedding : Embedding }.
Record TeiResponse : Type := { data : list EmbeddingItem }.

Record PriceInfo : Type := {
  pi_unit_price : Decimal;
  pi_unit : Decimal;
  pi_total_amount : Decimal;
  pi_currency : pystr
}.

Record EmbeddingUsage : Type := {
  tokens : Z;
  total_tokens : Z;
  unit_price : Decimal;
  price_unit : Decimal;
  total_price : Decimal;
  currency : pystr;
  latency : Latency
}.

Record TextEmbeddingResult : Type := {
  model : pystr;
  embeddings : list Embedding;
  usage : EmbeddingUsage
}.

(** The state of the outside world (the server, the clock). *)
Variable World : Type.

(** Collaborators of the framework and the helper module. *)
Variable _get_num_tokens_by_gpt2 : pystr -> Z.
Variable _get_context_size : pystr -> Credentials -> Z.
Variable _get_max_chunks : pystr -> Credentials -> Z.
Variable get_price : pystr -> Credentials -> Z -> PriceInfo.
Variable elapsed : World -> Latency.
Variable invoke_embeddings : TeiCall -> World -> res TeiResponse * World.

(** [s.removesuffix("/")]. *)
Definition removesuffix_slash (s : pystr) : pystr :=
  match rev s with
  | c :: r => if c =? 47 then rev r else s
  | [] => s
  end.

(** [int(credentials.get(k) or default)]. *)
Definition int_or (v : option Z) (default : Z) : Z :=
  match v with
  | Some n => if n =? 0 then default else n
  | None => default
  end.

Definition make_headers (key : option pystr) : list (pystr * pystr) :=
  let headers := [(lit "Content-Type", lit "application/json")] in
  match key with
  | Some k =>
      match k with
      | [] => headers
      | _ => headers ++ [(lit "Authorization", lit "Bearer " ++ k)]
      end
  | None => headers
  end.

(** [int(len(text) * (context_size / num_tokens))]. *)
Definition cutoff_of (text_len context_size num_tokens : Z) : res Z :=
  ratio <- PyFloat.truediv context_size num_tokens ;;
  prod <- PyFloat.int_mul text_len ratio ;;
  PyFloat.to_int prod.

(** The element one turn of the first loop appends to [inputs]. *)
Definition truncate (context_size : Z) (text : pystr) : res pystr :=
  let num_tokens := _get_num_tokens_by_gpt2 text in
  if num_tokens >=? context_size then
    cutoff <- cutoff_of (len text) context_size num_tokens ;;
    Ok (py_slice text 0 cutoff)
  else Ok text.

(** The loop variables of the first loop. *)
Record Prepared : Type := {
  inputs : list pystr;
  indices : list Z;
  used_tokens : Z
}.

(** [for i, text in enumerate(texts)], entered at index [i]. *)
Fixpoint prepare_from (context_size : Z) (i : Z) (texts : list pystr)
    (st : Prepared) : res Prepared :=
  match texts with
  | [] => Ok st
  | text :: rest =>
      input <- truncate context_size text ;;
      prepare_from context_size (i + 1) rest
        {| inputs := inputs st ++ [input];
           indices := indices st ++ [i];
           used_tokens := used_tokens st + _get_num_tokens_by_gpt2 text |}
  end.

Definition prepare (context_size : Z) (texts : list pystr) : res Prepared :=
  prepare_from context_size 0 texts
    {| inputs := []; indices := []; used_tokens := 0 |}.

(** What has been observed on the wire: each helper call with its
    outcome, oldest first. *)
Definition Log : Type := list (TeiCall * res TeiResponse).

(** [for i in _iter], inside the [try]: one helper call per index. *)
Fixpoint embed_loop (mk : list pystr -> TeiCall) (inps : list pystr)
    (max_chunks : Z) (iter : list Z) (batched_embeddings : list Embedding)
    (w : World) (log : Log) : res (list Embedding) * World * Log :=
  match iter with
  | [] => (Ok batched_embeddings, w, log)
  | i :: iter' =>
      let iter_texts := py_slice inps i (i + max_chunks) in
      let call := mk iter_texts in
      let '(out, w') := invoke_embeddings call w in
      let log' := log ++ [(call, out)] in
      match out with
      | Ok results =>
          embed_loop mk inps max_chunks iter'
            (batched_embeddings ++ map embedding (data results)) w' log'
      | Raise (RuntimeError msg) =>
          (Raise (InvokeServerUnavailableError msg), w', log')
      | Raise e => (Raise e, w', log')
      end
  end.

Definition _calc_response_usage (mdl : pystr) (credentials : Credentials)
    (tkns : Z) (w : World) : EmbeddingUsage :=
  let input_price_info := get_price mdl credentials tkns in
  {| tokens := tkns;
     total_tokens := tkns;
     unit_price := pi_unit_price input_price_info;
     price_unit := pi_unit input_price_info;
     total_price := pi_total_amount input_price_info;
     currency := pi_currency input_price_info;
     latency := elapsed w |}.

(** [_invoke] returns its result, the world after it, and the helper
    calls it made. *)
Definition _invoke (mdl : pystr) (credentials : Credentials)
    (texts : list pystr) (w : World)
    : res TextEmbeddingResult * World * Log :=
  let url := removesuffix_slash (server_url credentials) in
  let retries := int_or (max_retries credentials) DEFAULT_MAX_RETRIES in
  let timeout := int_or (invoke_timeout credentials) DEFAULT_INVOKE_TIMEOUT in
  let headers := make_headers (api_key credentials) in
  let context_size := _get_context_size mdl credentials in
  let max_chunks := _get_max_chunks mdl credentials in
  match prepare context_size texts with
  | Raise e => (Raise e, w, [])
  | Ok p =>
      match py_range 0 (len (inputs p)) max_chunks with
      | Raise e => (Raise e, w, [])
      | Ok _iter =>
          let mk := fun iter_texts =>
            {| call_server_url := url; call_texts := iter_texts;
               call_headers := headers; call_timeout := timeout;
               call_max_retries := retries |} in
          let '(out, w', log) :=
            embed_loop mk (inputs p) max_chunks _iter [] w [] in
          match out with
          | Raise e => (Raise e, w', log)
          | Ok batched_embeddings =>
              (Ok {| model := mdl;
                     embeddings := batched_embeddings;
                     usage := _calc_response_usage mdl credentials
                                (used_tokens p) w' |},
               w', log)
          end
      end
  end.

(** The sum of the token estimates of the texts as given. *)
Definition estimated_tokens (texts : list pystr) : Z :=
  fold_right (fun text acc => _get_num_tokens_by_gpt2 text + acc) 0 texts.

(** The texts of a logged call, and the embeddings its response holds. *)
Definition sent (entry : TeiCall * res TeiResponse) : list pystr :=
  call_texts (fst entry).

Definition answered (entry : TeiCall * res TeiResponse) : list Embedding :=
  match snd entry with
  | Ok results => map embedding (data results)
  | Raise _ => []
  end.

(** The chunks of the second loop, as the list of [iter_texts]. *)
Definition chunks (inps : list pystr) (max_chunks : Z) : list (list pystr) :=
  match py_range 0 (len inps) max_chunks with
  | Ok iter => map (fun i => py_slice inps i (i + max_chunks)) iter
  | Raise _ => []
  end.

End Invoke.

Arguments embedding {Embedding} _.
Arguments data {Embedding} _.
Arguments tokens {Decimal Latency} _.
Arguments total_tokens {Decimal Latency} _.
Arguments model {Embedding Decimal Latency} _.
Arguments embeddings {Embedding Decimal Latency} _.
Arguments usage {Embedding Decimal Latency} _.
Arguments sent {Embedding} _.
Arguments answered {Embedding} _.

End Tei.

(** * JSON decoding

    [json.loads] on a [str], as the default decoder does it: numbers
    without fraction and exponent become [int], the others [float]; the
    literals [NaN], [Infinity] and [-Infinity] are accepted; in an object
    with a repeated key the last value wins.  The interpreter's limits on
    nesting depth and on the number of digits of an [int] are not
    modelled. *)

Module Json.

Definition is_ws (c : codepoint) : bool :=
  (c =? 32) || (c =? 9) || (c =? 10) || (c =? 13).

Fixpoint skip_ws (s : pystr) : pystr :=
  match s with
  | c :: s' => if is_ws c then skip_ws s' else s
  | [] => []
  end.

Definition is_digit (c : codepoint) : bool := (48 <=? c) && (c <=? 57).

(** The longest prefix of digits, as digit values. *)
Fixpoint take_digits (s : pystr) : list Z * pystr :=
  match s with
  | c :: s' =>
      if is_digit c then
        let '(ds, r) := take_digits s' in ((c - 48) :: ds, r)
      else ([], s)
  | [] => ([], [])
  end.

Definition digits_value (ds : list Z) : Z :=
  fold_left (fun acc d => 10 * acc + d) ds 0.

Definition hex_value (c : codepoint) : option Z :=
  if is_digit c then Some (c - 48)
  else if (97 <=? c) && (c <=? 102) then Some (c - 87)
  else if (65 <=? c) && (c <=? 70) then Some (c - 55)
  else None.

Definition hex4 (a b c d : codepoint) : option Z :=
  match hex_value a, hex_value b, hex_value c, hex_value d with
  | Some x, Some y, Some z, Some t => Some (((x * 16 + y) * 16 + z) * 16 + t)
  | _, _, _, _ => None
  end.

(** The character a one-letter escape stands for. *)
Definition simple_escape (c : codepoint) : option codepoint :=
  if c =? 34 then Some 34
  else if c =? 92 then Some 92
  else if c =? 47 then Some 47
  else if c =? 98 then Some 8
  else if c =? 102 then Some 12
  else if c =? 110 then Some 10
  else if c =? 114 then Some 13
  else if c =? 116 then Some 9
  else None.

(** A string, after its opening quote. *)
Fixpoint parse_string (s : pystr) : option (pystr * pystr) :=
  match s with
  | [] => None
  | c :: s1 =>
      if c =? 34 then Some ([], s1)
      else if c =? 92 then
        match s1 with
        | [] => None
        | e :: s2 =>
            if e =? 117 then
              match s2 with
              | h1 :: h2 :: h3 :: h4 :: s3 =>
                  match hex4 h1 h2 h3 h4 with
                  | None => None
                  | Some hi =>
                      let single :=
                        match parse_string s3 with
                        | Some (t, r) => Some (hi :: t, r)
                        | None => None
                        end in
                      if (55296 <=? hi) && (hi <=? 56319) then
                        match s3 with
                        | 92 :: 117 :: l1 :: l2 :: l3 :: l4 :: s4 =>
                            match hex4 l1 l2 l3 l4 with
                            | Some lo =>
                                if (56320 <=? lo) && (lo <=? 57343) then
                                  match parse_string s4 with
                                  | Some (t, r) =>
                                      Some ((65536 + (hi - 55296) * 1024
                                             + (lo - 56320)) :: t, r)
                                  | None => None
                                  end
                                else single
                            | None => single
                            end
                        | _ => single
                        end
                      else single
                  end
              | _ => None
              end
            else
              match simple_escape e with
              | Some x =>
                  match parse_string s2 with
                  | Some (t, r) => Some (x :: t, r)
                  | None => None
                  end
              | None => None
              end
        end
      else if c <? 32 then None
      else
        match parse_string s1 with
        | Some (t, r) => Some (c :: t, r)
        | None => None
        end
  end.

(** [float] of the decimal [m * 10 ^ e10], correctly rounded. *)
Definition decimal_to_float (neg : bool) (m e10 : Z) : spec_float :=
  if m =? 0 then S754_zero neg
  else
    let sm := if neg then - m else m in
    if 0 <=? e10 then
      binary_normalize PyFloat.prec PyFloat.emax (sm * 10 ^ e10) 0 false
    else
      SFdiv PyFloat.prec PyFloat.emax
        (PyFloat.exact_of_Z sm) (PyFloat.exact_of_Z (10 ^ (- e10))).

(** A number, after its optional sign; [s] starts with a digit. *)
Definition parse_number (neg : bool) (s : pystr) : option (pyval * pystr) :=
  let '(ip, r0) :=
    match s with
    | 48 :: r => ([0], r)
    | _ => take_digits s
    end in
  match ip with
  | [] => None
  | _ =>
      let '(fp, r1) :=
        match r0 with
        | 46 :: r =>
            match take_digits r with
            | ([], _) => ([], r0)
            | (ds, r') => (ds, r')
            end
        | _ => ([], r0)
        end in
      let '(ex, r2) :=
        match r1 with
        | e :: r =>
            if (e =? 101) || (e =? 69) then
              let '(sgn, r') :=
                match r with
                | 43 :: t => (false, t)
                | 45 :: t => (true, t)
                | _ => (false, r)
                end in
              match take_digits r' with
              | ([], _) => (None, r1)
              | (ds, r'') =>
                  let v := digits_value ds in
                  (Some (if sgn then - v else v), r'')
              end
            else (None, r1)
        | [] => (None, r1)
        end in
      match fp, ex with
      | [], None =>
          let v := digits_value ip in
          Some (PInt (if neg then - v else v), r2)
      | _, _ =>
          let e := match ex with Some e => e | None => 0 end in
          Some (PFloat (decimal_to_float neg (digits_value (ip ++ fp))
                          (e - len fp)), r2)
      end
  end.

Definition strip_prefix (prefix s : pystr) : option pystr :=
  if starts_with prefix s then Some (skipn (List.length prefix) s) else None.

Definition parse_literal (s : pystr) : option (pyval * pystr) :=
  match strip_prefix (lit "null") s with
  | Some r => Some (PNone, r)
  | None =>
  match strip_prefix (lit "true") s with
  | Some r => Some (PBool true, r)
  | None =>
  match strip_prefix (lit "false") s with
  | Some r => Some (PBool false, r)
  | None =>
  match strip_prefix (lit "NaN") s with
  | Some r => Some (PFloat S754_nan, r)
  | None =>
  match strip_prefix (lit "Infinity") s with
  | Some r => Some (PFloat (S754_infinity false), r)
  | None =>
  match strip_prefix (lit "-Infinity") s with
  | Some r => Some (PFloat (S754_infinity true), r)
  | None =>
  match s with
  | 45 :: r => parse_number true r
  | _ => parse_number false s
  end end end end end end end.

(** A value, the elements of an array after [[], and the members of an
    object after [{]; [fuel] bounds the number of nested calls. *)
Fixpoint parse_value (fuel : nat) (s : pystr) : option (pyval * pystr) :=
  match fuel with
  | O => None
  | S fuel' =>
      match s with
      | [] => None
      | c :: s1 =>
          if c =? 34 then
            match parse_string s1 with
            | Some (t, r) => Some (PStr t, r)
            | None => None
            end
          else if c =? 91 then
            match skip_ws s1 with
            | 93 :: r => Some (PList [], r)
            | s2 => parse_elems fuel' s2 []
            end
          else if c =? 123 then
            match skip_ws s1 with
            | 125 :: r => Some (PDict [], r)
            | s2 => parse_members fuel' s2 []
            end
          else parse_literal s
      end
  end
with parse_elems (fuel : nat) (s : pystr) (acc : list pyval)
    : option (pyval * pystr) :=
  match fuel with
  | O => None
  | S fuel' =>
      match parse_value fuel' s with
      | None => None
      | Some (v, s1) =>
          match skip_ws s1 with
          | 93 :: r => Some (PList (rev (v :: acc)), r)
          | 44 :: r => parse_elems fuel' (skip_ws r) (v :: acc)
          | _ => None
          end
      end
  end
with parse_members (fuel : nat) (s : pystr) (acc : pydict)
    : option (pyval * pystr) :=
  match fuel with
  | O => None
  | S fuel' =>
      match s with
      | 34 :: s1 =>
          match parse_string s1 with
          | None => None
          | Some (key, s2) =>
              match skip_ws s2 with
              | 58 :: s3 =>
                  match parse_value fuel' (skip_ws s3) with
                  | None => None
                  | Some (v, s4) =>
                      let acc' := dict_set key v acc in
                      match skip_ws s4 with
                      | 125 :: r => Some (PDict acc', r)
                      | 44 :: r => parse_members fuel' (skip_ws r) acc'
                      | _ => None
                      end
                  end
              | _ => None
              end
          end
      | _ => None
      end
  end.

Definition loads (s : pystr) : res pyval :=
  match parse_value (2 * List.length s + 2) (skip_ws s) with
  | Some (v, r) =>
      match skip_ws r with
      | [] => Ok v
      | _ => Raise JSONDecodeError
      end
  | None => Raise JSONDecodeError
  end.

End Json.

(** * Chat completion against the Minimax API *)

Module Minimax.

(** Modelled from the spec: the [MinimaxMessage] class of
    [models/llm/types.py], a message with a role among system, user and
    assistant, a content, an optional usage and an optional stop reason. *)
Inductive Role : Type := SYSTEM | USER | ASSISTANT.

Definition role_eqb (a b : Role) : bool :=
  match a, b with
  | SYSTEM, SYSTEM | USER, USER | ASSISTANT, ASSISTANT => true
  | _, _ => false
  end.

(** The [usage] dictionary, which always has these three keys. *)
Record Usage : Type := {
  prompt_tokens : pyval;
  completion_tokens : pyval;
  total_tokens : pyval
}.

Record MinimaxMessage : Type := {
  role : Role;
  content : pyval;
  usage : option Usage;
  stop_reason : option pyval
}.

(** [MinimaxMessage(content=c, role=r)]. *)
Definition new_message (c : pyval) (r : Role) : MinimaxMessage :=
  {| role := r; content := c; usage := None; stop_reason := None |}.

(** The keyword arguments of [requests.post]. *)
Record Request : Type := {
  req_url : pystr;
  req_data : pystr;
  req_headers : list (pystr * pystr);
  req_stream : bool;
  req_timeout : Z * Z
}.

(** What the code reads of a [requests.Response]. *)
Record Response : Type := {
  status_code : Z;
  text : pystr;
  json : res pyval;
  iter_lines : list pybytes
}.

(** ** The error mapper *)

Definition _handle_error (code msg : pyval) : res unit :=
  in1 <- py_in_int_set code [1000; 1001; 1013; 1027] ;;
  if in1 then Raise (InternalServerError (ArgVal msg))
  else
    in2 <- py_in_int_set code [1002; 1039] ;;
    if in2 then Raise (RateLimitReachedError (ArgVal msg))
    else if py_eq_int code 1004 then
      Raise (InvalidAuthenticationError (ArgVal msg))
    else if py_eq_int code 1008 then
      Raise (InsufficientAccountBalanceError (ArgVal msg))
    else if py_eq_int code 2013 then Raise (BadRequestError (ArgVal msg))
    else Raise (InternalServerError (ArgVal msg)).

(** The test both response handlers start with:
    [if "base_resp" in data and data["base_resp"]["status_code"] != 0]. *)
Definition check_base_resp (data : pyval) : res unit :=
  has <- py_contains (lit "base_resp") data ;;
  if has then
    base_resp <- py_getitem data (lit "base_resp") ;;
    status <- py_getitem base_resp (lit "status_code") ;;
    if negb (py_eq_int status 0) then
      base_resp <- py_getitem data (lit "base_resp") ;;
      code <- py_getitem base_resp (lit "status_code") ;;
      base_resp <- py_getitem data (lit "base_resp") ;;
      msg <- py_getitem base_resp (lit "status_msg") ;;
      _handle_error code msg
    else Ok tt
  else Ok tt.

(** The three-key usage dictionary built from [total_tokens]. *)
Definition usage_of (tt : pyval) : Usage :=
  {| prompt_tokens := PInt 0; completion_tokens := tt; total_tokens := tt |}.

(** [data["choices"][0]["finish_reason"]]. *)
Definition finish_reason_of (data : pyval) : res pyval :=
  choices <- py_getitem data (lit "choices") ;;
  choice <- py_getitem0 choices ;;
  py_getitem choice (lit "finish_reason").

(** ** The non-streaming response *)

Definition _handle_chat_generate_response (response : Response)
    : res MinimaxMessage :=
  response <- json response ;;
  _ <- check_base_resp response ;;
  reply <- py_getitem response (lit "reply") ;;
  usage <- py_getitem response (lit "usage") ;;
  completion <- py_getitem usage (lit "total_tokens") ;;
  usage <- py_getitem response (lit "usage") ;;
  total <- py_getitem usage (lit "total_tokens") ;;
  reason <- finish_reason_of response ;;
  Ok {| role := ASSISTANT; content := reply;
        usage := Some {| prompt_tokens := PInt 0;
                         completion_tokens := completion;
                         total_tokens := total |};
        stop_reason := Some reason |}.

(** ** The stream decoder *)

Section Stream.

(** [json.loads]. *)
Variable loads : pystr -> res pyval.

(** A non-empty line up to [data = loads(line)]. *)
Definition decode_record (line : pybytes) : res pyval :=
  line <- utf8_decode line ;;
  let line :=
    if starts_with (lit "data: ") line then strip (skipn 6 line) else line in
  loads line.

(** How the body of the [for line] loop (lines 117 to 139) leaves one
    line: with [continue], with an exception, with the [yield] of the
    terminal message followed by [return], or by entering
    [for choice in choices]. *)
Inductive LineResult : Type :=
  | LContinue
  | LRaise (e : exn)
  | LTerminal (message : MinimaxMessage)
  | LChoices (choices : list pyval).

(** Lines 123 to 137, on the record that [loads] returned. *)
Definition handle_record (data : pyval) : res LineResult :=
  _ <- check_base_resp data ;;
  reply <- py_getitem data (lit "reply") ;;
  if py_truthy reply then
    usage <- py_getitem data (lit "usage") ;;
    total_tokens <- py_getitem usage (lit "total_tokens") ;;
    reason <- finish_reason_of data ;;
    Ok (LTerminal {| role := ASSISTANT; content := PStr (lit "");
                     usage := Some (usage_of total_tokens);
                     stop_reason := Some reason |})
  else
    choices <- py_get data (lit "choices") (PList []) ;;
    n <- py_len choices ;;
    if n =? 0 then Ok LContinue
    else
      items <- py_iter choices ;;
      Ok (LChoices items).

(** Lines 117 to 137, on one line of the response. *)
Definition handle_line (line : pybytes) : LineResult :=
  match line with
  | [] => LContinue
  | _ =>
      match (data <- decode_record line ;; handle_record data) with
      | Ok r => r
      | Raise e => LRaise e
      end
  end.

(** The generator object: where it is suspended, and what is left of the
    line iterator it reads from. *)
Inductive GenStatus : Type :=
  | Running (pending : list pyval)
  | Finished.

Record StreamGen : Type := {
  status : GenStatus;
  source : list pybytes
}.

(** The outcome of one [next()] on the generator. *)
Inductive GenEvent : Type :=
  | Yield (message : MinimaxMessage)
  | StopIteration
  | Raised (e : exn).

(** One turn of [for choice in choices] (lines 138 and 139); the
    generator is suspended at the [yield] with the choices left. *)
Definition emit_choice (choice : pyval) (rest : list pyval)
    (src : list pybytes) : GenEvent * StreamGen :=
  match py_getitem choice (lit "delta") with
  | Ok message =>
      (Yield (new_message message ASSISTANT),
       {| status := Running rest; source := src |})
  | Raise e => (Raised e, {| status := Finished; source := src |})
  end.

(** Resume at the head of [for line in response.iter_lines()] and run to
    the next [yield], exception or end of the lines.  After the terminal
    message the generator is finished: resumed, it executes [return]
    without reading a line. *)
Fixpoint read_lines (src : list pybytes) : GenEvent * StreamGen :=
  match src with
  | [] => (StopIteration, {| status := Finished; source := [] |})
  | line :: rest =>
      match handle_line line with
      | LContinue => read_lines rest
      | LRaise e => (Raised e, {| status := Finished; source := rest |})
      | LTerminal message =>
          (Yield message, {| status := Finished; source := rest |})
      | LChoices [] => read_lines rest
      | LChoices (choice :: choices) => emit_choice choice choices rest
      end
  end.

(** [next(gen)]. *)
Definition next (g : StreamGen) : GenEvent * StreamGen :=
  match status g with
  | Finished => (StopIteration, g)
  | Running [] => read_lines (source g)
  | Running (choice :: choices) => emit_choice choice choices (source g)
  end.

(** Calling the generator function creates the generator; nothing is
    read before the first [next]. *)
Definition _handle_stream_chat_generate_response (response : Response)
    : StreamGen :=
  {| status := Running []; source := iter_lines response |}.

(** [list(gen)] cut after [n] pulls: the messages yielded, and how the
    last pull ended if the generator stopped within [n] pulls. *)
Fixpoint pull (n : nat) (g : StreamGen)
    : list MinimaxMessage * option GenEvent * StreamGen :=
  match n with
  | O => ([], None, g)
  | S n' =>
      match next g with
      | (Yield m, g') =>
          let '(ms, fin, g'') := pull n' g' in (m :: ms, fin, g'')
      | (ev, g') => ([], Some ev, g')
      end
  end.

End Stream.

(** ** The request *)

Section Generate.

Variable World : Type.

(** [requests.post], [json.dumps] and [MinimaxMessage.to_completion_dict]. *)
Variable post : Request -> World -> res Response * World.
Variable dumps : pyval -> pystr.
Variable to_completion_dict : MinimaxMessage -> pyval.

Definition default_prompt : pystr :=
  [20320; 26159; 19968; 20010; 20160; 20040; 37117; 25026; 30340; 19987;
   23478].

Definition role_meta : pydict :=
  [(lit "user_name", PStr [25105]); (lit "bot_name", PStr [19987; 23478])].

(** [if key in model_parameters and isinstance(model_parameters[key], T):
    extra_kwargs[target] = model_parameters[key]]. *)
Definition forward (model_parameters : pydict) (key : pystr)
    (isinstance_T : pyval -> bool) (target : pystr) (extra_kwargs : pydict)
    : pydict :=
  match dict_get key model_parameters with
  | Some v =>
      if isinstance_T v then dict_set target v extra_kwargs else extra_kwargs
  | None => extra_kwargs
  end.

Definition extra_kwargs_of (model_parameters : pydict) : pydict :=
  let extra_kwargs := [] in
  let extra_kwargs :=
    forward model_parameters (lit "max_tokens") isinstance_int
      (lit "tokens_to_generate") extra_kwargs in
  let extra_kwargs :=
    forward model_parameters (lit "temperature") isinstance_float
      (lit "temperature") extra_kwargs in
  forward model_parameters (lit "top_p") isinstance_float
    (lit "top_p") extra_kwargs.

(** Lines 50 to 59: the prompt and the messages left to send. *)
Definition split_prompt (prompt_messages : list MinimaxMessage)
    : res (pyval * list MinimaxMessage) :=
  let prompt := PStr default_prompt in
  match prompt_messages with
  | [] =>
      Raise (BadRequestError
               (ArgVal (PStr (lit "At least one message is required"))))
  | first :: others =>
      let '(prompt, prompt_messages) :=
        if role_eqb (role first) SYSTEM then
          ((if py_truthy (content first) then content first else prompt),
           others)
        else (prompt, prompt_messages) in
      match prompt_messages with
      | [] =>
          Raise (BadRequestError
                   (ArgVal (PStr (lit "At least one user message is required"))))
      | _ => Ok (prompt, prompt_messages)
      end
  end.

Definition body_of (model : pystr) (messages : list pyval) (prompt : pyval)
    (stream : bool) (extra_kwargs : pydict) : pydict :=
  dict_update
    [(lit "model", PStr model);
     (lit "messages", PList messages);
     (lit "prompt", prompt);
     (lit "role_meta", PDict role_meta);
     (lit "stream", PBool stream)]
    extra_kwargs.

(** Lines 40 to 49 and 60 to 69: the arguments of the [post] call, given
    the prompt and the messages that lines 50 to 59 leave. *)
Definition build_request (model api_key group_id endpoint_url : pystr)
    (model_parameters : pydict) (stream : bool) (prompt : pyval)
    (prompt_messages : list MinimaxMessage) : Request :=
  let base_url := rstrip_slash endpoint_url in
  let url :=
    base_url ++ lit "/v1/text/chatcompletion?GroupId=" ++ group_id in
  let extra_kwargs := extra_kwargs_of model_parameters in
  let messages := map to_completion_dict prompt_messages in
  let headers :=
    [(lit "Authorization", lit "Bearer " ++ api_key);
     (lit "Content-Type", lit "application/json")] in
  let body := body_of model messages prompt stream extra_kwargs in
  {| req_url := url; req_data := dumps (PDict body);
     req_headers := headers; req_stream := stream;
     req_timeout := (10, 300) |}.

(** What [generate] returns. *)
Inductive Generated : Type :=
  | Message (m : MinimaxMessage)
  | Stream (g : StreamGen).

(** [generate] returns its result, the world after it, and the HTTP
    requests it issued, oldest first. *)
Definition generate (model api_key group_id endpoint_url : pystr)
    (prompt_messages : list MinimaxMessage) (model_parameters : pydict)
    (tools : list pydict) (stop : option (list pystr)) (stream : bool)
    (user : pystr) (w : World) : res Generated * World * list Request :=
  match api_key, group_id with
  | [], _ | _, [] =>
      (Raise (InvalidAPIKeyError
                (ArgVal (PStr (lit "Invalid API key or group ID")))), w, [])
  | _, _ =>
      match split_prompt prompt_messages with
      | Raise e => (Raise e, w, [])
      | Ok (prompt, prompt_messages) =>
          let request :=
            build_request model api_key group_id endpoint_url
              model_parameters stream prompt prompt_messages in
          match post request w with
          | (Raise e, w') =>
              (Raise (InternalServerError (ArgExn e)), w', [request])
          | (Ok response, w') =>
              if negb (status_code response =? 200) then
                (Raise (InternalServerError (ArgVal (PStr (text response)))),
                 w', [request])
              else if stream then
                (Ok (Stream (_handle_stream_chat_generate_response response)),
                 w', [request])
              else
                match _handle_chat_generate_response response with
                | Ok m => (Ok (Message m), w', [request])
                | Raise e => (Raise e, w', [request])
                end
          end
      end
  end.

(** What the parameter rule forwards for one key of [model_parameters]:
    its value when the key is present with a value of the given type. *)
Definition forwarded (model_parameters : pydict) (key : pystr)
    (isinstance_T : pyval -> bool) : option pyval :=
  match dict_get key model_parameters with
  | Some v => if isinstance_T v then Some v else None
  | None => None
  end.

(** The keys a request body can have. *)
Definition body_keys : list pystr :=
  [lit "model"; lit "messages"; lit "prompt"; lit "role_meta"; lit "stream";
   lit "tokens_to_generate"; lit "temperature"; lit "top_p"].

End Generate.

End Minimax.

(** * Concrete inputs used by the examples below *)

Module Samples.

(** A byte-string literal in which an apostrophe stands for the double
    quote of the JSON text. *)
Definition jbytes (s : string) : pybytes :=
  map (fun b => match b with Byte.x27 => Byte.x22 | _ => b end)
    (list_byte_of_string s).

(** The two lines of the streaming example. *)
Definition line_delta : pybytes :=
  jbytes "data: {'choices':[{'delta':'Hi'}]}".
Definition line_final : pybytes :=
  jbytes "data: {'reply':'Hi','usage':{'total_tokens':3},'choices':[{'finish_reason':'stop'}]}".

(** The first line as the vendor sends it, with an empty reply. *)
Definition line_delta_reply : pybytes :=
  jbytes "data: {'reply':'','choices':[{'delta':'Hi'}]}".

(** Records with an embedded status. *)
Definition line_unauthorized : pybytes :=
  jbytes "data: {'base_resp':{'status_code':1004,'status_msg':'denied'}}".
Definition line_status_only : pybytes :=
  jbytes "data: {'base_resp':{'status_code':1004}}".

Definition stream_of (lines : list pybytes) : Minimax.StreamGen :=
  Minimax._handle_stream_chat_generate_response
    {| Minimax.status_code := 200; Minimax.text := [];
       Minimax.json := Raise JSONDecodeError; Minimax.iter_lines := lines |}.

(** A server that refuses every connection, a serializer that keeps only
    the keys, and a message encoder that sends the content. *)
Definition post_refused (r : Minimax.Request) (w : unit)
    : res Minimax.Response * unit :=
  (Raise (OtherException (lit "ConnectionError")), w).

Definition dumps_keys (v : pyval) : pystr :=
  match v with
  | PDict d => List.concat (map fst d)
  | _ => []
  end.

Definition to_content (m : Minimax.MinimaxMessage) : pyval :=
  Minimax.content m.

Definition system_x : Minimax.MinimaxMessage :=
  Minimax.new_message (PStr (lit "X")) Minimax.SYSTEM.
Definition user_hello : Minimax.MinimaxMessage :=
  Minimax.new_message (PStr (lit "hello")) Minimax.USER.

Definition sample_generate (api_key group_id : pystr)
    (messages : list Minimax.MinimaxMessage) (parameters : pydict) :=
  Minimax.generate unit post_refused dumps_keys to_content
    (lit "abab5.5-chat") api_key group_id (lit "https://api.minimax.chat/")
    messages parameters [] None false (lit "u") tt.

(** A tokenizer that counts one token per character, and a server that
    answers every text with its length. *)
Definition char_tokens (text : pystr) : Z := len text.

Definition echo_server (call : Tei.TeiCall) (w : unit)
    : res (Tei.TeiResponse Z) * unit :=
  (Ok {| Tei.data := map (fun t => {| Tei.embedding := len t |})
                       (Tei.call_texts call) |}, w).

Definition sample_credentials : Tei.Credentials :=
  {| Tei.server_url := lit "http://tei/"; Tei.max_retries := None;
     Tei.invoke_timeout := None; Tei.api_key := None |}.

Definition sample_invoke (context_size max_chunks : Z) (texts : list pystr) :=
  Tei._invoke Z unit unit unit char_tokens
    (fun _ _ => context_size) (fun _ _ => max_chunks)
    (fun _ _ _ => {| Tei.pi_unit_price := tt; Tei.pi_unit := tt;
                     Tei.pi_total_amount := tt; Tei.pi_currency := lit "USD" |})
    (fun _ => tt) echo_server (lit "tei") sample_credentials texts tt.

End Samples.

(** * Set-up of the embedding model

    The other methods of the embedding model: [get_num_tokens],
    [validate_credentials] and [get_customizable_model_schema]. *)

Module TeiSetup.

(** Modelled from the spec: what [TeiHelper.get_tei_extra_parameter] of
    [models/helper.py] reports about the server: the model type, the
    context size and the batch size. *)
Record TeiModelExtraParameter : Type := {
  model_type : pystr;
  max_input_length : Z;
  max_client_batch_size : Z
}.

(** The credentials dictionary with the two keys that validation writes
    and the schema reads; [None] is an absent key. *)
Record CredentialsDict : Type := {
  known : Tei.Credentials;
  context_size : option Z;
  max_chunks : option Z
}.

(** The arguments of one [TeiHelper.get_tei_extra_parameter] call. *)
Record ProbeCall : Type := {
  probe_server_url : pystr;
  probe_model : pystr;
  probe_headers : list (pystr * pystr)
}.

(** The entities of [dify_plugin.entities.model] that the schema is made
    of, with the members this model uses. *)
Inductive FetchFrom : Type := PREDEFINED_MODEL | CUSTOMIZABLE_MODEL.
Inductive ModelType : Type := LLM | TEXT_EMBEDDING | RERANK.
Inductive ModelPropertyKey : Type := MODE | CONTEXT_SIZE | MAX_CHUNKS.

Record I18nObject : Type := { en_US : pystr }.

Record AIModelEntity : Type := {
  entity_model : pystr;
  label : I18nObject;
  fetch_from : FetchFrom;
  entity_model_type : ModelType;
  model_properties : list (ModelPropertyKey * Z);
  parameter_rules : list pyval
}.

(** [credentials.get(key, default)] followed by [int]. *)
Definition int_get (v : option Z) (default : Z) : Z :=
  match v with
  | Some n => n
  | None => default
  end.

Definition get_customizable_model_schema (mdl : pystr)
    (credentials : CredentialsDict) : option AIModelEntity :=
  let entity :=
    {| entity_model := mdl;
       label := {| en_US := mdl |};
       fetch_from := CUSTOMIZABLE_MODEL;
       entity_model_type := TEXT_EMBEDDING;
       model_properties :=
         [(MAX_CHUNKS, int_get (max_chunks credentials) 1);
          (CONTEXT_SIZE, int_get (context_size credentials) 512)];
       parameter_rules := [] |} in
  Some entity.

(** [model_properties[key]]. *)
Fixpoint property (key : ModelPropertyKey)
    (properties : list (ModelPropertyKey * Z)) : option Z :=
  match properties with
  | [] => None
  | (k, v) :: rest =>
      match k, key with
      | MODE, MODE | CONTEXT_SIZE, CONTEXT_SIZE | MAX_CHUNKS, MAX_CHUNKS =>
          Some v
      | _, _ => property key rest
      end
  end.

Section Setup.

Variables Embedding Decimal Latency World : Type.

(** The collaborators of [_invoke], which here read the whole
    dictionary, the server probe of the helper module, and [str] on an
    exception. *)
Variable _get_num_tokens_by_gpt2 : pystr -> Z.
Variable _get_context_size : pystr -> CredentialsDict -> Z.
Variable _get_max_chunks : pystr -> CredentialsDict -> Z.
Variable get_price : pystr -> CredentialsDict -> Z -> Tei.PriceInfo Decimal.
Variable elapsed : World -> Latency.
Variable invoke_embeddings :
  Tei.TeiCall -> World -> res (Tei.TeiResponse Embedding) * World.
Variable get_tei_extra_parameter :
  ProbeCall -> World -> res TeiModelExtraParameter * World.
Variable str : exn -> pystr.

(** [for text in texts: tokens.append(...)], entered with [tokens]. *)
Fixpoint get_num_tokens_from (texts : list pystr) (tokens : list Z)
    : list Z :=
  match texts with
  | [] => tokens
  | text :: rest =>
      get_num_tokens_from rest (tokens ++ [_get_num_tokens_by_gpt2 text])
  end.

Definition get_num_tokens (mdl : pystr) (credentials : CredentialsDict)
    (texts : list pystr) : list Z :=
  get_num_tokens_from texts [].

(** [self._invoke(model, credentials, texts)] on the dictionary: the keys
    [_invoke] reads itself are those of [known]; the collaborators get
    the dictionary as it is. *)
Definition _invoke (mdl : pystr) (credentials : CredentialsDict)
    (texts : list pystr) (w : World) :=
  let whole := fun c : Tei.Credentials =>
    {| known := c; context_size := context_size credentials;
       max_chunks := max_chunks credentials |} in
  Tei._invoke Embedding Decimal Latency World _get_num_tokens_by_gpt2
    (fun m c => _get_context_size m (whole c))
    (fun m c => _get_max_chunks m (whole c))
    (fun m c t => get_price m (whole c) t)
    elapsed invoke_embeddings mdl (known credentials) texts w.

(** How [validate_credentials] ends: it returns [None], or raises
    [CredentialsValidateFailedError]; the [except Exception] clause lets
    no other exception through. *)
Inductive Validation : Type :=
  | Valid
  | CredentialsValidateFailedError (msg : pystr).

(** A run of [validate_credentials]: how it ends, the dictionary the
    caller is left with, the world, the probes and the embedding calls
    made, and what was printed. *)
Record Validated : Type := {
  verdict : Validation;
  credentials_after : CredentialsDict;
  world_after : World;
  probes : list ProbeCall;
  printed : list TeiModelExtraParameter;
  calls : Tei.Log Embedding
}.

(** The exception raised at line 137 is caught at line 143 like any
    other; its [str] is its only argument. *)
Definition validate_credentials (mdl : pystr) (credentials : CredentialsDict)
    (w : World) : Validated :=
  let server_url := Tei.server_url (known credentials) in
  let headers := Tei.make_headers (Tei.api_key (known credentials)) in
  let probe :=
    {| probe_server_url := server_url; probe_model := mdl;
       probe_headers := headers |} in
  match get_tei_extra_parameter probe w with
  | (Raise ex, w1) =>
      {| verdict := CredentialsValidateFailedError (str ex);
         credentials_after := credentials; world_after := w1;
         probes := [probe]; printed := []; calls := [] |}
  | (Ok extra_args, w1) =>
      if negb (pystr_eqb (model_type extra_args) (lit "embedding")) then
        {| verdict :=
             CredentialsValidateFailedError
               (lit "Current model is not a embedding model");
           credentials_after := credentials; world_after := w1;
           probes := [probe]; printed := [extra_args]; calls := [] |}
      else
        let credentials :=
          {| known := known credentials;
             context_size := Some (max_input_length extra_args);
             max_chunks := Some (max_client_batch_size extra_args) |} in
        let '(out, w2, log) := _invoke mdl credentials [lit "ping"] w1 in
        {| verdict :=
             match out with
             | Ok _ => Valid
             | Raise ex => CredentialsValidateFailedError (str ex)
             end;
           credentials_after := credentials; world_after := w2;
           probes := [probe]; printed := [extra_args]; calls := log |}
  end.

End Setup.

(** The probe that a validation makes, and the dictionary once the
    limits a server reported are stored in it. *)
Definition probe_of (mdl : pystr) (credentials : CredentialsDict)
    : ProbeCall :=
  {| probe_server_url := Tei.server_url (known credentials);
     probe_model := mdl;
     probe_headers := Tei.make_headers (Tei.api_key (known credentials)) |}.

Definition with_limits (credentials : CredentialsDict)
    (extra_args : TeiModelExtraParameter) : CredentialsDict :=
  {| known := known credentials;
     context_size := Some (max_input_length extra_args);
     max_chunks := Some (max_client_batch_size extra_args) |}.

Arguments verdict {Embedding World} _.
Arguments credentials_after {Embedding World} _.
Arguments world_after {Embedding World} _.
Arguments probes {Embedding World} _.
Arguments printed {Embedding World} _.
Arguments calls {Embedding World} _.

End TeiSetup.

(** * Views of a stream and of a failed run *)

Module Views.

(** [not line] on a line of the response. *)
Definition blank (line : pybytes) : bool :=
  match line with
  | [] => true
  | _ => false
  end.

(** A generator whose line iterator has lost its empty lines. *)
Definition drop_blank (g : Minimax.StreamGen) : Minimax.StreamGen :=
  {| Minimax.status := Minimax.status g;
     Minimax.source :=
       filter (fun line => negb (blank line)) (Minimax.source g) |}.

(** A message as the decoder yields it for a [delta]. *)
Definition partial (delta : pyval) : Minimax.MinimaxMessage :=
  Minimax.new_message delta Minimax.ASSISTANT.

(** The five error classes of the error mapper, applied to a message. *)
Definition mapped_errors (msg : pyval) : list exn :=
  [InternalServerError (ArgVal msg); RateLimitReachedError (ArgVal msg);
   InvalidAuthenticationError (ArgVal msg);
   InsufficientAccountBalanceError (ArgVal msg);
   BadRequestError (ArgVal msg)].

(** What [_invoke] raises for an exception of the helper (lines 96
    and 97). *)
Definition converted (e : exn) : exn :=
  match e with
  | RuntimeError msg => InvokeServerUnavailableError msg
  | _ => e
  end.

(** A logged call that the helper answered. *)
Definition answered_ok {Embedding : Type}
    (entry : Tei.TeiCall * res (Tei.TeiResponse Embedding)) : Prop :=
  exists results, snd entry = Ok results.

(** [s] is [t[0:n]] for some [n]. *)
Definition is_prefix (s t : pystr) : Prop := exists n, s = firstn n t.

End Views.

(** * Concrete inputs for the set-up and the failure examples *)

Module MoreSamples.

(** A framework that reads the two limits from the dictionary. *)
Definition limit_context_size (mdl : pystr)
    (credentials : TeiSetup.CredentialsDict) : Z :=
  TeiSetup.int_get (TeiSetup.context_size credentials) 512.

Definition limit_max_chunks (mdl : pystr)
    (credentials : TeiSetup.CredentialsDict) : Z :=
  TeiSetup.int_get (TeiSetup.max_chunks credentials) 1.

Definition no_price (mdl : pystr) (credentials : TeiSetup.CredentialsDict)
    (tkns : Z) : Tei.PriceInfo unit :=
  {| Tei.pi_unit_price := tt; Tei.pi_unit := tt;
     Tei.pi_total_amount := tt; Tei.pi_currency := lit "USD" |}.

(** A server that reports the given parameters. *)
Definition probe_server (extra_args : TeiSetup.TeiModelExtraParameter)
    (probe : TeiSetup.ProbeCall) (w : unit)
    : res TeiSetup.TeiModelExtraParameter * unit :=
  (Ok extra_args, w).

Definition embedding_server : TeiSetup.TeiModelExtraParameter :=
  {| TeiSetup.model_type := lit "embedding";
     TeiSetup.max_input_length := 512;
     TeiSetup.max_client_batch_size := 32 |}.

Definition reranker_server : TeiSetup.TeiModelExtraParameter :=
  {| TeiSetup.model_type := lit "reranker";
     TeiSetup.max_input_length := 512;
     TeiSetup.max_client_batch_size := 32 |}.

(** [str] on the exceptions of the examples. *)
Definition str_of (e : exn) : pystr :=
  match e with
  | RuntimeError msg | InvokeServerUnavailableError msg => msg
  | ValueError => lit "range() arg 3 must not be zero"
  | _ => lit "error"
  end.

Definition bare_credentials : TeiSetup.CredentialsDict :=
  {| TeiSetup.known := Samples.sample_credentials;
     TeiSetup.context_size := None; TeiSetup.max_chunks := None |}.

Definition sample_validate (extra_args : TeiSetup.TeiModelExtraParameter) :=
  TeiSetup.validate_credentials Z unit unit unit Samples.char_tokens
    limit_context_size limit_max_chunks no_price (fun _ => tt)
    Samples.echo_server (probe_server extra_args) str_of
    (lit "tei") bare_credentials tt.



(** The call that [_invoke] makes with the sample credentials. *)
Definition tei_call (texts : list pystr) : Tei.TeiCall :=
  {| Tei.call_server_url := lit "http://tei"; Tei.call_texts := texts;
     Tei.call_headers := [(lit "Content-Type", lit "application/json")];
     Tei.call_timeout := 60; Tei.call_max_retries := 3 |}.

Definition sample_invoke_dict (texts : list pystr) :=
  TeiSetup._invoke Z unit unit unit Samples.char_tokens
    limit_context_size limit_max_chunks no_price (fun _ => tt)
    Samples.echo_server (lit "tei") bare_credentials texts tt.

(** A server that answers 200 with the given lines or JSON body. *)
Definition post_ok (response : Minimax.Response) (r : Minimax.Request)
    (w : unit) : res Minimax.Response * unit :=
  (Ok response, w).

Definition json_response (body : pyval) : Minimax.Response :=
  {| Minimax.status_code := 200; Minimax.text := [];
     Minimax.json := Ok body; Minimax.iter_lines := [] |}.

Definition reply_body : pyval :=
  PDict [(lit "reply", PStr (lit "Hi"));
         (lit "usage", PDict [(lit "total_tokens", PInt 3)]);
         (lit "choices",
          PList [PDict [(lit "finish_reason", PStr (lit "stop"))]])].

Definition sample_reply :=
  Minimax.generate unit (post_ok (json_response reply_body))
    Samples.dumps_keys Samples.to_content (lit "abab5.5-chat") (lit "k")
    (lit "g") (lit "https://api.minimax.chat/") [Samples.user_hello] []
    [] None false (lit "u") tt.

Definition hello_request : Minimax.Request :=
  Minimax.build_request Samples.dumps_keys Samples.to_content
    (lit "abab5.5-chat") (lit "k") (lit "g")
    (lit "https://api.minimax.chat/") [] false
    (PStr Minimax.default_prompt) [Samples.user_hello].

(** Records of a stream: two choices, a choice without [delta], and a
    record with nothing to yield. *)
Definition line_two_choices : pybytes :=
  Samples.jbytes "data: {'reply':'','choices':[{'delta':'a'},{'delta':'b'}]}".
Definition line_broken_choice : pybytes :=
  Samples.jbytes "data: {'reply':'','choices':[{'delta':'a'},{'index':1}]}".
Definition line_keep_alive : pybytes :=
  Samples.jbytes "data: {'reply':''}".

(** Lines that are not records: bytes that are not UTF-8, a JSON text
    cut short, and a JSON array. *)
Definition line_not_utf8 : pybytes := [Byte.xff; Byte.xfe].
Definition line_cut_short : pybytes := Samples.jbytes "data: {'reply':".
Definition line_array : pybytes := Samples.jbytes "[1, 2]".

End MoreSamples.

(** * Properties of the chat client *)

Import Minimax.

Lemma pystr_eqb_eq (a b : pystr) : pystr_eqb a b = true <-> a = b.
Proof.
  revert b; induction a as [|x a IH]; intros [|y b]; simpl;
    try (split; [discriminate | congruence]); [tauto|].
  rewrite andb_true_iff, Z.eqb_eq, IH.
  split; [intros [-> ->]; reflexivity | intros [= -> ->]; auto].
Qed.

Lemma dict_get_in_keys (k : pystr) (d : pydict) (v : pyval) :
  dict_get k d = Some v -> In k (dict_keys d).
Proof.
  induction d as [|[k0 v0] d IH]; simpl; [discriminate|].
  destruct (pystr_eqb k0 k) eqn:E.
  - apply pystr_eqb_eq in E; auto.
  - intros H; right; auto.
Qed.

Section ChatFacts.

Variable World : Type.
Variable post : Request -> World -> res Response * World.
Variable dumps : pyval -> pystr.
Variable to_completion_dict : MinimaxMessage -> pyval.

Let generate := generate World post dumps to_completion_dict.
Let build_request := build_request dumps to_completion_dict.

(** The requests [generate] issues: none when a precondition fails, one
    otherwise. *)
Lemma generate_requests model api_key group_id endpoint_url prompt_messages
    model_parameters tools stop stream user w :
  snd (generate model api_key group_id endpoint_url prompt_messages
         model_parameters tools stop stream user w) =
  match api_key, group_id, split_prompt prompt_messages with
  | _ :: _, _ :: _, Ok (prompt, rest) =>
      [build_request model api_key group_id endpoint_url model_parameters
         stream prompt rest]
  | _, _, _ => []
  end.
Proof.
  unfold generate, Minimax.generate.
  destruct api_key as [|a api_key]; [reflexivity|].
  destruct group_id as [|g group_id]; [reflexivity|].
  destruct (split_prompt prompt_messages) as [[prompt rest]|e]; [|reflexivity].
  destruct (post _ w) as [[response|e] w']; [|reflexivity].
  destruct (negb (status_code response =? 200)); [reflexivity|].
  destruct stream; [reflexivity|].
  destruct (_handle_chat_generate_response response); reflexivity.
Qed.

(** The optional parameters of a body are those [forwarded], whatever the
    other fields. *)
Lemma body_parameters model messages prompt stream model_parameters :
  let body :=
    body_of model messages prompt stream (extra_kwargs_of model_parameters) in
  dict_get (lit "tokens_to_generate") body =
    forwarded model_parameters (lit "max_tokens") isinstance_int /\
  dict_get (lit "temperature") body =
    forwarded model_parameters (lit "temperature") isinstance_float /\
  dict_get (lit "top_p") body =
    forwarded model_parameters (lit "top_p") isinstance_float /\
  dict_get (lit "prompt") body = Some prompt /\
  dict_get (lit "messages") body = Some (PList messages) /\
  incl (dict_keys body) body_keys.
Proof.
  unfold body_of, extra_kwargs_of, forward, forwarded.
  destruct (dict_get (lit "max_tokens") model_parameters) as [v1|];
    [destruct (isinstance_int v1)|];
  (destruct (dict_get (lit "temperature") model_parameters) as [v2|];
    [destruct (isinstance_float v2)|]);
  (destruct (dict_get (lit "top_p") model_parameters) as [v3|];
    [destruct (isinstance_float v3)|]);
  cbn; repeat split; try reflexivity;
  intros k Hk; cbn in Hk; unfold body_keys; cbn; tauto.
Qed.

(** C5: [generate] with an empty API key or group id raises the
    invalid-credential error; with an empty message list, or a list that
    holds nothing but a leading system message, it raises the bad-request
    error; and in each of these cases it issues no HTTP request and leaves
    the world as it was. *)
Theorem C5_generate_preconditions model api_key group_id endpoint_url
    prompt_messages model_parameters tools stop stream user w :
  let run := generate model api_key group_id endpoint_url prompt_messages
               model_parameters tools stop stream user w in
  (api_key = [] \/ group_id = [] ->
   run = (Raise (InvalidAPIKeyError
                   (ArgVal (PStr (lit "Invalid API key or group ID")))),
          w, [])) /\
  (api_key <> [] -> group_id <> [] -> prompt_messages = [] ->
   run = (Raise (BadRequestError
                   (ArgVal (PStr (lit "At least one message is required")))),
          w, [])) /\
  (api_key <> [] -> group_id <> [] ->
   forall m, prompt_messages = [m] -> role m = SYSTEM ->
   run = (Raise (BadRequestError
                   (ArgVal (PStr (lit "At least one user message is required")))),
          w, [])) /\
  (api_key = [] \/ group_id = [] \/ prompt_messages = [] \/
   (exists m, prompt_messages = [m] /\ role m = SYSTEM) ->
   exists arg,
     (run = (Raise (InvalidAPIKeyError arg), w, []) \/
      run = (Raise (BadRequestError arg), w, []))).
Proof.
  unfold generate, Minimax.generate; cbv zeta.
  repeat split.
  - intros [-> | ->]; [reflexivity|]. destruct api_key; reflexivity.
  - intros Ha Hg ->. destruct api_key; [contradiction|].
    destruct group_id; [contradiction|]. reflexivity.
  - intros Ha Hg m -> Hm. destruct api_key; [contradiction|].
    destruct group_id; [contradiction|].
    unfold split_prompt; rewrite Hm; reflexivity.
  - intros H.
    destruct api_key as [|a api_key]; [eexists; left; reflexivity|].
    destruct group_id as [|g group_id]; [eexists; left; reflexivity|].
    destruct H as [H | [H | [-> | [m [-> Hm]]]]]; try discriminate.
    + eexists; right; reflexivity.
    + unfold split_prompt; rewrite Hm. eexists; right; reflexivity.
Qed.

(** C6: when the first message is a system message and another message
    follows, [generate] issues one request whose body has as prompt the
    content of the system message if it is non-empty and the default
    prompt otherwise, and as messages the remaining messages, encoded in
    order, without the system message. *)
Theorem C6_system_prompt model api_key group_id endpoint_url first others
    model_parameters tools stop stream user w :
  role first = SYSTEM -> api_key <> [] -> group_id <> [] -> others <> [] ->
  let prompt :=
    if py_truthy (content first) then content first
    else PStr default_prompt in
  let body :=
    body_of model (map to_completion_dict others) prompt stream
      (extra_kwargs_of model_parameters) in
  (exists request,
     snd (generate model api_key group_id endpoint_url (first :: others)
            model_parameters tools stop stream user w) = [request] /\
     req_data request = dumps (PDict body)) /\
  dict_get (lit "prompt") body = Some prompt /\
  dict_get (lit "messages") body =
    Some (PList (map to_completion_dict others)) /\
  (forall s, content first = PStr s ->
             prompt = match s with [] => PStr default_prompt | _ => PStr s end).
Proof.
  intros Hrole Ha Hg Ho prompt body.
  repeat split.
  - rewrite generate_requests.
    destruct api_key; [contradiction|]. destruct group_id; [contradiction|].
    unfold split_prompt; rewrite Hrole; cbn.
    destruct others as [|o others]; [contradiction|].
    eexists; split; reflexivity.
  - apply body_parameters.
  - apply body_parameters.
  - intros s Hs; unfold prompt; rewrite Hs; destruct s; reflexivity.
Qed.

(** C7: the body of every request [generate] issues carries
    [tokens_to_generate] exactly when [max_tokens] is present with an int
    value, [temperature] and [top_p] exactly when present with a float
    value, each with the value given, and no key beyond the five fixed
    ones and these three. *)
Theorem C7_parameters_forwarded model api_key group_id endpoint_url
    prompt_messages model_parameters tools stop stream user w request :
  In request
    (snd (generate model api_key group_id endpoint_url prompt_messages
            model_parameters tools stop stream user w)) ->
  exists messages prompt,
    let body :=
      body_of model messages prompt stream
        (extra_kwargs_of model_parameters) in
    req_data request = dumps (PDict body) /\
    dict_get (lit "tokens_to_generate") body =
      forwarded model_parameters (lit "max_tokens") isinstance_int /\
    dict_get (lit "temperature") body =
      forwarded model_parameters (lit "temperature") isinstance_float /\
    dict_get (lit "top_p") body =
      forwarded model_parameters (lit "top_p") isinstance_float /\
    incl (dict_keys body) body_keys.
Proof.
  rewrite generate_requests.
  destruct api_key as [|a api_key]; [intros []|].
  destruct group_id as [|g group_id]; [intros []|].
  destruct (split_prompt prompt_messages) as [[prompt rest]|e]; [|intros []].
  intros [<- | []].
  exists (map to_completion_dict rest), prompt.
  pose proof (body_parameters model (map to_completion_dict rest) prompt
                stream model_parameters) as H.
  cbv zeta in *. split; [reflexivity|]. tauto.
Qed.

End ChatFacts.

(** The error mapper never returns. *)
Lemma handle_error_raises (code : Z) (msg : pyval) :
  exists e, _handle_error (PInt code) msg = Raise e.
Proof.
  unfold _handle_error, py_in_int_set, py_eq_int; cbn.
  repeat match goal with
  | |- context [code =? ?k] => destruct (code =? k); cbn
  end; eexists; reflexivity.
Qed.

(** C8: on an integer code the error mapper always raises, and what it
    raises is fixed by the code: an internal error for 1000, 1001, 1013
    and 1027, a rate-limit error for 1002 and 1039, an authentication
    error for 1004, an insufficient-balance error for 1008, a bad-request
    error for 2013, and an internal error for every other code. *)
Theorem C8_error_mapper (code : Z) (msg : pyval) :
  (In code [1000; 1001; 1013; 1027] ->
   _handle_error (PInt code) msg = Raise (InternalServerError (ArgVal msg))) /\
  (In code [1002; 1039] ->
   _handle_error (PInt code) msg = Raise (RateLimitReachedError (ArgVal msg))) /\
  (code = 1004 ->
   _handle_error (PInt code) msg =
     Raise (InvalidAuthenticationError (ArgVal msg))) /\
  (code = 1008 ->
   _handle_error (PInt code) msg =
     Raise (InsufficientAccountBalanceError (ArgVal msg))) /\
  (code = 2013 ->
   _handle_error (PInt code) msg = Raise (BadRequestError (ArgVal msg))) /\
  (~ In code [1000; 1001; 1013; 1027; 1002; 1039; 1004; 1008; 2013] ->
   _handle_error (PInt code) msg = Raise (InternalServerError (ArgVal msg))) /\
  (exists e, _handle_error (PInt code) msg = Raise e).
Proof.
  repeat split.
  - cbn; intros [<- | [<- | [<- | [<- | []]]]]; reflexivity.
  - cbn; intros [<- | [<- | []]]; reflexivity.
  - intros ->; reflexivity.
  - intros ->; reflexivity.
  - intros ->; reflexivity.
  - intros H; cbn in H.
    unfold _handle_error, py_in_int_set, py_eq_int; cbn.
    repeat match goal with
    | |- context [code =? ?k] =>
        destruct (Z.eqb_spec code k) as [->|]; [exfalso; apply H; tauto|]
    end.
    reflexivity.
  - apply handle_error_raises.
Qed.

(** * Properties of the stream decoder *)

Section StreamFacts.

Variable loads : pystr -> res pyval.

(** A generator that has finished stays finished and reads nothing. *)
Lemma pull_finished (n : nat) (src : list pybytes) :
  pull loads n {| status := Finished; source := src |} =
  ([], match n with O => None | S _ => Some StopIteration end,
   {| status := Finished; source := src |}).
Proof. destruct n; reflexivity. Qed.

(** Reading a non-empty line whose record is [data]. *)
Lemma read_lines_record (line : pybytes) (rest : list pybytes) (data : pyval) :
  line <> [] -> decode_record loads line = Ok data ->
  read_lines loads (line :: rest) =
  match handle_record data with
  | Ok LContinue | Ok (LChoices []) => read_lines loads rest
  | Ok (LRaise e) | Raise e =>
      (Raised e, {| status := Finished; source := rest |})
  | Ok (LTerminal message) =>
      (Yield message, {| status := Finished; source := rest |})
  | Ok (LChoices (choice :: choices)) => emit_choice choice choices rest
  end.
Proof.
  intros Hne Hdec. cbn [read_lines]. unfold handle_line.
  destruct line as [|b line]; [contradiction|].
  rewrite Hdec. cbn [bind].
  destruct (handle_record data) as [[| | |[|]]|]; reflexivity.
Qed.

(** C4, as amended: a record whose [base_resp] holds a non-zero integer
    [status_code] and a [status_msg] makes the decoder raise what the
    error mapper raises for that code and message; the generator is then
    finished, so that it yields nothing more and the lines after the
    record stay unread; for code 1004 the error is the authentication
    error. *)
Theorem C4_status_terminates (line : pybytes) (rest : list pybytes)
    (d base : pydict) (code : Z) (msg : pyval) :
  line <> [] ->
  decode_record loads line = Ok (PDict d) ->
  dict_get (lit "base_resp") d = Some (PDict base) ->
  dict_get (lit "status_code") base = Some (PInt code) ->
  code <> 0 ->
  dict_get (lit "status_msg") base = Some msg ->
  let done := {| status := Finished; source := rest |} in
  exists e,
    _handle_error (PInt code) msg = Raise e /\
    next loads {| status := Running []; source := line :: rest |} =
      (Raised e, done) /\
    (forall n, pull loads (S n) done = ([], Some StopIteration, done)) /\
    (code = 1004 -> e = InvalidAuthenticationError (ArgVal msg)).
Proof.
  intros Hne Hdec Hbase Hcode Hnz Hmsg done.
  destruct (handle_error_raises code msg) as [e He].
  exists e. split; [exact He|]. split; [|split].
  - unfold next; cbn [status source].
    rewrite (read_lines_record line rest (PDict d) Hne Hdec).
    unfold handle_record, check_base_resp, py_contains, py_getitem.
    rewrite Hbase; cbn [bind]. rewrite Hcode; cbn [bind py_eq_int].
    destruct (Z.eqb_spec code 0) as [|_]; [contradiction|]. cbn [negb].
    rewrite Hmsg; cbn [bind]. rewrite He. reflexivity.
  - intros n; apply pull_finished.
  - intros ->. cbn in He. congruence.
Qed.

(** C10: a record with a non-empty [reply] never produces a partial
    message: the decoder either raises or yields one assistant message
    whose content is the empty string, with the usage built from
    [usage.total_tokens] and the stop reason of the first choice, and is
    finished after it. *)
Theorem C10_terminal_content (line : pybytes) (rest : list pybytes)
    (data reply : pyval) :
  line <> [] ->
  decode_record loads line = Ok data ->
  py_getitem data (lit "reply") = Ok reply ->
  py_truthy reply = true ->
  let g := {| status := Running []; source := line :: rest |} in
  let done := {| status := Finished; source := rest |} in
  (exists e, next loads g = (Raised e, done)) \/
  (exists usage_field total reason,
     py_getitem data (lit "usage") = Ok usage_field /\
     py_getitem usage_field (lit "total_tokens") = Ok total /\
     finish_reason_of data = Ok reason /\
     next loads g =
       (Yield {| role := ASSISTANT; content := PStr [];
                 usage := Some {| prompt_tokens := PInt 0;
                                  completion_tokens := total;
                                  total_tokens := total |};
                 stop_reason := Some reason |}, done)).
Proof.
  intros Hne Hdec Hreply Htrue g done.
  unfold next, g; cbn [status source].
  rewrite (read_lines_record line rest data Hne Hdec).
  unfold handle_record.
  destruct (check_base_resp data) as [[]|e]; cbn [bind];
    [|left; eexists; reflexivity].
  rewrite Hreply; cbn [bind]. rewrite Htrue.
  destruct (py_getitem data (lit "usage")) as [u|e] eqn:Hu; cbn [bind];
    [|left; eexists; reflexivity].
  destruct (py_getitem u (lit "total_tokens")) as [t|e] eqn:Ht; cbn [bind];
    [|left; eexists; reflexivity].
  destruct (finish_reason_of data) as [r|e] eqn:Hr; cbn [bind];
    [|left; eexists; reflexivity].
  right. exists u, t, r. repeat split; assumption || reflexivity.
Qed.

End StreamFacts.

(** ** The decoder on concrete lines *)

Import Samples.

(** C3, as stated: on the two lines of the example the decoder yields
    nothing; its first pull fails on the first record. *)
Lemma C3_example_as_stated_yields_nothing :
  ~ (exists m g,
       next Json.loads (stream_of [line_delta; line_final]) = (Yield m, g)).
Proof. intros [m [g H]]. vm_compute in H. discriminate H. Qed.

(** C3, as amended: when the first record also carries an empty [reply],
    the decoder yields one partial assistant message with content "Hi",
    without usage or stop reason, then one message with total_tokens 3
    and stop reason "stop", and then stops without an error; on the two
    lines as the example gives them, the first record has no [reply] key
    and the first pull raises [KeyError], leaving the second line
    unread. *)
Theorem C3_stream_example :
  pull Json.loads 3 (stream_of [line_delta_reply; line_final]) =
    ([ {| role := ASSISTANT; content := PStr (lit "Hi");
          usage := None; stop_reason := None |};
       {| role := ASSISTANT; content := PStr (lit "");
          usage := Some {| prompt_tokens := PInt 0;
                           completion_tokens := PInt 3;
                           total_tokens := PInt 3 |};
          stop_reason := Some (PStr (lit "stop")) |} ],
     Some StopIteration,
     {| status := Finished; source := [] |}) /\
  pull Json.loads 3 (stream_of [line_delta; line_final]) =
    ([], Some (Raised (KeyError (PStr (lit "reply")))),
     {| status := Finished; source := [line_final] |}).
Proof. split; vm_compute; reflexivity. Qed.

(** C4, as stated: a record whose [base_resp] has status code 1004 and no
    [status_msg] raises [KeyError], not the authentication error. *)
Lemma C4_status_without_message :
  next Json.loads (stream_of [line_status_only; line_final]) =
    (Raised (KeyError (PStr (lit "status_msg"))),
     {| status := Finished; source := [line_final] |}) /\
  (forall arg,
     fst (next Json.loads (stream_of [line_status_only; line_final]))
     <> Raised (InvalidAuthenticationError arg)).
Proof.
  split; [vm_compute; reflexivity|].
  intros arg H. vm_compute in H. discriminate H.
Qed.

Lemma C4_status_terminates_witness :
  next Json.loads (stream_of [line_unauthorized; line_final]) =
    (Raised (InvalidAuthenticationError (ArgVal (PStr (lit "denied")))),
     {| status := Finished; source := [line_final] |}).
Proof.
  destruct (C4_status_terminates Json.loads line_unauthorized [line_final]
              [(lit "base_resp",
                PDict [(lit "status_code", PInt 1004);
                       (lit "status_msg", PStr (lit "denied"))])]
              [(lit "status_code", PInt 1004);
               (lit "status_msg", PStr (lit "denied"))]
              1004 (PStr (lit "denied")))
    as [e [_ [Hnext [_ H1004]]]];
    [discriminate | reflexivity | reflexivity | reflexivity | discriminate
    | reflexivity |].
  rewrite <- (H1004 eq_refl). exact Hnext.
Defined.

Lemma C10_terminal_content_witness :
  next Json.loads (stream_of [line_final]) =
    (Yield {| role := ASSISTANT; content := PStr [];
              usage := Some {| prompt_tokens := PInt 0;
                               completion_tokens := PInt 3;
                               total_tokens := PInt 3 |};
              stop_reason := Some (PStr (lit "stop")) |},
     {| status := Finished; source := [] |}).
Proof.
  destruct (C10_terminal_content Json.loads line_final []
              (PDict [(lit "reply", PStr (lit "Hi"));
                      (lit "usage", PDict [(lit "total_tokens", PInt 3)]);
                      (lit "choices",
                       PList [PDict [(lit "finish_reason",
                                      PStr (lit "stop"))]])])
              (PStr (lit "Hi")))
    as [[e He] | [u [t [r [Hu [Ht [Hr Hnext]]]]]]];
    [discriminate | reflexivity | reflexivity | reflexivity | |].
  - vm_compute in He. discriminate He.
  - vm_compute in Hu. injection Hu as <-.
    vm_compute in Ht. injection Ht as <-.
    vm_compute in Hr. injection Hr as <-.
    exact Hnext.
Defined.

Lemma C5_generate_preconditions_witness :
  sample_generate [] (lit "g") [user_hello] [] =
    (Raise (InvalidAPIKeyError
              (ArgVal (PStr (lit "Invalid API key or group ID")))), tt, []) /\
  sample_generate (lit "k") (lit "g") [] [] =
    (Raise (BadRequestError
              (ArgVal (PStr (lit "At least one message is required")))),
     tt, []) /\
  sample_generate (lit "k") (lit "g") [system_x] [] =
    (Raise (BadRequestError
              (ArgVal (PStr (lit "At least one user message is required")))),
     tt, []).
Proof.
  unfold sample_generate. split; [|split].
  - apply (proj1 (C5_generate_preconditions unit post_refused dumps_keys
                    to_content (lit "abab5.5-chat") [] (lit "g")
                    (lit "https://api.minimax.chat/") [user_hello] []
                    [] None false (lit "u") tt)).
    left; reflexivity.
  - apply (proj1 (proj2 (C5_generate_preconditions unit post_refused
                           dumps_keys to_content (lit "abab5.5-chat")
                           (lit "k") (lit "g")
                           (lit "https://api.minimax.chat/") [] []
                           [] None false (lit "u") tt)));
      [discriminate | discriminate | reflexivity].
  - apply (proj1 (proj2 (proj2 (C5_generate_preconditions unit post_refused
                                  dumps_keys to_content (lit "abab5.5-chat")
                                  (lit "k") (lit "g")
                                  (lit "https://api.minimax.chat/")
                                  [system_x] [] [] None false (lit "u") tt)))
             ) with (m := system_x);
      [discriminate | discriminate | reflexivity | reflexivity].
Defined.

Lemma C6_system_prompt_witness :
  exists request,
    snd (sample_generate (lit "k") (lit "g") [system_x; user_hello] [])
      = [request] /\
    req_data request =
      dumps_keys
        (PDict (body_of (lit "abab5.5-chat") [PStr (lit "hello")]
                  (PStr (lit "X")) false [])).
Proof.
  unfold sample_generate.
  apply (C6_system_prompt unit post_refused dumps_keys to_content
           (lit "abab5.5-chat") (lit "k") (lit "g")
           (lit "https://api.minimax.chat/") system_x [user_hello] []
           [] None false (lit "u") tt);
    [reflexivity | discriminate | discriminate | discriminate].
Defined.

Lemma C7_parameters_forwarded_witness :
  exists messages prompt,
    let body :=
      body_of (lit "abab5.5-chat") messages prompt false
        (extra_kwargs_of
           [(lit "max_tokens", PInt 5); (lit "temperature", PInt 1);
            (lit "seed", PInt 7)]) in
    dict_get (lit "tokens_to_generate") body = Some (PInt 5) /\
    dict_get (lit "temperature") body = None /\
    dict_get (lit "top_p") body = None /\
    incl (dict_keys body) body_keys.
Proof.
  destruct (C7_parameters_forwarded unit post_refused dumps_keys to_content
              (lit "abab5.5-chat") (lit "k") (lit "g")
              (lit "https://api.minimax.chat/") [user_hello]
              [(lit "max_tokens", PInt 5); (lit "temperature", PInt 1);
               (lit "seed", PInt 7)]
              [] None false (lit "u") tt
              (build_request dumps_keys to_content
                 (lit "abab5.5-chat") (lit "k") (lit "g")
                 (lit "https://api.minimax.chat/")
                 [(lit "max_tokens", PInt 5); (lit "temperature", PInt 1);
                  (lit "seed", PInt 7)]
                 false (PStr default_prompt) [user_hello]))
    as [messages [prompt [_ [H1 [H2 [H3 H4]]]]]];
    [left; reflexivity|].
  exists messages, prompt. cbv zeta. repeat split; assumption.
Defined.

Lemma C8_error_mapper_witness :
  _handle_error (PInt 1002) (PStr (lit "busy")) =
    Raise (RateLimitReachedError (ArgVal (PStr (lit "busy")))) /\
  _handle_error (PInt 42) (PStr (lit "odd")) =
    Raise (InternalServerError (ArgVal (PStr (lit "odd")))).
Proof.
  split.
  - apply (C8_error_mapper 1002 (PStr (lit "busy"))). cbn; tauto.
  - apply (C8_error_mapper 42 (PStr (lit "odd"))).
    cbn; intros H; decompose [or] H; discriminate || contradiction.
Defined.

(** * Properties of the float arithmetic *)

Lemma digits2_pos_lt (p : positive) : Zpos p < 2 ^ Zpos (digits2_pos p).
Proof.
  induction p as [p IH|p IH|]; cbn [digits2_pos].
  - rewrite Pos2Z.inj_succ, Z.pow_succ_r by lia. lia.
  - rewrite Pos2Z.inj_succ, Z.pow_succ_r by lia. lia.
  - reflexivity.
Qed.

Lemma Zdigits2_nonneg (m : Z) : 0 <= Zdigits2 m.
Proof. destruct m; cbn; lia. Qed.

(** A non-negative number below [2 ^ k] has at most [k] digits. *)
Lemma digits2_pos_le (p : positive) (k : Z) :
  0 <= k -> Zpos p < 2 ^ k -> Zpos (digits2_pos p) <= k.
Proof.
  revert k; induction p as [p IH|p IH|]; intros k Hk Hlt; cbn [digits2_pos].
  - rewrite Pos2Z.inj_succ.
    assert (k <> 0) by (intros ->; cbn in Hlt; lia).
    assert (Zpos p < 2 ^ (k - 1)).
    { replace k with (Z.succ (k - 1)) in Hlt by lia.
      rewrite Z.pow_succ_r in Hlt by lia. lia. }
    specialize (IH (k - 1)). lia.
  - rewrite Pos2Z.inj_succ.
    assert (k <> 0) by (intros ->; cbn in Hlt; lia).
    assert (Zpos p < 2 ^ (k - 1)).
    { replace k with (Z.succ (k - 1)) in Hlt by lia.
      rewrite Z.pow_succ_r in Hlt by lia. lia. }
    specialize (IH (k - 1)). lia.
  - assert (k <> 0) by (intros ->; cbn in Hlt; lia). lia.
Qed.

Lemma Zdigits2_le (m k : Z) : 0 <= m -> 0 <= k -> m < 2 ^ k -> Zdigits2 m <= k.
Proof.
  intros Hm Hk Hlt. destruct m as [|p|p]; cbn; [lia| |lia].
  apply digits2_pos_le; assumption.
Qed.

Lemma Zdigits2_lt (m : Z) : 0 <= m -> m < 2 ^ Zdigits2 m.
Proof.
  intros Hm. destruct m as [|p|p]; cbn [Zdigits2]; [reflexivity| |lia].
  apply digits2_pos_lt.
Qed.

Lemma shr_1_m (mrs : shr_record) :
  0 <= shr_m mrs -> shr_m (shr_1 mrs) = shr_m mrs / 2.
Proof.
  destruct mrs as [m r s]; cbn [shr_m]. intros Hm.
  destruct m as [|[p|p|]|p]; cbn [shr_1 shr_m]; try lia; try reflexivity.
  - rewrite Pos2Z.inj_xI. apply Z.div_unique with 1; lia.
  - rewrite Pos2Z.inj_xO. apply Z.div_unique with 0; lia.
Qed.

Lemma iter_shr_1_m (p : positive) (mrs : shr_record) :
  0 <= shr_m mrs ->
  shr_m (SpecFloat.iter_pos shr_1 p mrs) = shr_m mrs / 2 ^ Zpos p.
Proof.
  revert mrs; induction p as [p IH|p IH|]; intros mrs Hm; cbn [SpecFloat.iter_pos].
  - assert (H1 : 0 <= shr_m (shr_1 mrs)) by (rewrite shr_1_m by lia; apply Z.div_pos; lia).
    assert (H2 : 0 <= shr_m (SpecFloat.iter_pos shr_1 p (shr_1 mrs)))
      by (rewrite IH by lia; apply Z.div_pos; lia).
    rewrite IH, IH, shr_1_m by assumption.
    rewrite !Z.div_div by lia.
    f_equal.
    replace (Zpos p~1) with (1 + Zpos p + Zpos p) by lia.
    rewrite !Z.pow_add_r by lia. lia.
  - assert (H2 : 0 <= shr_m (SpecFloat.iter_pos shr_1 p mrs))
      by (rewrite IH by lia; apply Z.div_pos; lia).
    rewrite IH, IH by assumption.
    rewrite !Z.div_div by lia.
    f_equal.
    replace (Zpos p~0) with (Zpos p + Zpos p) by lia.
    rewrite !Z.pow_add_r by lia. lia.
  - rewrite shr_1_m by assumption. reflexivity.
Qed.


Lemma shr_record_of_loc_m (m : Z) (l : location) :
  shr_m (shr_record_of_loc m l) = m.
Proof. destruct l as [|[]]; reflexivity. Qed.

Lemma shr_fexp_spec (m e : Z) (l : location) :
  0 <= m ->
  let f := fexp 53 1024 (Zdigits2 m + e) in
  (f <= e /\ shr_m (fst (shr_fexp 53 1024 m e l)) = m /\
   snd (shr_fexp 53 1024 m e l) = e) \/
  (e < f /\ shr_m (fst (shr_fexp 53 1024 m e l)) = m / 2 ^ (f - e) /\
   snd (shr_fexp 53 1024 m e l) = f).
Proof.
  intros Hm f. unfold shr_fexp, shr. fold f.
  destruct (f - e) as [|p|p] eqn:E; cbn [fst snd].
  - left. rewrite shr_record_of_loc_m. lia.
  - right. rewrite iter_shr_1_m by (rewrite shr_record_of_loc_m; lia).
    rewrite shr_record_of_loc_m. lia.
  - left. rewrite shr_record_of_loc_m. lia.
Qed.

Lemma round_nearest_even_bounds (m : Z) (l : location) :
  m <= round_nearest_even m l <= m + 1.
Proof.
  destruct l as [|[]]; cbn [round_nearest_even]; try lia.
  destruct (Z.even m); lia.
Qed.

(** Dividing by [2 ^ n] removes [n] digits. *)
Lemma div_pow2_lt (m n k : Z) :
  0 <= m -> 0 <= n -> 0 <= k -> m < 2 ^ k ->
  m / 2 ^ n < 2 ^ Z.max (k - n) 0.
Proof.
  intros Hm Hn Hk Hlt.
  assert (0 < 2 ^ n) by (apply Z.pow_pos_nonneg; lia).
  destruct (Z.le_gt_cases n k) as [Hle|Hgt].
  - rewrite Z.max_l by lia.
    apply Z.div_lt_upper_bound; [lia|].
    rewrite <- Z.pow_add_r by lia. replace (n + (k - n)) with k by lia. lia.
  - rewrite Z.max_r by lia. cbn.
    assert (2 ^ k <= 2 ^ n) by (apply Z.pow_le_mono_r; lia).
    rewrite Z.div_small; lia.
Qed.

Lemma binary_round_aux_within (sx : bool) (mx ex : Z) (lx : location)
    (E K : Z) :
  0 <= mx -> ex <= E -> Zdigits2 mx + ex <= K -> E <= 971 -> K <= 1023 ->
  PyFloat.within sx (Z.max E (Z.max (K - 52) (-1074))) (Z.max K (-1074) + 1)
    (binary_round_aux 53 1024 sx mx ex lx).
Proof.
  intros Hm HE HK HE' HK'.
  unfold binary_round_aux.
  pose proof (shr_fexp_spec mx ex lx Hm) as H1.
  destruct (shr_fexp 53 1024 mx ex lx) as [mrs' e'] eqn:E1.
  cbn [fst snd] in H1. cbv zeta in H1.
  set (m1 := round_nearest_even (shr_m mrs') (loc_of_shr_record mrs')).
  pose proof (round_nearest_even_bounds (shr_m mrs') (loc_of_shr_record mrs'))
    as Hr. fold m1 in Hr.
  pose proof (Zdigits2_lt mx Hm) as Hdx.
  pose proof (Zdigits2_nonneg mx) as Hdn.
  assert (Hm' : 0 <= shr_m mrs').
  { destruct H1 as [[_ [Hs _]]|[Hlt [Hs _]]]; rewrite Hs; [lia|].
    apply Z.div_pos; [lia|]. apply Z.pow_pos_nonneg; lia. }
  assert (Hm1 : 0 <= m1) by lia.
  (* digits of the rounded mantissa *)
  assert (Hd1 : Zdigits2 m1 + e' <= Z.max K (-1074) + 1 /\
                e' <= Z.max E (Z.max (K - 53) (-1074))).
  { unfold fexp, emin in H1.
    destruct H1 as [[Hf [Hs ->]]|[Hf [Hs He']]].
    - rewrite Hs in Hr. split; [|lia].
      assert (Zdigits2 m1 <= Zdigits2 mx + 1); [|lia].
      apply Zdigits2_le; try lia.
      rewrite Z.pow_add_r by lia. lia.
    - split; [|lia].
      set (n := e' - ex) in *.
      assert (Hlt : shr_m mrs' < 2 ^ Z.max (Zdigits2 mx - n) 0).
      { rewrite Hs, <- He'. fold n. apply div_pow2_lt; lia. }
      assert (Zdigits2 m1 <= Z.max (Zdigits2 mx - n) 0 + 1); [|lia].
      apply Zdigits2_le; try lia.
      rewrite Z.pow_add_r by lia. lia. }
  destruct Hd1 as [Hd1 He1].
  pose proof (shr_fexp_spec m1 e' loc_Exact Hm1) as H2.
  destruct (shr_fexp 53 1024 m1 e' loc_Exact) as [mrs'' e''] eqn:E2.
  cbn [fst snd] in H2. cbv zeta in H2.
  unfold fexp, emin in H2.
  pose proof (Zdigits2_lt m1 Hm1) as Hd1x.
  pose proof (Zdigits2_nonneg m1) as Hd1n.
  destruct (shr_m mrs'') as [|m|m] eqn:Em.
  - reflexivity.
  - assert (Hfin : e'' <= 971) by lia.
    destruct (Z.leb_spec e'' (1024 - 53)); [|lia].
    cbn [PyFloat.within]. split; [reflexivity|]. split; [lia|].
    destruct H2 as [[Hf [Hs ->]]|[Hf [Hs He'']]].
    + assert (Hm1m : Zdigits2 m1 = Zpos (digits2_pos m))
        by (rewrite <- Hs; reflexivity).
      lia.
    + set (n := e'' - e') in *.
      assert (Hn : 0 < n) by lia.
      assert (Hlt : Zpos m < 2 ^ Z.max (Zdigits2 m1 - n) 0).
      { rewrite Hs, <- He''. fold n. apply div_pow2_lt; lia. }
      destruct (Z.le_gt_cases (Zdigits2 m1 - n) 0).
      * rewrite Z.max_r in Hlt by lia. cbn in Hlt. lia.
      * rewrite Z.max_l in Hlt by lia.
        assert (Zpos (digits2_pos m) <= Zdigits2 m1 - n)
          by (apply digits2_pos_le; lia).
        lia.
  - exfalso.
    destruct H2 as [[_ [Hs _]]|[Hlt [Hs _]]].
    + lia.
    + assert (0 <= m1 / 2 ^ (Z.max (Zdigits2 m1 + e' - 53) (3 - 1024 - 53) - e')).
      { apply Z.div_pos; [lia|]. apply Z.pow_pos_nonneg; lia. }
      lia.
Qed.

Lemma iter_xO_pow (p d : positive) :
  Zpos (Pos.iter xO p d) = Zpos p * 2 ^ Zpos d.
Proof.
  induction d as [|d IH] using Pos.peano_ind.
  - cbn. lia.
  - rewrite Pos.iter_succ, Pos2Z.inj_xO, IH, Pos2Z.inj_succ,
      Z.pow_succ_r by lia. lia.
Qed.

Lemma of_int_within (n : Z) :
  0 <= n < 2 ^ 63 ->
  exists f, PyFloat.of_int n = Ok f /\ PyFloat.within false 11 64 f.
Proof.
  intros [Hn Hlt]. unfold PyFloat.of_int, PyFloat.prec, PyFloat.emax.
  destruct n as [|p|p]; [| |lia].
  - eexists; split; reflexivity.
  - cbn [binary_normalize]. unfold binary_round.
    assert (Hd : Zpos (digits2_pos p) <= 63) by (apply digits2_pos_le; lia).
    pose proof (digits2_pos_lt p) as Hp.
    assert (Hw : PyFloat.within false 11 64
                   (let '(mz, ez) :=
                      shl_align p 0 (fexp 53 1024 (Zpos (digits2_pos p) + 0)) in
                    binary_round_aux 53 1024 false (Zpos mz) ez loc_Exact)).
    { unfold shl_align, fexp, emin.
      destruct (Z.max (Zpos (digits2_pos p) + 0 - 53) (3 - 1024 - 53) - 0)
        as [|d|d] eqn:Ed.
      - apply (binary_round_aux_within false (Zpos p) 0 loc_Exact 0 63);
          cbn [Zdigits2]; lia.
      - apply (binary_round_aux_within false (Zpos p) 0 loc_Exact 0 63);
          cbn [Zdigits2]; lia.
      - apply (binary_round_aux_within false _ _ loc_Exact 0 63); try lia.
        cbn [Zdigits2].
        assert (Zpos (digits2_pos (Pos.iter xO p d))
                <= Zpos (digits2_pos p) + Zpos d); [|lia].
        apply digits2_pos_le; [lia|].
        rewrite iter_xO_pow, Z.pow_add_r by lia.
        assert (0 < 2 ^ Zpos d) by (apply Z.pow_pos_nonneg; lia). nia. }
    destruct (let '(mz, ez) := shl_align p 0 _ in _) as [s|s| |s m e];
      cbn [PyFloat.within] in Hw; try contradiction; eexists; split;
      try reflexivity; exact Hw.
Qed.

Lemma truediv_within (a b : Z) :
  0 <= a <= b -> 0 < b ->
  exists f, PyFloat.truediv a b = Ok f /\ PyFloat.within false 0 2 f.
Proof.
  intros [Ha Hab] Hb. unfold PyFloat.truediv, PyFloat.prec, PyFloat.emax.
  destruct (Z.eqb_spec b 0) as [|_]; [lia|].
  destruct b as [|pb|pb]; try lia.
  destruct a as [|pa|pa]; [| |lia].
  - eexists; split; reflexivity.
  - cbn [PyFloat.exact_of_Z SFdiv xorb].
    assert (Hw : PyFloat.within false 0 2
                   (let '(mz, ez, lz) :=
                      SFdiv_core_binary 53 1024 (Zpos pa) 0 (Zpos pb) 0 in
                    binary_round_aux 53 1024 false mz ez lz)).
    { unfold SFdiv_core_binary.
      set (e' := Z.min _ (0 - 0)).
      assert (He' : e' <= 0) by (subst e'; lia).
      set (m' := match 0 - 0 - e' with
                 | Z0 => Zpos pa
                 | Zpos _ => Z.shiftl (Zpos pa) (0 - 0 - e')
                 | Zneg _ => 0
                 end).
      assert (Hm' : m' = Zpos pa * 2 ^ (- e')).
      { subst m'. destruct (0 - 0 - e') as [|s|s] eqn:Es; [| |lia].
        - replace (- e') with 0 by lia. lia.
        - rewrite Z.shiftl_mul_pow2 by lia. f_equal. f_equal. lia. }
      assert (Hpow : 0 < 2 ^ (- e')) by (apply Z.pow_pos_nonneg; lia).
      pose proof (Z_div_mod m' (Zpos pb) ltac:(lia)) as Hdm.
      destruct (Z.div_eucl m' (Zpos pb)) as [q r].
      destruct Hdm as [Hq Hr].
      assert (Hq0 : 0 <= q) by nia.
      assert (Hq1 : q <= 2 ^ (- e')) by nia.
      apply (binary_round_aux_within false q e' _ 0 1); try lia.
      assert (Zdigits2 q <= - e' + 1); [|lia].
      apply Zdigits2_le; try lia.
      rewrite Z.pow_add_r by lia. lia. }
    destruct (let '(mz, ez, lz) := SFdiv_core_binary _ _ _ _ _ _ in _)
      as [s|s| |s m e];
      cbn [PyFloat.within] in Hw; try contradiction; eexists; split;
      try reflexivity; exact Hw.
Qed.

Lemma digits2_pos_mul (p q : positive) :
  Zpos (digits2_pos (p * q)) <= Zpos (digits2_pos p) + Zpos (digits2_pos q).
Proof.
  apply digits2_pos_le; [lia|].
  rewrite Pos2Z.inj_mul, Z.pow_add_r by lia.
  pose proof (digits2_pos_lt p). pose proof (digits2_pos_lt q). nia.
Qed.

Lemma int_mul_within (n : Z) (f : spec_float) :
  0 <= n < 2 ^ 63 -> PyFloat.within false 0 2 f ->
  exists g, PyFloat.int_mul n f = Ok g /\ PyFloat.within false 971 1024 g.
Proof.
  intros Hn Hf. unfold PyFloat.int_mul.
  destruct (of_int_within n Hn) as [x [-> Hx]]. cbn [bind].
  eexists; split; [reflexivity|].
  unfold PyFloat.prec, PyFloat.emax.
  destruct x as [sx|sx| |sx mx ex]; cbn [PyFloat.within] in Hx; try contradiction;
  destruct f as [sf|sf| |sf mf ef]; cbn [PyFloat.within] in Hf; try contradiction;
  cbn [SFmul].
  - subst; reflexivity.
  - destruct Hf as [-> _]; subst; reflexivity.
  - destruct Hx as [-> _]; subst; reflexivity.
  - destruct Hx as [-> [Hex Hdx]]. destruct Hf as [-> [Hef Hdf]].
    cbn [xorb].
    pose proof (digits2_pos_mul mx mf).
    pose proof (binary_round_aux_within false (Zpos (mx * mf)) (ex + ef)
                  loc_Exact 11 66) as H0.
    cbn [Zdigits2] in H0.
    assert (Hw : PyFloat.within false (Z.max 11 (Z.max (66 - 52) (-1074)))
                   (Z.max 66 (-1074) + 1)
                   (binary_round_aux 53 1024 false (Zpos (mx * mf))
                      (ex + ef) loc_Exact)) by (apply H0; lia).
    destruct (binary_round_aux _ _ _ _ _ _) as [s|s| |s m e];
      cbn [PyFloat.within] in *; try contradiction; [assumption|].
    destruct Hw as [-> [He Hd]]. cbn in He, Hd. lia.
Qed.

Lemma to_int_nonneg (f : spec_float) (E K : Z) :
  PyFloat.within false E K f -> exists c, PyFloat.to_int f = Ok c /\ 0 <= c.
Proof.
  destruct f as [s|s| |s m e]; cbn [PyFloat.within]; try contradiction.
  - intros _. exists 0. split; [reflexivity|lia].
  - intros [-> _]. cbn [PyFloat.to_int].
    eexists; split; [reflexivity|].
    destruct (0 <=? e).
    + apply Z.shiftl_nonneg; lia.
    + apply Z.shiftr_nonneg; lia.
Qed.

(** ** The value of a rounded result *)

Lemma digits2_pos_lower (p : positive) :
  2 ^ (Zpos (digits2_pos p) - 1) <= Zpos p.
Proof.
  induction p as [p IH|p IH|]; cbn [digits2_pos].
  - rewrite Pos2Z.inj_succ.
    replace (Z.succ (Zpos (digits2_pos p)) - 1)
      with (Z.succ (Zpos (digits2_pos p) - 1)) by lia.
    rewrite Z.pow_succ_r by lia. lia.
  - rewrite Pos2Z.inj_succ.
    replace (Z.succ (Zpos (digits2_pos p)) - 1)
      with (Z.succ (Zpos (digits2_pos p) - 1)) by lia.
    rewrite Z.pow_succ_r by lia. lia.
  - cbn. lia.
Qed.

(** The outcome of rounding [mx * 2 ^ ex]: the mantissa is cut at the
    exponent [e1] of the format and moved up by at most one. *)
Lemma binary_round_aux_value (sx : bool) (mx ex : Z) (lx : location) :
  0 < mx -> ex <= 970 -> Zdigits2 mx + ex <= 1023 ->
  let e1 := Z.max ex (fexp 53 1024 (Zdigits2 mx + ex)) in
  exists m1,
    mx / 2 ^ (e1 - ex) <= m1 <= mx / 2 ^ (e1 - ex) + 1 /\
    (lx = loc_Exact -> e1 = ex -> m1 = mx) /\
    match binary_round_aux 53 1024 sx mx ex lx with
    | S754_zero s => s = sx /\ m1 = 0
    | S754_finite s m e =>
        s = sx /\
        ((e = e1 /\ Zpos m = m1) \/
         (e = e1 + 1 /\ m1 = 2 ^ 53 /\ Zpos m = 2 ^ 52))
    | _ => False
    end.
Proof.
  intros Hm Hex Hd e1.
  unfold binary_round_aux.
  pose proof (shr_fexp_spec mx ex lx ltac:(lia)) as H1.
  destruct (shr_fexp 53 1024 mx ex lx) as [mrs' e'] eqn:E1.
  cbn [fst snd] in H1. cbv zeta in H1.
  set (m1 := round_nearest_even (shr_m mrs') (loc_of_shr_record mrs')).
  pose proof (round_nearest_even_bounds (shr_m mrs') (loc_of_shr_record mrs'))
    as Hr. fold m1 in Hr.
  pose proof (Zdigits2_lt mx ltac:(lia)) as Hdx.
  pose proof (Zdigits2_nonneg mx) as Hdn.
  assert (He1 : e' = e1 /\ shr_m mrs' = mx / 2 ^ (e1 - ex)).
  { subst e1. destruct H1 as [[Hf [Hs ->]]|[Hf [Hs ->]]].
    - rewrite Z.max_l by lia. rewrite Z.sub_diag, Z.div_1_r. auto.
    - rewrite Z.max_r by lia. auto. }
  destruct He1 as [-> Hs'].
  assert (Hexact : lx = loc_Exact -> e1 = ex -> m1 = mx).
  { intros -> Heq. subst m1.
    unfold shr_fexp, shr in E1. fold (fexp 53 1024) in E1.
    assert (Hn : fexp 53 1024 (Zdigits2 mx + ex) - ex <= 0) by lia.
    destruct (fexp 53 1024 (Zdigits2 mx + ex) - ex); try lia;
      injection E1 as <- _; reflexivity. }
  assert (Hn0 : 0 <= e1 - ex) by lia.
  assert (Hm'lt : shr_m mrs' < 2 ^ 53).
  { rewrite Hs'.
    assert (Hk : Zdigits2 mx - (e1 - ex) <= 53)
      by (unfold fexp, emin in e1; lia).
    pose proof (div_pow2_lt mx (e1 - ex) (Zdigits2 mx) ltac:(lia) Hn0 Hdn Hdx)
      as Hlt.
    assert (2 ^ Z.max (Zdigits2 mx - (e1 - ex)) 0 <= 2 ^ 53)
      by (apply Z.pow_le_mono_r; lia).
    lia. }
  assert (Hm'0 : 0 <= shr_m mrs').
  { rewrite Hs'. apply Z.div_pos; [lia|]. apply Z.pow_pos_nonneg; lia. }
  assert (Hm1 : 0 <= m1 <= 2 ^ 53) by lia.
  assert (He1lo : -1074 <= e1 <= 970) by (unfold fexp, emin in e1; lia).
  exists m1. split; [rewrite <- Hs'; exact Hr|]. split; [exact Hexact|].
  pose proof (shr_fexp_spec m1 e1 loc_Exact ltac:(lia)) as H2.
  destruct (shr_fexp 53 1024 m1 e1 loc_Exact) as [mrs'' e''] eqn:E2.
  cbn [fst snd] in H2. cbv zeta in H2. unfold fexp, emin in H2.
  destruct (Z.eq_dec m1 (2 ^ 53)) as [Htop|Hntop].
  - (* the mantissa overflowed to 2^53: one more shift *)
    rewrite Htop in H2. change (Zdigits2 (2 ^ 53)) with 54 in H2.
    destruct H2 as [[Hf _]|[_ [Hs ->]]]; [lia|].
    replace (Z.max (54 + e1 - 53) (3 - 1024 - 53) - e1) with 1 in Hs by lia.
    change (2 ^ 53 / 2 ^ 1) with (2 ^ 52) in Hs.
    rewrite Hs. change (2 ^ 52) with (Zpos (2 ^ 52)).
    destruct (Z.leb_spec (Z.max (54 + e1 - 53) (3 - 1024 - 53)) (1024 - 53));
      [|lia].
    split; [reflexivity|]. right. split; [lia|]. split; [exact Htop|].
    reflexivity.
  - assert (Hd1 : Zdigits2 m1 <= 53) by (apply Zdigits2_le; lia).
    destruct H2 as [[_ [Hs ->]]|[Hf _]]; [|lia].
    rewrite Hs. destruct m1 as [|m|m]; [split; reflexivity| |lia].
    destruct (Z.leb_spec e1 (1024 - 53)); [|lia].
    split; [reflexivity|]. left. split; reflexivity.
Qed.


Lemma pow2_IZR (n : Z) : 0 <= n -> powerRZ 2 n = IZR (2 ^ n).
Proof.
  intros Hn. rewrite <- (Z2Nat.id n Hn).
  rewrite <- pow_powerRZ, <- pow_IZR. reflexivity.
Qed.

Lemma pow2_pos (n : Z) : (0 < powerRZ 2 n)%R.
Proof. apply powerRZ_lt. lra. Qed.

Lemma pow2_add (a b : Z) : powerRZ 2 (a + b) = (powerRZ 2 a * powerRZ 2 b)%R.
Proof. apply powerRZ_add. lra. Qed.

Lemma pow2_cancel (n : Z) : (powerRZ 2 n * powerRZ 2 (- n) = 1)%R.
Proof. rewrite <- pow2_add, Z.add_opp_diag_r. reflexivity. Qed.

(** [int(f)] is the floor of a non-negative finite float. *)
Lemma to_int_floor (m : positive) (e : Z) :
  exists c,
    PyFloat.to_int (S754_finite false m e) = Ok c /\
    (IZR c <= PyFloat.F2R (Zpos m) e < IZR c + 1)%R.
Proof.
  cbn [PyFloat.to_int]. unfold PyFloat.F2R.
  destruct (Z.leb_spec 0 e) as [He|He].
  - eexists; split; [reflexivity|].
    rewrite Z.shiftl_mul_pow2 by lia.
    rewrite mult_IZR, <- pow2_IZR by lia. lra.
  - eexists; split; [reflexivity|].
    rewrite Z.shiftr_div_pow2 by lia.
    set (d := 2 ^ (- e)).
    assert (Hd : 0 < d) by (apply Z.pow_pos_nonneg; lia).
    pose proof (Z.div_mod (Zpos m) d ltac:(lia)) as Hdm.
    pose proof (Z.mod_pos_bound (Zpos m) d Hd) as Hmod.
    set (c := Zpos m / d) in *.
    assert (H1 : c * d <= Zpos m) by lia.
    assert (H2 : Zpos m < (c + 1) * d) by lia.
    apply IZR_le in H1. apply IZR_lt in H2.
    rewrite mult_IZR in H1, H2. rewrite plus_IZR in H2.
    unfold d in H1, H2. rewrite <- pow2_IZR in H1, H2 by lia.
    pose proof (pow2_pos e) as Hpe. pose proof (pow2_pos (- e)) as Hpn.
    pose proof (pow2_cancel e) as Hc.
    set (a := powerRZ 2 e) in *. set (b := powerRZ 2 (- e)) in *.
    pose proof (Rmult_le_compat_r a _ _ (Rlt_le _ _ Hpe) H1) as H3.
    pose proof (Rmult_lt_compat_r a _ _ Hpe H2) as H4.
    replace (IZR c * b * a)%R with (IZR c * (a * b))%R in H3 by ring.
    replace ((IZR c + 1) * b * a)%R with ((IZR c + 1) * (a * b))%R in H4
      by ring.
    rewrite Hc in H3, H4. lra.
Qed.

(** [float(n)] is exact below [2 ^ 53]. *)
Lemma of_int_exact (n : Z) :
  1 <= n < 2 ^ 53 ->
  exists m d,
    PyFloat.of_int n = Ok (S754_finite false m (- d)) /\
    0 <= d <= 52 /\ Zpos m = n * 2 ^ d /\ Zpos m < 2 ^ 53.
Proof.
  intros [Hn Hlt]. unfold PyFloat.of_int, PyFloat.prec, PyFloat.emax.
  destruct n as [|p|p]; try lia.
  cbn [binary_normalize]. unfold binary_round.
  assert (Hd : Zpos (digits2_pos p) <= 53) by (apply digits2_pos_le; lia).
  pose proof (digits2_pos_lt p) as Hp.
  pose proof (digits2_pos_lower p) as Hlo.
  assert (Hshape : exists mz d,
            shl_align p 0 (fexp 53 1024 (Zpos (digits2_pos p) + 0))
              = (mz, - d) /\
            0 <= d <= 52 /\ Zpos mz = Zpos p * 2 ^ d /\ Zpos mz < 2 ^ 53).
  { unfold shl_align, fexp, emin.
    destruct (Z.max (Zpos (digits2_pos p) + 0 - 53) (3 - 1024 - 53) - 0)
      as [|d|d] eqn:Ed.
    - exists p, 0. repeat split; lia.
    - lia.
    - exists (Pos.iter xO p d), (Zpos d).
      assert (Hd' : Zpos d = 53 - Zpos (digits2_pos p)) by lia.
      split; [f_equal; lia|].
      split; [lia|]. rewrite iter_xO_pow. split; [reflexivity|].
      assert (0 < 2 ^ Zpos d) by (apply Z.pow_pos_nonneg; lia).
      assert (2 ^ Zpos (digits2_pos p) * 2 ^ Zpos d = 2 ^ 53)
        by (rewrite <- Z.pow_add_r by lia; f_equal; lia).
      nia. }
  destruct Hshape as [mz [d [-> [Hd0 [Hmz Hmzlt]]]]].
  assert (Hdz : Zdigits2 (Zpos mz) <= 53) by (apply Zdigits2_le; lia).
  pose proof (binary_round_aux_value false (Zpos mz) (- d) loc_Exact
                ltac:(lia) ltac:(lia) ltac:(lia)) as Hv.
  cbv zeta in Hv.
  replace (Z.max (- d) (fexp 53 1024 (Zdigits2 (Zpos mz) + - d))) with (- d)
    in Hv by (unfold fexp, emin; lia).
  destruct Hv as [m1 [_ [Hexact Hres]]].
  specialize (Hexact eq_refl eq_refl). subst m1.
  destruct (binary_round_aux 53 1024 false (Zpos mz) (- d) loc_Exact)
    as [s|s| |s m e]; try contradiction.
  - destruct Hres as [_ H0]. lia.
  - destruct Hres as [-> [[-> Hm]|[_ [Htop _]]]]; [|lia].
    exists m, d. rewrite Hm. repeat split; try lia.
Qed.

(** A quotient of two ints with [1 <= a <= b]: the double is
    [m1 * 2 ^ (- t)], with a mantissa of 53 bits that is within one of the
    exact quotient scaled by [2 ^ t]. *)
Lemma truediv_value (a b : Z) :
  1 <= a <= b -> b < 2 ^ 63 ->
  exists mr er m1 t,
    PyFloat.truediv a b = Ok (S754_finite false mr er) /\
    ((er = - t /\ Zpos mr = m1) \/
     (er = - t + 1 /\ m1 = 2 ^ 53 /\ Zpos mr = 2 ^ 52)) /\
    2 ^ 52 <= m1 <= 2 ^ 53 /\ 52 <= t <= 116 /\
    (m1 - 1) * b <= a * 2 ^ t < (m1 + 1) * b.
Proof.
  intros [Ha Hab] Hb. unfold PyFloat.truediv, PyFloat.prec, PyFloat.emax.
  destruct (Z.eqb_spec b 0) as [|_]; [lia|].
  destruct b as [|pb|pb]; try lia.
  destruct a as [|pa|pa]; try lia.
  cbn [PyFloat.exact_of_Z SFdiv xorb]. unfold SFdiv_core_binary.
  cbn [Zdigits2].
  set (d1 := Zpos (digits2_pos pa)). set (d2 := Zpos (digits2_pos pb)).
  pose proof (digits2_pos_lt pa) as Ha1. pose proof (digits2_pos_lower pa) as Ha2.
  pose proof (digits2_pos_lt pb) as Hb1. pose proof (digits2_pos_lower pb) as Hb2.
  fold d1 in Ha1, Ha2. fold d2 in Hb1, Hb2.
  assert (Hd2 : d2 <= 63) by (apply digits2_pos_le; lia).
  assert (Hd1 : 1 <= d1) by (subst d1; lia).
  assert (Hd12 : d1 <= d2).
  { destruct (Z.le_gt_cases d1 d2); [assumption|].
    assert (2 ^ d2 <= 2 ^ (d1 - 1)) by (apply Z.pow_le_mono_r; lia). lia. }
  replace (Z.min (fexp 53 1024 (d1 + 0 - (d2 + 0))) (0 - 0))
    with (d1 - d2 - 53) by (unfold fexp, emin; lia).
  set (s := 53 + d2 - d1).
  replace (0 - 0 - (d1 - d2 - 53)) with s by (subst s; lia).
  assert (Hs : 53 <= s <= 115) by (subst s; lia).
  destruct s as [|ps|ps] eqn:Es; try lia. rewrite <- Es in *.
  rewrite Z.shiftl_mul_pow2 by lia.
  pose proof (Z_div_mod (Zpos pa * 2 ^ s) (Zpos pb) ltac:(lia)) as Hdm.
  destruct (Z.div_eucl (Zpos pa * 2 ^ s) (Zpos pb)) as [q r].
  destruct Hdm as [Hq Hr].
  assert (Hps : 0 < 2 ^ s) by (apply Z.pow_pos_nonneg; lia).
  assert (Hp1 : 2 ^ (d1 - 1) * 2 ^ s = 2 ^ 52 * 2 ^ d2)
    by (rewrite <- !Z.pow_add_r by lia; f_equal; lia).
  assert (Hp2 : 2 ^ d1 * 2 ^ s = 2 ^ 54 * 2 ^ (d2 - 1))
    by (rewrite <- !Z.pow_add_r by lia; f_equal; lia).
  assert (Hqlo : 2 ^ 52 <= q) by nia.
  assert (Hqhi : q < 2 ^ 54) by nia.
  set (dq := Zdigits2 q).
  assert (Hdq : 53 <= dq <= 54).
  { split.
    - pose proof (Zdigits2_lt q ltac:(lia)) as Hlt. fold dq in Hlt.
      destruct (Z.le_gt_cases 53 dq); [assumption|].
      assert (2 ^ dq <= 2 ^ 52) by (apply Z.pow_le_mono_r;
        [lia | pose proof (Zdigits2_nonneg q); subst dq; lia]). lia.
    - apply Zdigits2_le; lia. }
  pose proof (binary_round_aux_value false q (d1 - d2 - 53)
                (new_location (Zpos pb) r) ltac:(lia) ltac:(lia)
                ltac:(fold dq; lia)) as Hv.
  cbv zeta in Hv. fold dq in Hv.
  replace (Z.max (d1 - d2 - 53) (fexp 53 1024 (dq + (d1 - d2 - 53))))
    with (dq + (d1 - d2 - 53) - 53) in Hv by (unfold fexp, emin; lia).
  replace (dq + (d1 - d2 - 53) - 53 - (d1 - d2 - 53)) with (dq - 53) in Hv
    by lia.
  destruct Hv as [m1 [Hm1 [_ Hres]]].
  set (n := dq - 53) in *.
  set (t := s - n).
  assert (Ht : dq + (d1 - d2 - 53) - 53 = - t) by (subst t s n; lia).
  rewrite Ht in Hres.
  assert (Hpn : 2 ^ n = 1 \/ 2 ^ n = 2).
  { assert (n = 0 \/ n = 1) as [->| ->] by lia; [left|right]; reflexivity. }
  assert (Hst : 2 ^ s = 2 ^ t * 2 ^ n)
    by (rewrite <- Z.pow_add_r by lia; f_equal; subst t; lia).
  pose proof (Zdigits2_lt q ltac:(lia)) as Hqd. fold dq in Hqd.
  assert (Hqd' : 2 ^ (dq - 1) <= q).
  { destruct q as [|pq|pq]; try lia. apply digits2_pos_lower. }
  assert (Hdqn : 2 ^ (dq - 1) = 2 ^ 52 * 2 ^ n)
    by (rewrite <- Z.pow_add_r by lia; f_equal; subst n; lia).
  assert (Hdqn' : 2 ^ dq = 2 ^ 53 * 2 ^ n)
    by (rewrite <- Z.pow_add_r by lia; f_equal; subst n; lia).
  pose proof (Z.div_mod q (2 ^ n) ltac:(lia)) as Hqm.
  pose proof (Z.mod_pos_bound q (2 ^ n) ltac:(lia)) as Hqb.
  set (m' := q / 2 ^ n) in *.
  assert (Hm'lo : 2 ^ 52 <= m') by nia.
  assert (Hm'hi : m' < 2 ^ 53) by nia.
  assert (Hm1b : 2 ^ 52 <= m1 <= 2 ^ 53) by lia.
  assert (Hbound : (m1 - 1) * Zpos pb <= Zpos pa * 2 ^ t < (m1 + 1) * Zpos pb).
  { rewrite Hst in Hq. split; nia. }
  destruct (binary_round_aux 53 1024 false q (d1 - d2 - 53)
              (new_location (Zpos pb) r)) as [sz|sz| |sz mz ez];
    try contradiction.
  - destruct Hres as [_ H0]. lia.
  - destruct Hres as [-> Henc].
    exists mz, ez, m1, t. split; [reflexivity|].
    split; [exact Henc|]. split; [exact Hm1b|].
    split; [subst t n; lia|]. exact Hbound.
Qed.

(** The arithmetic at the heart of the bound: a number [y] within
    [2 ^ -52] (relatively) of [P = L * m1 / T], where [m1 / T] is within
    [1 / T] of [C / e], has its floor at [floor(L * C / e)] or one
    below. *)
Lemma near_floor_core (L C e m1 T c : Z) (y P : R) :
  1 <= L -> 1 <= C <= e -> L * C < 2 ^ 50 ->
  2 ^ 52 <= m1 -> 0 < T ->
  (m1 - 1) * e <= C * T < (m1 + 1) * e ->
  (P * IZR T = IZR L * IZR m1)%R ->
  (- (P / 2 ^ 52) <= y - P <= P / 2 ^ 52)%R ->
  (IZR c <= y < IZR c + 1)%R ->
  L * C / e - 1 <= c <= L * C / e.
Proof.
  intros HL HC HLC Hm1 HT [Ha1 Ha2] HP Hy Hc.
  set (k := L * C / e).
  pose proof (Z.div_mod (L * C) e ltac:(lia)) as Hdm.
  pose proof (Z.mod_pos_bound (L * C) e ltac:(lia)) as Hmod.
  fold k in Hdm.
  assert (Hk1 : k * e <= L * C) by lia.
  assert (Hk2 : L * C <= k * e + e - 1) by lia.
  (* to the reals *)
  change (2 ^ 50) with 1125899906842624 in HLC.
  change (2 ^ 52) with 4503599627370496 in Hm1.
  apply IZR_le in HL, Hk1, Hk2, Hm1, Ha1.
  destruct HC as [HC1 HCe]. apply IZR_le in HC1, HCe.
  apply IZR_lt in HLC, HT, Ha2.
  repeat (progress rewrite ?mult_IZR, ?plus_IZR, ?minus_IZR in * ).
  set (Lr := IZR L) in *. set (Cr := IZR C) in *. set (er := IZR e) in *.
  set (mr := IZR m1) in *. set (Tr := IZR T) in *. set (kr := IZR k) in *.
  assert (He0 : (1 <= er)%R) by lra.
  (* q = 1 / e, g = L / T *)
  set (q := (/ er)%R).
  assert (Hq : (er * q = 1)%R) by (unfold q; field; lra).
  assert (Hq0 : (0 < q <= 1)%R).
  { split; [apply Rinv_0_lt_compat; lra|].
    assert (0 < q)%R by (apply Rinv_0_lt_compat; lra). nra. }
  set (g := (Lr / Tr)%R).
  assert (Hg : (g * Tr = Lr)%R) by (unfold g; field; lra).
  assert (Hg0 : (0 < g)%R) by (unfold g; apply Rdiv_lt_0_compat; lra).
  set (x := (Lr * Cr * q)%R).
  assert (Hx : (x * er = Lr * Cr)%R) by (unfold x; nra).
  (* P is within g of x *)
  assert (HPx : (x - g <= P <= x + g)%R).
  { assert (H1 : (P * Tr * er <= (x + g) * (Tr * er))%R) by nra.
    assert (H2 : ((x - g) * (Tr * er) <= P * Tr * er)%R) by nra.
    assert (Hpos : (0 < Tr * er)%R) by nra.
    split.
    - apply Rmult_le_reg_r with (Tr * er)%R; [exact Hpos|]. nra.
    - apply Rmult_le_reg_r with (Tr * er)%R; [exact Hpos|]. nra. }
  (* g is small *)
  assert (Hge : (g * er * (2 ^ 52 - 1) <= Lr * Cr)%R).
  { assert (H1 : ((2 ^ 52 - 1) * er <= Cr * Tr)%R) by nra.
    assert (H2 : (g * ((2 ^ 52 - 1) * er) <= g * (Cr * Tr))%R)
      by (apply Rmult_le_compat_l; lra).
    nra. }
  assert (Hgq : (g <= q * (2 ^ 50 / (2 ^ 52 - 1)))%R).
  { assert (H1 : (g * er <= 2 ^ 50 / (2 ^ 52 - 1))%R).
    { apply Rmult_le_reg_r with (2 ^ 52 - 1)%R; [lra|].
      replace (2 ^ 50 / (2 ^ 52 - 1) * (2 ^ 52 - 1))%R with (2 ^ 50)%R
        by (field; lra).
      lra. }
    assert (H2 : (g * er * q <= 2 ^ 50 / (2 ^ 52 - 1) * q)%R)
      by (apply Rmult_le_compat_r; lra).
    replace (g * er * q)%R with (g * (er * q))%R in H2 by ring.
    rewrite Hq in H2. lra. }
  assert (Hxq : (x < 2 ^ 50 * q)%R)
    by (unfold x; apply Rmult_lt_compat_r; lra).
  assert (Hxk : (kr <= x <= kr + 1 - q)%R).
  { split.
    - apply Rmult_le_reg_r with er; [lra|]. nra.
    - apply Rmult_le_reg_r with er; [lra|]. nra. }
  assert (HP0 : (0 <= P)%R).
  { apply Rmult_le_reg_r with Tr; [lra|]. rewrite HP. nra. }
  assert (HyP : (- ((x + g) / 2 ^ 52 + g) <= y - x
                 <= (x + g) / 2 ^ 52 + g)%R) by lra.
  assert (Hsmall : ((x + g) / 2 ^ 52 + g < q * (51 / 100))%R) by lra.
  assert (Hup : (IZR c < kr + 1)%R) by nra.
  assert (Hlo : (kr - 2 < IZR c)%R) by nra.
  unfold kr in Hup, Hlo.
  rewrite <- plus_IZR in Hup. rewrite <- minus_IZR in Hlo.
  apply lt_IZR in Hup, Hlo. lia.
Qed.

(** * Properties of the embedding client *)

Import Tei.

Lemma firstn_add {A} (a b : nat) (l : list A) :
  firstn (a + b) l = firstn a l ++ firstn b (skipn a l).
Proof.
  revert l; induction a as [|a IH]; intros [|x l]; cbn;
    rewrite ?firstn_nil; try reflexivity.
  f_equal. apply IH.
Qed.

Lemma firstn_min_length {A} (a : nat) (l : list A) :
  firstn (Nat.min a (List.length l)) l = firstn a l.
Proof.
  destruct (Nat.le_ge_cases a (List.length l)).
  - rewrite Nat.min_l by assumption. reflexivity.
  - rewrite Nat.min_r by assumption.
    rewrite !firstn_all2; auto.
Qed.

(** A slice of non-negative start and width. *)
Lemma py_slice_chunk {A} (l : list A) (i m : Z) :
  0 <= i -> 0 <= m ->
  py_slice l i (i + m) = firstn (Z.to_nat m) (skipn (Z.to_nat i) l).
Proof.
  intros Hi Hm. unfold py_slice, clamp_index, len.
  destruct (Z.ltb_spec i 0); [lia|].
  destruct (Z.ltb_spec (i + m) 0); [lia|].
  destruct (Z.le_gt_cases i (Z.of_nat (List.length l))).
  - rewrite (Z.min_r _ i) by lia.
    rewrite <- (firstn_min_length (Z.to_nat m)).
    f_equal. rewrite length_skipn. lia.
  - rewrite (Z.min_l _ i) by lia.
    rewrite !skipn_all2 by lia. rewrite !firstn_nil. reflexivity.
Qed.

Lemma py_range_from_zero (n step : Z) :
  1 <= step ->
  py_range 0 n step =
  Ok (map (fun k => Z.of_nat k * step)
        (seq 0 (Z.to_nat ((n + step - 1) / step)))).
Proof.
  intros Hs. unfold py_range.
  destruct (Z.eqb_spec step 0); [lia|].
  destruct (Z.ltb_spec 0 step); [|lia].
  f_equal. replace (n - 0 + step - 1) with (n + step - 1) by lia.
  apply map_ext. intros k. lia.
Qed.

Lemma chunks_nat (inps : list pystr) (M : Z) :
  1 <= M ->
  chunks inps M =
  map (fun k => firstn (Z.to_nat M) (skipn (k * Z.to_nat M) inps))
    (seq 0 (Z.to_nat ((len inps + M - 1) / M))).
Proof.
  intros HM. unfold chunks. rewrite py_range_from_zero by assumption.
  rewrite map_map. apply map_ext. intros k.
  rewrite py_slice_chunk by lia. f_equal. f_equal. lia.
Qed.

Lemma concat_windows {A} (l : list A) (m c : nat) :
  concat (map (fun k => firstn m (skipn (k * m) l)) (seq 0 c)) =
  firstn (c * m) l.
Proof.
  induction c as [|c IH]; [reflexivity|].
  rewrite seq_S, map_app, concat_app, IH. cbn [map concat Nat.add].
  rewrite app_nil_r.
  replace (S c * m)%nat with (c * m + m)%nat by lia.
  rewrite firstn_add. reflexivity.
Qed.

(** The rounded-up quotient covers the dividend, and no smaller one does. *)
Lemma ceil_div_bounds (n M : Z) :
  0 <= n -> 1 <= M ->
  let c := (n + M - 1) / M in
  0 <= c /\ n <= c * M /\ (c - 1) * M < n.
Proof.
  intros Hn HM c.
  pose proof (Z.div_mod (n + M - 1) M ltac:(lia)) as Hdm.
  pose proof (Z.mod_pos_bound (n + M - 1) M ltac:(lia)) as Hmod.
  fold c in Hdm. repeat split; nia.
Qed.

Lemma chunks_spec (inps : list pystr) (M : Z) :
  1 <= M ->
  len (chunks inps M) = (len inps + M - 1) / M /\
  Forall (fun chunk => 1 <= len chunk <= M) (chunks inps M) /\
  concat (chunks inps M) = inps.
Proof.
  intros HM. rewrite chunks_nat by assumption.
  set (m := Z.to_nat M). set (c := (len inps + M - 1) / M).
  assert (Hn : 0 <= len inps) by (unfold len; lia).
  destruct (ceil_div_bounds (len inps) M Hn HM) as [Hc [Hup Hlo]].
  fold c in Hc, Hup, Hlo.
  split; [|split].
  - unfold len. rewrite length_map, length_seq. lia.
  - apply Forall_forall. intros chunk Hin.
    apply in_map_iff in Hin. destruct Hin as [k [<- Hk]].
    apply in_seq in Hk. unfold len in *.
    rewrite length_firstn, length_skipn. subst m. nia.
  - rewrite concat_windows. apply firstn_all2. unfold len in *.
    subst m. nia.
Qed.

Lemma combine_app {A B} (a c : list A) (b d : list B) :
  List.length a = List.length b ->
  combine (a ++ c) (b ++ d) = combine a b ++ combine c d.
Proof.
  revert b; induction a as [|x a IH]; intros [|y b] H; cbn in *;
    try discriminate; [reflexivity|].
  f_equal. apply IH. lia.
Qed.

Section Loops.

Variables Embedding Decimal Latency World : Type.
Variable _get_num_tokens_by_gpt2 : pystr -> Z.
Variable _get_context_size : pystr -> Credentials -> Z.
Variable _get_max_chunks : pystr -> Credentials -> Z.
Variable get_price : pystr -> Credentials -> Z -> PriceInfo Decimal.
Variable elapsed : World -> Latency.
Variable invoke_embeddings :
  TeiCall -> World -> res (TeiResponse Embedding) * World.

Let truncate := truncate _get_num_tokens_by_gpt2.
Let prepare := prepare _get_num_tokens_by_gpt2.
Let prepare_from := prepare_from _get_num_tokens_by_gpt2.
Let estimated_tokens := estimated_tokens _get_num_tokens_by_gpt2.
Let embed_loop := embed_loop Embedding World invoke_embeddings.
Let _invoke :=
  _invoke Embedding Decimal Latency World _get_num_tokens_by_gpt2
    _get_context_size _get_max_chunks get_price elapsed invoke_embeddings.

(** ** The first loop *)

Lemma prepare_from_spec (C : Z) (texts : list pystr) :
  forall (i : Z) (st p : Prepared),
  prepare_from C i texts st = Ok p ->
  exists ins,
    inputs p = inputs st ++ ins /\
    Forall2 (fun text input => truncate C text = Ok input) texts ins /\
    used_tokens p = used_tokens st + estimated_tokens texts.
Proof.
  induction texts as [|text texts IH]; intros i st p H; cbn in H.
  - injection H as <-. exists []. rewrite app_nil_r. cbn.
    repeat split; [constructor | lia].
  - fold truncate in H. destruct (truncate C text) as [input|e] eqn:Et;
      cbn [bind] in H; [|discriminate].
    apply IH in H. destruct H as [ins [Hin [Hall Hused]]].
    cbn [inputs used_tokens] in Hin, Hused.
    exists (input :: ins). rewrite <- app_assoc in Hin.
    repeat split; [exact Hin | constructor; assumption |].
    cbn. fold estimated_tokens.
    unfold estimated_tokens, Tei.estimated_tokens in *. lia.
Qed.

Lemma prepare_from_total (C : Z) (texts : list pystr) :
  Forall (fun text => exists input, truncate C text = Ok input) texts ->
  forall (i : Z) (st : Prepared), exists p, prepare_from C i texts st = Ok p.
Proof.
  induction 1 as [|text texts [input Ht] _ IH]; intros i st; cbn.
  - eexists; reflexivity.
  - fold truncate. rewrite Ht. cbn [bind]. apply IH.
Qed.

(** ** The second loop *)

Lemma embed_loop_spec (mk : list pystr -> TeiCall) (inps : list pystr)
    (M : Z) (iter : list Z) :
  forall acc w log out w' log',
  embed_loop mk inps M iter acc w log = (out, w', log') ->
  exists new,
    log' = log ++ new /\
    (exists k,
       map fst new =
       firstn k (map (fun i => mk (py_slice inps i (i + M))) iter)) /\
    (forall embs, out = Ok embs ->
       map fst new = map (fun i => mk (py_slice inps i (i + M))) iter /\
       embs = acc ++ concat (map answered new)).
Proof.
  induction iter as [|i iter IH]; intros acc w log out w' log' H; cbn in H.
  - injection H as <- <- <-. exists []. rewrite app_nil_r.
    split; [reflexivity|]. split; [exists 0%nat; reflexivity|].
    intros embs [= <-]. rewrite app_nil_r. split; reflexivity.
  - destruct (invoke_embeddings (mk (py_slice inps i (i + M))) w)
      as [o w1] eqn:Ecall.
    destruct o as [results|e].
    + apply IH in H. destruct H as [new [Hlog [[k Hk] Hok]]].
      exists ((mk (py_slice inps i (i + M)), Ok results) :: new).
      split; [rewrite Hlog, <- app_assoc; reflexivity|].
      split; [exists (S k); cbn; rewrite Hk; reflexivity|].
      intros embs Hout. destruct (Hok embs Hout) as [H1 H2].
      split; [cbn; rewrite H1; reflexivity|].
      rewrite H2, <- app_assoc. reflexivity.
    + exists [(mk (py_slice inps i (i + M)), Raise e)].
      assert (Hshape : exists e2, out = Raise e2 /\ w' = w1 /\
                log' = log ++ [(mk (py_slice inps i (i + M)), Raise e)]).
      { destruct e; injection H as <- <- <-; eexists; repeat split. }
      destruct Hshape as [e2 [-> [-> ->]]].
      split; [reflexivity|].
      split; [exists 1%nat; reflexivity|].
      intros embs [=].
Qed.

Lemma embed_loop_total (mk : list pystr -> TeiCall) (inps : list pystr)
    (M : Z) (iter : list Z) :
  (forall call w, exists results w',
     invoke_embeddings call w = (Ok results, w')) ->
  forall acc w log, exists embs w' log',
    embed_loop mk inps M iter acc w log = (Ok embs, w', log').
Proof.
  intros Hserver. induction iter as [|i iter IH]; intros acc w log; cbn.
  - do 3 eexists; reflexivity.
  - destruct (Hserver (mk (py_slice inps i (i + M))) w) as [r [w1 ->]].
    apply IH.
Qed.

End Loops.

Lemma cutoff_of_total (L C e : Z) :
  0 <= L < 2 ^ 63 -> 0 <= C <= e -> 0 < e ->
  exists cutoff, cutoff_of L C e = Ok cutoff /\ 0 <= cutoff.
Proof.
  intros HL HC He. unfold cutoff_of.
  destruct (truediv_within C e HC He) as [ratio [-> Hratio]]. cbn [bind].
  destruct (int_mul_within L ratio HL Hratio) as [prod [-> Hprod]].
  cbn [bind]. exact (to_int_nonneg prod _ _ Hprod).
Qed.

Lemma pow2_scale (x : R) (n : Z) :
  (x * powerRZ 2 (- n) * powerRZ 2 n = x)%R.
Proof.
  rewrite Rmult_assoc, <- pow2_add, Z.add_opp_diag_l. cbn. ring.
Qed.

Lemma cutoff_near_floor (L C e : Z) :
  0 <= L -> 1 <= C <= e -> e < 2 ^ 63 -> L * C < 2 ^ 50 ->
  exists c, cutoff_of L C e = Ok c /\ L * C / e - 1 <= c <= L * C / e.
Proof.
  intros HL HC He HLC.
  destruct (truediv_value C e HC He)
    as [mr [er [m1 [t [Hdiv [Henc [Hm1 [Ht Hquot]]]]]]]].
  unfold cutoff_of. rewrite Hdiv. cbn [bind]. unfold PyFloat.int_mul.
  destruct (Z.eq_dec L 0) as [->|HL0].
  { (* no characters *)
    exists 0. split; [reflexivity|].
    rewrite Z.mul_0_l, Z.div_0_l by lia. lia. }
  assert (HL53 : 1 <= L < 2 ^ 53) by nia.
  destruct (of_int_exact L HL53) as [mL [d [-> [Hd [HmL HmLlt]]]]].
  cbn [bind SFmul xorb]. unfold PyFloat.prec, PyFloat.emax.
  set (mx := Zpos (mL * mr)). set (ex := - d + er).
  assert (Hmr : 2 ^ 52 <= Zpos mr <= 2 ^ 53) by (destruct Henc as [[_ ->]|[_ [_ ->]]]; lia).
  assert (Her : - t <= er <= - t + 1) by (destruct Henc as [[-> _]|[-> _]]; lia).
  assert (HDx : Zdigits2 mx <= 107).
  { apply Zdigits2_le; try lia. subst mx. rewrite Pos2Z.inj_mul.
    change (2 ^ 107) with (2 ^ 53 * 2 ^ 54). nia. }
  pose proof (Zdigits2_nonneg mx) as HDx0.
  assert (HDx1 : 1 <= Zdigits2 mx) by (subst mx; cbn; lia).
  pose proof (binary_round_aux_value false mx ex loc_Exact
                ltac:(subst mx; lia) ltac:(subst ex; lia)
                ltac:(subst ex; lia)) as Hv.
  cbv zeta in Hv.
  set (E1 := Z.max ex (fexp 53 1024 (Zdigits2 mx + ex))) in Hv.
  destruct Hv as [M1 [HM1 [Hexact Hres]]].
  set (N := E1 - ex) in *.
  assert (HN : 0 <= N) by (subst N E1; lia).
  assert (HpN : 0 < 2 ^ N) by (apply Z.pow_pos_nonneg; lia).
  pose proof (Z.div_mod mx (2 ^ N) ltac:(lia)) as Hdm.
  pose proof (Z.mod_pos_bound mx (2 ^ N) HpN) as Hmod.
  set (M' := mx / 2 ^ N) in *.
  (* the rounding error, in units of [2 ^ ex] *)
  assert (Herr : exists U, 0 <= U /\ U * 2 ^ 52 <= mx /\
                   - U <= M1 * 2 ^ N - mx <= U /\ 0 < M1).
  { destruct (Z.eq_dec N 0) as [HN0|HN0].
    - exists 0. assert (HE1ex : E1 = ex) by (unfold N in HN0; lia).
      rewrite (Hexact eq_refl HE1ex).
      rewrite HN0, Z.pow_0_r. subst mx. lia.
    - exists (2 ^ N).
      assert (HE1 : E1 = Zdigits2 mx + ex - 53)
        by (subst N E1 ex; unfold fexp, emin in *; lia).
      assert (Hlow : 2 ^ (Zdigits2 mx - 1) <= mx)
        by (subst mx; apply digits2_pos_lower).
      assert (HNd : 2 ^ (Zdigits2 mx - 1) = 2 ^ N * 2 ^ 52)
        by (rewrite <- Z.pow_add_r by lia; f_equal; subst N; lia).
      split; [lia|]. split; [lia|].
      assert (2 ^ 52 <= M') by nia.
      split; nia. }
  destruct Herr as [U [HU0 [HU [Hdiff HM1pos]]]].
  destruct (binary_round_aux 53 1024 false mx ex loc_Exact)
    as [sy|sy| |sy My Ey]; try contradiction.
  { destruct Hres as [_ H0]. lia. }
  destruct Hres as [-> Hyenc].
  destruct (to_int_floor My Ey) as [c [Hc Hfloor]].
  exists c. split; [exact Hc|].
  (* the value of the product *)
  assert (Hy : PyFloat.F2R (Zpos My) Ey = (IZR M1 * powerRZ 2 E1)%R).
  { unfold PyFloat.F2R. destruct Hyenc as [[-> ->]|[-> [-> ->]]]; [reflexivity|].
    rewrite pow2_add. change (powerRZ 2 1) with (2 * 1)%R.
    change (2 ^ 52) with 4503599627370496.
    change (2 ^ 53) with 9007199254740992.
    replace (IZR 9007199254740992) with (IZR 4503599627370496 * 2)%R
      by (rewrite <- mult_IZR; reflexivity).
    ring. }
  rewrite Hy in Hfloor.
  pose proof (pow2_pos ex) as Hpex.
  set (P := (IZR mx * powerRZ 2 ex)%R).
  assert (HT : 0 < 2 ^ t) by (apply Z.pow_pos_nonneg; lia).
  assert (HPT : (P * IZR (2 ^ t) = IZR L * IZR m1)%R).
  {
    unfold P, mx, ex. rewrite Pos2Z.inj_mul, mult_IZR, HmL, mult_IZR.
    rewrite <- !pow2_IZR by lia. rewrite pow2_add.
    pose proof (pow2_cancel d) as Hcd.
    assert (Hmt : (IZR (Zpos mr) * powerRZ 2 er * powerRZ 2 t = IZR m1)%R).
    { destruct Henc as [[-> <-]|[-> [-> ->]]].
      - apply pow2_scale.
      - rewrite pow2_add. change (powerRZ 2 1) with (2 * 1)%R.
        change (2 ^ 52) with 4503599627370496.
        change (2 ^ 53) with 9007199254740992.
        replace (IZR 9007199254740992) with (IZR 4503599627370496 * 2)%R
          by (rewrite <- mult_IZR; reflexivity).
        rewrite <- (pow2_scale (IZR 4503599627370496 * 2) t).
        ring. }
    replace (IZR L * powerRZ 2 d * IZR (Zpos mr)
             * (powerRZ 2 (- d) * powerRZ 2 er) * powerRZ 2 t)%R
      with (IZR L * (powerRZ 2 d * powerRZ 2 (- d))
            * (IZR (Zpos mr) * powerRZ 2 er * powerRZ 2 t))%R by ring.
    rewrite Hcd, Hmt. ring. }
  assert (Herr : (- (P / 2 ^ 52) <= IZR M1 * powerRZ 2 E1 - P
                  <= P / 2 ^ 52)%R).
  {
    assert (HE1 : powerRZ 2 E1 = (powerRZ 2 N * powerRZ 2 ex)%R)
      by (rewrite <- pow2_add; f_equal; subst N; lia).
    rewrite HE1. unfold P.
    destruct Hdiff as [Hd1 Hd2].
    apply IZR_le in HU0, HU, Hd1, Hd2.
    repeat (progress rewrite ?mult_IZR, ?plus_IZR, ?minus_IZR, ?opp_IZR in * ).
    rewrite <- !pow2_IZR in * by lia.
    change (powerRZ 2 52) with (2 ^ 52)%R in HU.
    set (a := IZR M1) in *. set (b := powerRZ 2 N) in *.
    set (x := IZR mx) in *. set (u := IZR U) in *.
    set (p := powerRZ 2 ex) in *.
    assert (Hu : (u <= x / 2 ^ 52)%R).
    { apply Rmult_le_reg_r with (2 ^ 52)%R; [lra|].
      replace (x / 2 ^ 52 * 2 ^ 52)%R with x by (field; lra). exact HU. }
    assert (H1 : ((a * b - x) * p <= u * p)%R)
      by (apply Rmult_le_compat_r; lra).
    assert (H2 : (- u * p <= (a * b - x) * p)%R)
      by (apply Rmult_le_compat_r; lra).
    assert (H3 : (u * p <= x / 2 ^ 52 * p)%R)
      by (apply Rmult_le_compat_r; lra).
    split; lra. }
  exact (near_floor_core L C e m1 (2 ^ t) c _ P ltac:(lia) HC HLC
           (proj1 Hm1) HT Hquot HPT Herr Hfloor).
Qed.

Lemma py_slice_prefix {A} (l : list A) (n : Z) :
  0 <= n -> py_slice l 0 n = firstn (Z.to_nat n) l.
Proof.
  intros Hn. change n with (0 + n) at 1.
  rewrite py_slice_chunk by lia. reflexivity.
Qed.

Section Runs.

Variables Embedding Decimal Latency World : Type.
Variable _get_num_tokens_by_gpt2 : pystr -> Z.
Variable _get_context_size : pystr -> Credentials -> Z.
Variable _get_max_chunks : pystr -> Credentials -> Z.
Variable get_price : pystr -> Credentials -> Z -> PriceInfo Decimal.
Variable elapsed : World -> Latency.
Variable invoke_embeddings :
  TeiCall -> World -> res (TeiResponse Embedding) * World.

Let truncate := truncate _get_num_tokens_by_gpt2.
Let prepare := prepare _get_num_tokens_by_gpt2.
Let estimated_tokens := estimated_tokens _get_num_tokens_by_gpt2.
Let _invoke :=
  _invoke Embedding Decimal Latency World _get_num_tokens_by_gpt2
    _get_context_size _get_max_chunks get_price elapsed invoke_embeddings.
Let answered := @answered Embedding.
Let sent := @sent Embedding.

(** The server answers every call. *)
Let always_answers : Prop :=
  forall call w, exists results w',
    invoke_embeddings call w = (Ok results, w').

Lemma truncate_short (C : Z) (text : pystr) :
  _get_num_tokens_by_gpt2 text < C -> truncate C text = Ok text.
Proof.
  intros H. unfold truncate, Tei.truncate.
  destruct (Z.geb_spec (_get_num_tokens_by_gpt2 text) C); [lia|reflexivity].
Qed.

Lemma truncate_long (C : Z) (text : pystr) :
  1 <= C <= _get_num_tokens_by_gpt2 text -> len text < 2 ^ 63 ->
  exists cutoff,
    cutoff_of (len text) C (_get_num_tokens_by_gpt2 text) = Ok cutoff /\
    0 <= cutoff /\
    truncate C text = Ok (firstn (Z.to_nat cutoff) text).
Proof.
  intros HC HL. unfold truncate, Tei.truncate.
  destruct (Z.geb_spec (_get_num_tokens_by_gpt2 text) C); [|lia].
  assert (HL0 : 0 <= len text) by (unfold len; lia).
  destruct (cutoff_of_total (len text) C (_get_num_tokens_by_gpt2 text))
    as [cutoff [Hc Hpos]]; try lia.
  exists cutoff. rewrite Hc. cbn [bind].
  rewrite py_slice_prefix by assumption. auto.
Qed.

Lemma truncate_total (C : Z) (text : pystr) :
  1 <= C -> len text < 2 ^ 63 -> exists input, truncate C text = Ok input.
Proof.
  intros HC HL.
  destruct (Z.lt_ge_cases (_get_num_tokens_by_gpt2 text) C) as [Hlt|Hge].
  - exists text. apply truncate_short; assumption.
  - destruct (truncate_long C text) as [c [_ [_ H]]]; [lia|assumption|].
    eexists; exact H.
Qed.

Lemma prepare_spec (C : Z) (texts : list pystr) (p : Prepared) :
  prepare C texts = Ok p ->
  Forall2 (fun text input => truncate C text = Ok input) texts (inputs p) /\
  used_tokens p = estimated_tokens texts.
Proof.
  intros H. apply prepare_from_spec in H.
  destruct H as [ins [Hin [Hall Hused]]]. cbn in Hin, Hused.
  subst ins. split; assumption.
Qed.

Lemma prepare_total (C : Z) (texts : list pystr) :
  1 <= C -> Forall (fun text => len text < 2 ^ 63) texts ->
  exists p, prepare C texts = Ok p.
Proof.
  intros HC Hall. apply prepare_from_total.
  apply Forall_impl with (2 := Hall). intros text HL.
  apply truncate_total; assumption.
Qed.

(** A run of [_invoke] that got past the first loop. *)
Lemma invoke_prepared mdl credentials texts w p :
  let C := _get_context_size mdl credentials in
  let M := _get_max_chunks mdl credentials in
  prepare C texts = Ok p -> 1 <= M ->
  let run := _invoke mdl credentials texts w in
  (exists k, map sent (snd run) = firstn k (chunks (inputs p) M)) /\
  (forall r, fst (fst run) = Ok r ->
     map sent (snd run) = chunks (inputs p) M /\
     embeddings r = concat (map answered (snd run)) /\
     tokens (usage r) = estimated_tokens texts /\
     total_tokens (usage r) = estimated_tokens texts) /\
  (always_answers -> exists r, fst (fst run) = Ok r).
Proof.
  intros C M Hp HM run. subst run. unfold _invoke, Tei._invoke.
  fold C M. fold prepare. rewrite Hp.
  unfold chunks. rewrite py_range_from_zero by assumption.
  set (iter := map _ (seq 0 _)).
  set (mk := fun iter_texts : list pystr => _).
  destruct (embed_loop Embedding World invoke_embeddings mk (inputs p) M
              iter [] w []) as [[out w'] log] eqn:Eloop.
  pose proof Eloop as Hspec. apply embed_loop_spec in Hspec.
  destruct Hspec as [new [Hlog [[k Hk] Hok]]].
  cbn [app] in Hlog. subst new.
  assert (Hmap : forall lg : Log Embedding,
            map sent lg = map call_texts (map fst lg)).
  { intros lg. rewrite map_map. reflexivity. }
  assert (Hcalls : forall l : list Z,
            map call_texts (map (fun i => mk (py_slice (inputs p) i (i + M))) l)
            = map (fun i => py_slice (inputs p) i (i + M)) l).
  { intros l. rewrite map_map. reflexivity. }
  split; [|split].
  - exists k. destruct out; cbn [snd]; rewrite Hmap, Hk, firstn_map, Hcalls,
      <- firstn_map; reflexivity.
  - intros r Hr. destruct out as [embs|e]; cbn [fst snd] in *; [|discriminate].
    injection Hr as <-. cbn [embeddings usage tokens total_tokens
                              _calc_response_usage].
    destruct (Hok embs eq_refl) as [H1 H2].
    rewrite Hmap, H1, Hcalls.
    destruct (prepare_spec C texts p Hp) as [_ Hused].
    repeat split; assumption.
  - intros Hserver.
    destruct (embed_loop_total _ _ invoke_embeddings mk (inputs p) M iter
                Hserver [] w []) as [embs [w2 [log2 H2]]].
    rewrite Eloop in H2. injection H2 as -> -> ->.
    eexists; reflexivity.
Qed.

(** A run of [_invoke] whose first loop raised. *)
Lemma invoke_not_prepared mdl credentials texts w e :
  prepare (_get_context_size mdl credentials) texts = Raise e ->
  _invoke mdl credentials texts w = (Raise e, w, []).
Proof.
  intros Hp. unfold _invoke, Tei._invoke. fold prepare. rewrite Hp.
  reflexivity.
Qed.

End Runs.

Lemma aligned_log {Embedding} (log : Log Embedding) :
  Forall (fun entry => List.length (answered entry) = List.length (sent entry))
    log ->
  List.length (concat (map answered log))
    = List.length (concat (map sent log)) /\
  combine (concat (map sent log)) (concat (map answered log)) =
  concat (map (fun entry => combine (sent entry) (answered entry)) log).
Proof.
  induction 1 as [|entry log Hlen _ [IHlen IH]]; cbn [map concat].
  - split; reflexivity.
  - split.
    + rewrite !length_app. lia.
    + rewrite combine_app by (symmetry; exact Hlen). rewrite IH. reflexivity.
Qed.

Section InvokeTheorems.

Variables Embedding Decimal Latency World : Type.
Variable _get_num_tokens_by_gpt2 : pystr -> Z.
Variable _get_context_size : pystr -> Credentials -> Z.
Variable _get_max_chunks : pystr -> Credentials -> Z.
Variable get_price : pystr -> Credentials -> Z -> PriceInfo Decimal.
Variable elapsed : World -> Latency.
Variable invoke_embeddings :
  TeiCall -> World -> res (TeiResponse Embedding) * World.

Let truncate := truncate _get_num_tokens_by_gpt2.
Let prepare := prepare _get_num_tokens_by_gpt2.
Let estimated_tokens := estimated_tokens _get_num_tokens_by_gpt2.
Let _invoke :=
  _invoke Embedding Decimal Latency World _get_num_tokens_by_gpt2
    _get_context_size _get_max_chunks get_price elapsed invoke_embeddings.

Lemma invoke_no_texts mdl credentials w :
  1 <= _get_max_chunks mdl credentials ->
  exists r,
    _invoke mdl credentials [] w = (Ok r, w, []) /\
    embeddings r = [] /\ tokens (usage r) = 0 /\ total_tokens (usage r) = 0.
Proof.
  intros HM. unfold _invoke, Tei._invoke. cbn [Tei.prepare prepare_from inputs].
  rewrite py_range_from_zero by assumption.
  replace ((len (@nil pystr) + _get_max_chunks mdl credentials - 1)
           / _get_max_chunks mdl credentials) with 0
    by (symmetry; apply Z.div_small; unfold len; cbn; lia).
  cbn. eexists; repeat split.
Qed.

(** C1: with a chunk size of at least 1, [_invoke] sends the possibly
    truncated texts in [ceil(N / M)] chunks of 1 to [M] texts whose
    concatenation is the list of inputs in the original order; the helper
    is called on the chunks in order, at most once each, and exactly once
    each when [_invoke] returns; the embeddings returned are the
    concatenation of the per-call answers in call order, so that when
    every answer has one embedding per text sent, each input is paired
    with the embedding at its position; without texts no call is made and
    the result has no embeddings and zero usage tokens. *)
Theorem C1_chunked_embedding mdl credentials texts w :
  let C := _get_context_size mdl credentials in
  let M := _get_max_chunks mdl credentials in
  let run := _invoke mdl credentials texts w in
  let out := fst (fst run) in
  let log := snd run in
  1 <= M ->
  (texts = [] ->
   log = [] /\ snd (fst run) = w /\
   exists r, out = Ok r /\ embeddings r = [] /\
             tokens (usage r) = 0 /\ total_tokens (usage r) = 0) /\
  (forall e, prepare C texts = Raise e -> out = Raise e /\ log = []) /\
  (forall p, prepare C texts = Ok p ->
     Forall2 (fun text input => truncate C text = Ok input) texts (inputs p) /\
     len (chunks (inputs p) M) = (len texts + M - 1) / M /\
     Forall (fun chunk => 1 <= len chunk <= M) (chunks (inputs p) M) /\
     concat (chunks (inputs p) M) = inputs p /\
     (exists k, map sent log = firstn k (chunks (inputs p) M)) /\
     (forall r, out = Ok r ->
        map sent log = chunks (inputs p) M /\
        embeddings r = concat (map answered log) /\
        (Forall (fun entry =>
                   List.length (answered entry) = List.length (sent entry))
           log ->
         List.length (embeddings r) = List.length texts /\
         combine (inputs p) (embeddings r) =
         concat (map (fun entry => combine (sent entry) (answered entry))
                   log))) /\
     ((forall call w0, exists results w1,
         invoke_embeddings call w0 = (Ok results, w1)) ->
      exists r, out = Ok r)) /\
  (1 <= C -> Forall (fun text => len text < 2 ^ 63) texts ->
   exists p, prepare C texts = Ok p).
Proof.
  intros C M run out log HM.
  split; [|split; [|split]].
  - intros ->. subst out log run.
    destruct (invoke_no_texts mdl credentials w HM) as [r [-> Hr]].
    cbn [fst snd]. repeat split. exists r. split; [reflexivity|exact Hr].
  - intros e He. subst out log run. unfold _invoke.
    rewrite (invoke_not_prepared Embedding Decimal Latency World
               _get_num_tokens_by_gpt2 _get_context_size _get_max_chunks
               get_price elapsed invoke_embeddings mdl credentials texts w e
               He).
    split; reflexivity.
  - intros p Hp.
    destruct (prepare_spec _get_num_tokens_by_gpt2 C texts p Hp)
      as [Hall _].
    destruct (chunks_spec (inputs p) M HM) as [Hcount [Hsize Hcat]].
    destruct (invoke_prepared Embedding Decimal Latency World
                _get_num_tokens_by_gpt2 _get_context_size _get_max_chunks
                get_price elapsed invoke_embeddings mdl credentials texts w p
                Hp HM) as [Hprefix [Hok Htotal]].
    fold _invoke in Hprefix, Hok, Htotal. fold run in Hprefix, Hok, Htotal.
    fold out in Hok, Htotal. fold log in Hprefix, Hok.
    assert (Hlen : List.length (inputs p) = List.length texts)
      by (symmetry; exact (Forall2_length Hall)).
    split; [exact Hall|].
    split; [rewrite Hcount; unfold len; rewrite Hlen; reflexivity|].
    split; [exact Hsize|]. split; [exact Hcat|]. split; [exact Hprefix|].
    split; [|exact Htotal].
    intros r Hr. destruct (Hok r Hr) as [Hsent [Hemb _]].
    split; [exact Hsent|]. split; [exact Hemb|].
    intros Haligned. destruct (aligned_log log Haligned) as [Hl Hc].
    split.
    + rewrite Hemb, Hl, Hsent. fold M. rewrite Hcat. exact Hlen.
    + rewrite Hemb, <- Hc, Hsent. fold M. rewrite Hcat. reflexivity.
  - intros HC Hall. apply prepare_total; assumption.
Qed.

(** C9: the [tokens] and [total_tokens] of the usage [_invoke] returns
    both equal the sum of the token estimates of the texts as given,
    whether or not a text was truncated before it was sent; and [_invoke]
    does return when the context size and the chunk size are at least 1
    and the server answers every call. *)
Theorem C9_usage_counts_estimates mdl credentials texts w :
  let C := _get_context_size mdl credentials in
  let M := _get_max_chunks mdl credentials in
  (forall r w' log,
     _invoke mdl credentials texts w = (Ok r, w', log) ->
     tokens (usage r) = estimated_tokens texts /\
     total_tokens (usage r) = estimated_tokens texts) /\
  (1 <= C -> 1 <= M ->
   Forall (fun text => len text < 2 ^ 63) texts ->
   (forall call w0, exists results w1,
      invoke_embeddings call w0 = (Ok results, w1)) ->
   exists r w' log, _invoke mdl credentials texts w = (Ok r, w', log)).
Proof.
  intros C M. split.
  - intros r w' log Hrun.
    destruct (prepare C texts) as [p|e] eqn:Hp.
    + unfold _invoke, Tei._invoke in Hrun. fold C M prepare in Hrun.
      rewrite Hp in Hrun.
      destruct (py_range 0 (len (inputs p)) M) as [iter|e];
        [|discriminate].
      destruct (embed_loop _ _ _ _ _ _ _ _ _ _) as [[o w2] lg].
      destruct o as [embs|e]; [|discriminate].
      injection Hrun as <- _ _.
      cbn [usage tokens total_tokens _calc_response_usage].
      destruct (prepare_spec _get_num_tokens_by_gpt2 C texts p Hp)
        as [_ Hused].
      split; exact Hused.
    + unfold _invoke in Hrun.
      rewrite (invoke_not_prepared Embedding Decimal Latency World
                 _get_num_tokens_by_gpt2 _get_context_size _get_max_chunks
                 get_price elapsed invoke_embeddings mdl credentials texts
                 w e Hp) in Hrun.
      discriminate.
  - intros HC HM Hall Hserver.
    destruct (prepare_total _get_num_tokens_by_gpt2 C texts HC Hall)
      as [p Hp].
    destruct (invoke_prepared Embedding Decimal Latency World
                _get_num_tokens_by_gpt2 _get_context_size _get_max_chunks
                get_price elapsed invoke_embeddings mdl credentials texts w p
                Hp HM) as [_ [_ Htotal]].
    destruct (Htotal Hserver) as [r Hr].
    fold _invoke in Hr.
    destruct (_invoke mdl credentials texts w) as [[o w2] lg].
    cbn [fst] in Hr. subst o. do 3 eexists; reflexivity.
Qed.

End InvokeTheorems.

Section TruncationTheorems.

Variable _get_num_tokens_by_gpt2 : pystr -> Z.

Let truncate := truncate _get_num_tokens_by_gpt2.
Let prepare := prepare _get_num_tokens_by_gpt2.

(** C2, as amended: a text whose estimate is below the context size is
    passed through unchanged; a text whose estimate is at least the
    context size [C >= 1] is replaced by its prefix of [cutoff]
    characters, where [cutoff = int(L * (C / estimate))], evaluated in
    double precision, is [floor(L * C / estimate)] or one less (for
    [L * C < 2 ^ 50] and an estimate below [2 ^ 63]); beyond that range,
    and for fewer than [2 ^ 63] characters, the text is still replaced by
    the prefix [text[0:cutoff]] without error; an empty text is passed
    through as the empty text; and the inputs of [_invoke] are the texts
    so treated, in order. *)
Theorem C2_truncation (C : Z) (text : pystr) :
  let estimate := _get_num_tokens_by_gpt2 text in
  let floor := len text * C / estimate in
  (estimate < C -> truncate C text = Ok text) /\
  (1 <= C <= estimate -> estimate < 2 ^ 63 -> len text * C < 2 ^ 50 ->
   exists cutoff,
     cutoff_of (len text) C estimate = Ok cutoff /\
     floor - 1 <= cutoff <= floor /\
     truncate C text = Ok (firstn (Z.to_nat cutoff) text) /\
     len (firstn (Z.to_nat cutoff) text) = cutoff) /\
  (1 <= C <= estimate -> len text < 2 ^ 63 ->
   exists cutoff,
     cutoff_of (len text) C estimate = Ok cutoff /\
     0 <= cutoff /\
     truncate C text = Ok (firstn (Z.to_nat cutoff) text) /\
     len (firstn (Z.to_nat cutoff) text) = Z.min (len text) cutoff) /\
  (1 <= C -> text = [] -> truncate C text = Ok []) /\
  (forall texts p,
     prepare C texts = Ok p ->
     Forall2 (fun t input => truncate C t = Ok input) texts (inputs p)).
Proof.
  intros estimate floor. split; [|split; [|split; [|split]]].
  - apply truncate_short.
  - intros HC He HLC.
    assert (HL0 : 0 <= len text) by (unfold len; lia).
    destruct (cutoff_near_floor (len text) C estimate HL0 HC He HLC)
      as [cutoff [Hc Hnear]].
    fold floor in Hnear.
    assert (HL : len text < 2 ^ 63) by nia.
    destruct (truncate_long _get_num_tokens_by_gpt2 C text HC HL)
      as [cutoff' [Hc' [Hpos Ht]]].
    fold estimate in Hc'. rewrite Hc in Hc'. injection Hc' as <-.
    exists cutoff. repeat split; try assumption; try lia.
    assert (Hfl : floor <= len text).
    { unfold floor. apply Z.div_le_upper_bound; [lia|]. nia. }
    unfold len in *. rewrite length_firstn. lia.
  - intros HC HL.
    destruct (truncate_long _get_num_tokens_by_gpt2 C text HC HL)
      as [cutoff [Hc [Hpos Ht]]].
    exists cutoff. repeat split; try assumption.
    unfold len. rewrite length_firstn. lia.
  - intros HC ->.
    destruct (Z.lt_ge_cases (_get_num_tokens_by_gpt2 []) C) as [Hlt|Hge].
    + apply truncate_short; assumption.
    + destruct (truncate_long _get_num_tokens_by_gpt2 C [])
        as [cutoff [_ [_ Ht]]]; [lia | reflexivity |].
      rewrite firstn_nil in Ht. exact Ht.
  - intros texts p Hp.
    apply (prepare_spec _get_num_tokens_by_gpt2 C texts p Hp).
Qed.

End TruncationTheorems.

(** ** The embedding client on concrete inputs *)

(** The double-precision product of the example, on the processor's own
    floats: [561 * (512 / 561)] is just below 512. *)
Lemma cutoff_561_on_doubles :
  Prim2SF (561 * (512 / 561))%float
    = S754_finite false 9007199254740991 (-44) /\
  cutoff_of 561 512 561 = Ok 511.
Proof. split; vm_compute; reflexivity. Qed.

(** C2, as stated: with one token per character and a context size of
    512, a text of 561 characters is cut to 511 characters, whereas
    [floor(561 * 512 / 561)] is 512. *)
Lemma C2_cutoff_is_not_the_floor :
  Samples.char_tokens (repeat 97 561) >= 512 /\
  truncate Samples.char_tokens 512 (repeat 97 561) = Ok (repeat 97 511) /\
  len (repeat 97 511) = 511 /\
  len (repeat 97 561) * 512 / Samples.char_tokens (repeat 97 561) = 512.
Proof. repeat split; vm_compute; congruence. Qed.

Lemma C2_truncation_witness :
  exists cutoff,
    cutoff_of (len (repeat 97 561)) 512
      (Samples.char_tokens (repeat 97 561)) = Ok cutoff /\
    len (repeat 97 561) * 512 / Samples.char_tokens (repeat 97 561) - 1
      <= cutoff
      <= len (repeat 97 561) * 512 / Samples.char_tokens (repeat 97 561) /\
    truncate Samples.char_tokens 512 (repeat 97 561)
      = Ok (firstn (Z.to_nat cutoff) (repeat 97 561)) /\
    len (firstn (Z.to_nat cutoff) (repeat 97 561)) = cutoff.
Proof.
  apply (proj1 (proj2 (C2_truncation Samples.char_tokens 512
                         (repeat 97 561)))).
  - vm_compute. split; discriminate.
  - vm_compute. reflexivity.
  - vm_compute. reflexivity.
Defined.

Lemma C1_chunked_embedding_witness :
  exists r,
    fst (fst (Samples.sample_invoke 512 2 [lit "a"; lit "bc"; lit "def"]))
    = Ok r.
Proof.
  unfold Samples.sample_invoke.
  pose proof (C1_chunked_embedding Z unit unit unit Samples.char_tokens
                (fun _ _ => 512) (fun _ _ => 2)
                (fun _ _ _ =>
                   {| pi_unit_price := tt; pi_unit := tt;
                      pi_total_amount := tt; pi_currency := lit "USD" |})
                (fun _ => tt) Samples.echo_server (lit "tei")
                Samples.sample_credentials [lit "a"; lit "bc"; lit "def"] tt)
    as H.
  cbv zeta in H. specialize (H ltac:(lia)).
  destruct H as [_ [_ [H _]]].
  specialize (H {| inputs := [lit "a"; lit "bc"; lit "def"];
                   indices := [0; 1; 2]; used_tokens := 6 |} eq_refl).
  destruct H as [_ [_ [_ [_ [_ [_ Htotal]]]]]].
  apply Htotal. intros call w0. do 2 eexists. reflexivity.
Defined.

(** In this run the texts sent hold 5 characters, hence 5 tokens, and
    the usage reports the 8 tokens of the texts as given. *)
Lemma usage_exceeds_tokens_sent :
  let run := Samples.sample_invoke 2 2 [lit "a"; lit "bc"; lit "defgh"] in
  map sent (snd run) = [[lit "a"; lit "bc"]; [lit "de"]] /\
  exists r, fst (fst run) = Ok r /\ tokens (usage r) = 8.
Proof. split; [vm_compute; reflexivity|]. eexists. split; reflexivity. Qed.

Lemma C9_usage_counts_estimates_witness :
  match Samples.sample_invoke 2 2 [lit "a"; lit "bc"; lit "defgh"] with
  | (Ok r, _, _) => tokens (usage r) = 8 /\ total_tokens (usage r) = 8
  | (Raise _, _, _) => False
  end.
Proof.
  unfold Samples.sample_invoke.
  destruct (_invoke _ _ _ _ _ _ _ _ _ _ _ _ _ _) as [[[r|e] w'] log] eqn:E.
  - exact (proj1 (C9_usage_counts_estimates Z unit unit unit
                    Samples.char_tokens (fun _ _ => 2) (fun _ _ => 2)
                    (fun _ _ _ =>
                       {| pi_unit_price := tt; pi_unit := tt;
                          pi_total_amount := tt; pi_currency := lit "USD" |})
                    (fun _ => tt) Samples.echo_server (lit "tei")
                    Samples.sample_credentials
                    [lit "a"; lit "bc"; lit "defgh"] tt) r w' log E).
  - vm_compute in E. discriminate E.
Defined.

(** * Further properties of the chat client *)

Lemma split_prompt_raises (prompt_messages : list MinimaxMessage) :
  (exists e, split_prompt prompt_messages = Raise e) <->
  (prompt_messages = [] \/
   exists m, prompt_messages = [m] /\ role m = SYSTEM).
Proof.
  unfold split_prompt. destruct prompt_messages as [|first others].
  - split; [intros _; left; reflexivity | intros _; eexists; reflexivity].
  - destruct (role first) eqn:Hrole; cbn [role_eqb].
    + destruct others as [|o others].
      * split; [|intros _; eexists; reflexivity].
        intros _. right. exists first. split; [reflexivity | assumption].
      * split; [intros [e He]; discriminate He|].
        intros [H | [m [H Hm]]]; discriminate H.
    + split; [intros [e He]; discriminate He|].
      intros [H | [m [H Hm]]]; [discriminate H|].
      injection H as <-. congruence.
    + split; [intros [e He]; discriminate He|].
      intros [H | [m [H Hm]]]; [discriminate H|].
      injection H as <-. congruence.
Qed.

Lemma rstrip_slash_repeat (s : pystr) (n : nat) :
  rstrip_slash (s ++ repeat 47 n) = rstrip_slash s.
Proof.
  unfold rstrip_slash. rewrite rev_app_distr. f_equal.
  rewrite rev_repeat.
  induction n as [|n IH]; [reflexivity|]. cbn. exact IH.
Qed.

Lemma lstrip_slash_head (s : pystr) :
  match lstrip_slash s with
  | c :: _ => c <> 47
  | [] => True
  end.
Proof.
  induction s as [|c s IH]; cbn; [exact I|].
  destruct (Z.eqb_spec c 47); [exact IH | assumption].
Qed.

Lemma rstrip_slash_last (s : pystr) : last (rstrip_slash s) 0 <> 47.
Proof.
  unfold rstrip_slash. pose proof (lstrip_slash_head (rev s)) as H.
  destruct (lstrip_slash (rev s)) as [|c r]; [cbn; lia|].
  cbn [rev]. rewrite last_last. exact H.
Qed.

Section GenerateFacts.

Variable World : Type.
Variable post : Request -> World -> res Response * World.
Variable dumps : pyval -> pystr.
Variable to_completion_dict : MinimaxMessage -> pyval.

Let generate := generate World post dumps to_completion_dict.
Let build_request := build_request dumps to_completion_dict.

(** What [generate] does once the request is built. *)
Lemma generate_issued model api_key group_id endpoint_url prompt_messages
    model_parameters tools stop stream user w request :
  snd (generate model api_key group_id endpoint_url prompt_messages
         model_parameters tools stop stream user w) = [request] ->
  generate model api_key group_id endpoint_url prompt_messages
    model_parameters tools stop stream user w =
  match post request w with
  | (Raise e, w') => (Raise (InternalServerError (ArgExn e)), w', [request])
  | (Ok response, w') =>
      if negb (status_code response =? 200) then
        (Raise (InternalServerError (ArgVal (PStr (text response)))),
         w', [request])
      else if stream then
        (Ok (Stream (_handle_stream_chat_generate_response response)),
         w', [request])
      else
        match _handle_chat_generate_response response with
        | Ok m => (Ok (Message m), w', [request])
        | Raise e => (Raise e, w', [request])
        end
  end.
Proof.
  unfold generate at 1. rewrite generate_requests.
  unfold generate, Minimax.generate.
  destruct api_key as [|a api_key]; [discriminate|].
  destruct group_id as [|g group_id]; [discriminate|].
  destruct (split_prompt prompt_messages) as [[prompt rest]|e];
    [|discriminate].
  intros [= <-]. reflexivity.
Qed.

(** X1: [generate] issues no HTTP request exactly when the API key or
    the group id is empty, the message list is empty, or the list is a
    single system message; in every other case it issues exactly one
    request, and the world it leaves is the one that request left. *)
Theorem X1_generate_request_count model api_key group_id endpoint_url
    prompt_messages model_parameters tools stop stream user w :
  let run := generate model api_key group_id endpoint_url prompt_messages
               model_parameters tools stop stream user w in
  (snd run = [] <->
   (api_key = [] \/ group_id = [] \/ prompt_messages = [] \/
    exists m, prompt_messages = [m] /\ role m = SYSTEM)) /\
  (snd run <> [] ->
   exists request,
     snd run = [request] /\ snd (fst run) = snd (post request w)).
Proof.
  cbv zeta. unfold generate. split.
  - rewrite generate_requests.
    pose proof (split_prompt_raises prompt_messages) as Hsp.
    destruct api_key as [|a api_key]; [tauto|].
    destruct group_id as [|g group_id]; [tauto|].
    destruct (split_prompt prompt_messages) as [[prompt rest]|e].
    + split; [discriminate|].
      intros [H | [H | H]]; try discriminate H.
      apply Hsp in H. destruct H as [e He]. discriminate He.
    + split; [|reflexivity]. intros _. right. right. apply Hsp.
      eexists; reflexivity.
  - intros Hne.
    destruct (snd (Minimax.generate World post dumps to_completion_dict
                     model api_key group_id endpoint_url
                     prompt_messages model_parameters tools stop stream
                     user w)) as [|request l] eqn:Hlog; [contradiction|].
    assert (l = []) as ->.
    { rewrite generate_requests in Hlog.
      destruct api_key; [discriminate|]. destruct group_id; [discriminate|].
      destruct (split_prompt prompt_messages) as [[? ?]|]; [|discriminate].
      injection Hlog as _ <-. reflexivity. }
    exists request. split; [reflexivity|].
    pose proof (generate_issued _ _ _ _ _ _ _ _ _ _ _ _ Hlog) as Hrun.
    unfold generate in Hrun. rewrite Hrun.
    destruct (post request w) as [[response|e] w']; [|reflexivity].
    destruct (negb (status_code response =? 200)); [reflexivity|].
    destruct stream; [reflexivity|].
    destruct (_handle_chat_generate_response response); reflexivity.
Qed.

(** X2: when the request [generate] issued raises an exception, whatever
    it is, [generate] raises the internal-server error holding that
    exception; when the response has a status other than 200,
    [generate] raises the internal-server error holding the response
    text, and the body is not decoded. *)
Theorem X2_generate_transport_errors model api_key group_id endpoint_url
    prompt_messages model_parameters tools stop stream user w request :
  let run := generate model api_key group_id endpoint_url prompt_messages
               model_parameters tools stop stream user w in
  snd run = [request] ->
  (forall e w', post request w = (Raise e, w') ->
     run = (Raise (InternalServerError (ArgExn e)), w', [request])) /\
  (forall response w', post request w = (Ok response, w') ->
     status_code response <> 200 ->
     run = (Raise (InternalServerError (ArgVal (PStr (text response)))),
            w', [request])).
Proof.
  cbv zeta. intros Hlog.
  rewrite (generate_issued _ _ _ _ _ _ _ _ _ _ _ _ Hlog).
  clear Hlog. split.
  - intros e w' ->. reflexivity.
  - intros response w' -> Hst.
    destruct (Z.eqb_spec (status_code response) 200); [contradiction|].
    reflexivity.
Qed.

(** X3: trailing slashes of the endpoint do not matter: [generate]
    behaves the same however many are appended, and the URL it requests
    is the endpoint without its trailing slashes, followed by the path
    and the group id. *)
Theorem X3_endpoint_trailing_slashes model api_key group_id endpoint_url
    prompt_messages model_parameters tools stop stream user w (n : nat) :
  generate model api_key group_id (endpoint_url ++ repeat 47 n)
    prompt_messages model_parameters tools stop stream user w =
  generate model api_key group_id endpoint_url
    prompt_messages model_parameters tools stop stream user w /\
  forall request,
    In request
      (snd (generate model api_key group_id endpoint_url prompt_messages
              model_parameters tools stop stream user w)) ->
    exists base,
      req_url request =
        base ++ lit "/v1/text/chatcompletion?GroupId=" ++ group_id /\
      last base 0 <> 47 /\
      exists k, endpoint_url = base ++ repeat 47 k.
Proof.
  split.
  - unfold generate, Minimax.generate, Minimax.build_request.
    rewrite rstrip_slash_repeat. reflexivity.
  - intros request. unfold generate. rewrite generate_requests.
    destruct api_key as [|a api_key]; [intros []|].
    destruct group_id as [|g group_id]; [intros []|].
    destruct (split_prompt prompt_messages) as [[prompt rest]|e];
      [|intros []].
    intros [<- | []]. exists (rstrip_slash endpoint_url).
    split; [reflexivity|]. split; [apply rstrip_slash_last|].
    unfold rstrip_slash.
    assert (H : forall s, exists k, s = repeat 47 k ++ lstrip_slash s).
    { induction s as [|c s [k IH]]; [exists 0%nat; reflexivity|].
      cbn. destruct (Z.eqb_spec c 47) as [->|].
      - exists (S k). cbn. f_equal. exact IH.
      - exists 0%nat. reflexivity. }
    destruct (H (rev endpoint_url)) as [k Hk]. exists k.
    rewrite <- (rev_involutive endpoint_url) at 1. rewrite Hk.
    rewrite rev_app_distr, rev_repeat. reflexivity.
Qed.

(** X4: when the first message is not a system message, [generate]
    issues one request whose body has the default prompt and, as
    messages, all the messages given, encoded in order; a system message
    that is not the first is sent like any other. *)
Theorem X4_no_leading_system_message model api_key group_id endpoint_url
    first others model_parameters tools stop stream user w :
  role first <> SYSTEM -> api_key <> [] -> group_id <> [] ->
  let body :=
    body_of model (map to_completion_dict (first :: others))
      (PStr default_prompt) stream (extra_kwargs_of model_parameters) in
  (exists request,
     snd (generate model api_key group_id endpoint_url (first :: others)
            model_parameters tools stop stream user w) = [request] /\
     req_data request = dumps (PDict body)) /\
  dict_get (lit "prompt") body = Some (PStr default_prompt) /\
  dict_get (lit "messages") body =
    Some (PList (map to_completion_dict (first :: others))).
Proof.
  intros Hrole Ha Hg body.
  destruct (body_parameters World post dumps to_completion_dict model
              (map to_completion_dict (first :: others))
              (PStr default_prompt) stream model_parameters)
    as (_ & _ & _ & Hprompt & Hmessages & _).
  split; [|split; assumption].
  unfold generate. rewrite generate_requests.
  destruct api_key; [contradiction|]. destruct group_id; [contradiction|].
  unfold split_prompt.
  destruct (role first); [contradiction| |]; cbn;
    eexists; split; reflexivity.
Qed.

End GenerateFacts.

(** ** Error statuses *)

(** The error mapper on any value: a [list] or [dict] cannot be looked
    up in a set; every other code gives one of the five errors. *)
Lemma handle_error_any (code msg : pyval) :
  match code with
  | PList _ | PDict _ => _handle_error code msg = Raise TypeError
  | _ => exists e, In e (Views.mapped_errors msg) /\
                   _handle_error code msg = Raise e
  end.
Proof.
  unfold _handle_error, py_in_int_set, Views.mapped_errors.
  destruct code; try reflexivity; cbn [existsb bind];
    repeat match goal with
    | |- context [py_eq_int ?c ?k] =>
        destruct (py_eq_int c k); cbn [orb bind]
    end;
    eexists; (split; [|reflexivity]); cbn; tauto.
Qed.

Lemma handle_error_never_returns (code msg : pyval) :
  exists e, _handle_error code msg = Raise e.
Proof.
  pose proof (handle_error_any code msg) as H.
  destruct code; try (eexists; exact H);
    destruct H as [e [_ H]]; exists e; exact H.
Qed.

(** A record passes the status test exactly when it has no [base_resp]
    or a [status_code] equal to zero. *)
Lemma check_base_resp_dict (d : pydict) :
  check_base_resp (PDict d) = Ok tt <->
  (dict_get (lit "base_resp") d = None \/
   exists base code,
     dict_get (lit "base_resp") d = Some base /\
     py_getitem base (lit "status_code") = Ok code /\
     py_eq_int code 0 = true).
Proof.
  unfold check_base_resp, py_contains. cbn [bind py_getitem].
  destruct (dict_get (lit "base_resp") d) as [base|]; cbn [bind].
  - destruct (py_getitem base (lit "status_code")) as [code|e] eqn:Hcode;
      cbn [bind].
    + destruct (py_eq_int code 0) eqn:Hz; cbn [negb].
      * split; [|reflexivity]. intros _. right. exists base, code. auto.
      * destruct (py_getitem base (lit "status_msg")) as [msg|e]; cbn [bind].
        -- destruct (handle_error_never_returns code msg) as [e ->].
           split; [discriminate|].
           intros [H | [b [c [Hb [Hc H]]]]]; congruence.
        -- split; [discriminate|].
           intros [H | [b [c [Hb [Hc H]]]]]; congruence.
    + split; [discriminate|].
      intros [H | [b [c [Hb [Hc H]]]]]; congruence.
  - split; [|reflexivity]. intros _. left. reflexivity.
Qed.

(** X5: the error mapper never returns, whatever the code and the
    message are: a code that is a list or a dictionary raises
    [TypeError], and every other code, numeric or not, raises one of the
    five mapped errors with the message as its argument. *)
Theorem X5_error_mapper_on_any_value (code msg : pyval) :
  (exists e, _handle_error code msg = Raise e) /\
  ((exists l, code = PList l) \/ (exists d, code = PDict d) ->
   _handle_error code msg = Raise TypeError) /\
  ((forall l, code <> PList l) -> (forall d, code <> PDict d) ->
   exists e, In e (Views.mapped_errors msg) /\
             _handle_error code msg = Raise e).
Proof.
  split; [apply handle_error_never_returns|].
  pose proof (handle_error_any code msg) as H.
  split.
  - intros [[l ->] | [d ->]]; exact H.
  - intros Hl Hd. destruct code; try exact H.
    + elim (Hl l); reflexivity.
    + elim (Hd d); reflexivity.
Qed.

(** The non-streaming handler on a decoded body. *)
Lemma handle_chat_response_body (response : Response) (data : pyval) :
  json response = Ok data ->
  _handle_chat_generate_response response =
  (_ <- check_base_resp data ;;
   reply <- py_getitem data (lit "reply") ;;
   usage_field <- py_getitem data (lit "usage") ;;
   total <- py_getitem usage_field (lit "total_tokens") ;;
   reason <- finish_reason_of data ;;
   Ok {| role := ASSISTANT; content := reply;
         Minimax.usage := Some (usage_of total);
         stop_reason := Some reason |}).
Proof.
  intros Hjson. unfold _handle_chat_generate_response.
  rewrite Hjson. cbn [bind].
  destruct (check_base_resp data) as [[]|e]; cbn [bind]; [|reflexivity].
  destruct (py_getitem data (lit "reply")) as [reply|e]; cbn [bind];
    [|reflexivity].
  destruct (py_getitem data (lit "usage")) as [u|e]; cbn [bind];
    [|reflexivity].
  destruct (py_getitem u (lit "total_tokens")) as [t|e]; cbn [bind];
    reflexivity.
Qed.

Section StatusFacts.

Variable loads : pystr -> res pyval.

(** X6: a record whose [base_resp] holds a [status_code] different from
    zero never produces a message: the non-streaming handler and the
    stream decoder both raise, and they raise the same exception; the
    generator is then finished and the lines after the record stay
    unread. *)
Theorem X6_error_status_on_both_paths (d : pydict) (base code : pyval) :
  dict_get (lit "base_resp") d = Some base ->
  py_getitem base (lit "status_code") = Ok code ->
  py_eq_int code 0 = false ->
  exists e,
    (forall response, json response = Ok (PDict d) ->
       _handle_chat_generate_response response = Raise e) /\
    (forall (line : pybytes) (rest : list pybytes), line <> [] ->
       decode_record loads line = Ok (PDict d) ->
       next loads {| status := Running []; source := line :: rest |} =
         (Raised e, {| status := Finished; source := rest |})).
Proof.
  intros Hbase Hcode Hnz.
  assert (Hcheck : exists e, check_base_resp (PDict d) = Raise e).
  { destruct (check_base_resp (PDict d)) as [[]|e] eqn:H;
      [|eexists; reflexivity].
    apply check_base_resp_dict in H.
    destruct H as [H | [b [c [Hb [Hc Hz]]]]]; congruence. }
  destruct Hcheck as [e He]. exists e. split.
  - intros response Hjson.
    rewrite (handle_chat_response_body response _ Hjson), He. reflexivity.
  - intros line rest Hne Hdec. unfold next; cbn [status source].
    rewrite (read_lines_record loads line rest (PDict d) Hne Hdec).
    unfold handle_record. rewrite He. reflexivity.
Qed.

End StatusFacts.

Section ReplyFacts.

Variable World : Type.
Variable post : Request -> World -> res Response * World.
Variable dumps : pyval -> pystr.
Variable to_completion_dict : MinimaxMessage -> pyval.

Let generate := generate World post dumps to_completion_dict.

(** X7: without streaming, a response with status 200 whose body has no
    error status, a [reply], a [usage.total_tokens] and a first choice
    with a [finish_reason] makes [generate] return one assistant message
    whose content is the reply, whose usage counts zero prompt tokens
    and the total for both other fields, and whose stop reason is that
    of the first choice. *)
Theorem X7_non_stream_reply model api_key group_id endpoint_url
    prompt_messages model_parameters tools stop user w request response w'
    (d : pydict) (reply usage_field total reason : pyval) :
  let run := generate model api_key group_id endpoint_url prompt_messages
               model_parameters tools stop false user w in
  snd run = [request] ->
  post request w = (Ok response, w') ->
  status_code response = 200 ->
  json response = Ok (PDict d) ->
  check_base_resp (PDict d) = Ok tt ->
  dict_get (lit "reply") d = Some reply ->
  dict_get (lit "usage") d = Some usage_field ->
  py_getitem usage_field (lit "total_tokens") = Ok total ->
  finish_reason_of (PDict d) = Ok reason ->
  run =
    (Ok (Message {| role := ASSISTANT; content := reply;
                    Minimax.usage :=
                      Some {| prompt_tokens := PInt 0;
                              completion_tokens := total;
                              Minimax.total_tokens := total |};
                    stop_reason := Some reason |}),
     w', [request]).
Proof.
  cbv zeta. unfold generate.
  intros Hlog Hpost Hst Hjson Hcheck Hreply Husage Htotal Hreason.
  rewrite (generate_issued _ _ _ _ _ _ _ _ _ _ _ _ _ _ _ _ Hlog).
  rewrite Hpost, Hst. cbn [Z.eqb Pos.eqb negb].
  rewrite (handle_chat_response_body response _ Hjson), Hcheck.
  cbn [bind py_getitem]. rewrite Hreply, Husage. cbn [bind].
  rewrite Htotal. cbn [bind]. rewrite Hreason. reflexivity.
Qed.

End ReplyFacts.

(** * Further properties of the stream decoder *)

Section DecoderFacts.

Variable loads : pystr -> res pyval.

Let keep (line : pybytes) : bool := negb (Views.blank line).

Lemma read_lines_drop_blank (src : list pybytes) :
  read_lines loads (filter keep src) =
  (fst (read_lines loads src), Views.drop_blank (snd (read_lines loads src))).
Proof.
  induction src as [|line rest IH]; [reflexivity|].
  destruct line as [|b line]; [exact IH|].
  cbn [filter keep Views.blank negb read_lines].
  destruct (handle_line loads (b :: line)) as [|e|message|[|choice choices]];
    try exact IH; try reflexivity.
  unfold emit_choice.
  destruct (py_getitem choice (lit "delta")); reflexivity.
Qed.

Lemma next_drop_blank (g : StreamGen) :
  next loads (Views.drop_blank g) =
  (fst (next loads g), Views.drop_blank (snd (next loads g))).
Proof.
  destruct g as [[[|choice choices]|] src]; unfold next;
    cbn [status source Views.drop_blank].
  - apply read_lines_drop_blank.
  - unfold emit_choice.
    destruct (py_getitem choice (lit "delta")); reflexivity.
  - reflexivity.
Qed.

(** X8: empty lines of the response change nothing: pulling from the
    response with its empty lines removed yields the same messages and
    ends in the same way, and leaves the same lines unread apart from
    the empty ones. *)
Theorem X8_empty_lines_are_skipped (n : nat) (g : StreamGen) :
  pull loads n (Views.drop_blank g) =
  let '(ms, fin, g') := pull loads n g in (ms, fin, Views.drop_blank g').
Proof.
  revert g. induction n as [|n IH]; intros g; [reflexivity|].
  cbn [pull]. rewrite next_drop_blank.
  destruct (next loads g) as [[m| |e] g1]; cbn [fst snd]; try reflexivity.
  rewrite IH. destruct (pull loads n g1) as [[ms fin] g2]. reflexivity.
Qed.

Lemma read_lines_suffix (src : list pybytes) :
  exists consumed,
    src = consumed ++ source (snd (read_lines loads src)).
Proof.
  induction src as [|line rest [consumed IH]]; [exists []; reflexivity|].
  cbn [read_lines].
  destruct (handle_line loads line) as [|e|message|[|choice choices]];
    try (exists (line :: consumed); cbn [app]; f_equal; exact IH);
    try (exists [line]; reflexivity).
  exists [line]. unfold emit_choice.
  destruct (py_getitem choice (lit "delta")); reflexivity.
Qed.

Lemma emit_choice_finished choice choices src :
  (forall m, fst (emit_choice choice choices src) <> Yield m) ->
  status (snd (emit_choice choice choices src)) = Finished.
Proof.
  unfold emit_choice.
  destruct (py_getitem choice (lit "delta")) as [v|e]; cbn [fst snd status];
    [|reflexivity].
  intros H. elim (H (new_message v ASSISTANT)). reflexivity.
Qed.

Lemma read_lines_finished (src : list pybytes) :
  (forall m, fst (read_lines loads src) <> Yield m) ->
  status (snd (read_lines loads src)) = Finished.
Proof.
  induction src as [|line rest IH]; [reflexivity|].
  cbn [read_lines].
  destruct (handle_line loads line) as [|e|message|[|choice choices]];
    try exact IH; try reflexivity.
  apply emit_choice_finished.
Qed.

(** X9: the decoder reads the response once and forward: after a pull
    the lines left unread are a suffix of those left before it; a pull
    that does not yield a message, because the lines are exhausted or an
    exception is raised, leaves the generator finished; and a finished
    generator answers every pull with the end of the iteration, without
    reading a line. *)
Theorem X9_single_forward_pass (g : StreamGen) :
  let ev := fst (next loads g) in
  let g' := snd (next loads g) in
  (exists consumed, source g = consumed ++ source g') /\
  ((forall m, ev <> Yield m) -> status g' = Finished) /\
  (status g = Finished -> ev = StopIteration /\ g' = g).
Proof.
  destruct g as [[[|choice choices]|] src]; unfold next;
    cbn [status source]; cbv zeta.
  - split; [apply read_lines_suffix|].
    split; [apply read_lines_finished | discriminate].
  - split; [|split; [apply emit_choice_finished | discriminate]].
    exists []. unfold emit_choice.
    destruct (py_getitem choice (lit "delta")); reflexivity.
  - split; [exists []; reflexivity|]. split; [reflexivity|].
    intros _. split; reflexivity.
Qed.

(** The two shapes of a yielded message. *)
Let partial_shape (m : MinimaxMessage) : Prop :=
  Minimax.usage m = None /\ stop_reason m = None.

Let terminal_shape (m : MinimaxMessage) : Prop :=
  exists total reason,
    m = {| role := ASSISTANT; content := PStr [];
           Minimax.usage := Some (usage_of total);
           stop_reason := Some reason |}.

Lemma handle_line_terminal (line : pybytes) (message : MinimaxMessage) :
  handle_line loads line = LTerminal message -> terminal_shape message.
Proof.
  unfold handle_line. destruct line as [|b line]; [discriminate|].
  destruct (decode_record loads (b :: line)) as [data|e]; cbn [bind];
    [|discriminate].
  unfold handle_record.
  destruct (check_base_resp data) as [[]|e]; cbn [bind]; [|discriminate].
  destruct (py_getitem data (lit "reply")) as [reply|e]; cbn [bind];
    [|discriminate].
  destruct (py_truthy reply).
  - destruct (py_getitem data (lit "usage")) as [u|e]; cbn [bind];
      [|discriminate].
    destruct (py_getitem u (lit "total_tokens")) as [t|e]; cbn [bind];
      [|discriminate].
    destruct (finish_reason_of data) as [r|e]; cbn [bind]; [|discriminate].
    intros [= <-]. exists t, r. reflexivity.
  - destruct (py_get data (lit "choices") (PList [])) as [choices|e];
      cbn [bind]; [|discriminate].
    destruct (py_len choices) as [k|e]; cbn [bind]; [|discriminate].
    destruct (k =? 0); [discriminate|].
    destruct (py_iter choices); cbn [bind]; discriminate.
Qed.

Lemma emit_choice_yield choice choices src m g' :
  emit_choice choice choices src = (Yield m, g') ->
  role m = ASSISTANT /\ partial_shape m.
Proof.
  unfold emit_choice.
  destruct (py_getitem choice (lit "delta")); [|discriminate].
  intros [= <- <-]. repeat split.
Qed.

Lemma read_lines_yield (src : list pybytes) m g' :
  read_lines loads src = (Yield m, g') ->
  role m = ASSISTANT /\
  (partial_shape m \/ (terminal_shape m /\ status g' = Finished)).
Proof.
  induction src as [|line rest IH]; [discriminate|].
  cbn [read_lines].
  destruct (handle_line loads line) as [|e|message|[|choice choices]] eqn:Hl;
    try exact IH; try discriminate.
  - intros [= <- <-]. apply handle_line_terminal in Hl.
    split; [|right; split; [exact Hl | reflexivity]].
    destruct Hl as [t [r ->]]. reflexivity.
  - intros H. apply emit_choice_yield in H. tauto.
Qed.

Lemma next_yield (g : StreamGen) m g' :
  next loads g = (Yield m, g') ->
  role m = ASSISTANT /\
  (partial_shape m \/ (terminal_shape m /\ status g' = Finished)).
Proof.
  destruct g as [[[|choice choices]|] src]; unfold next;
    cbn [status source].
  - apply read_lines_yield.
  - intros H. apply emit_choice_yield in H. tauto.
  - discriminate.
Qed.

(** X10: whatever the response holds, every message the decoder yields
    is an assistant message; a message without usage has no stop reason
    either; and a message with a usage is the last one yielded: it has
    the empty string as content and a stop reason, and the generator is
    finished after it. *)
Theorem X10_yielded_messages (n : nat) (g : StreamGen) :
  let '(ms, fin, g') := pull loads n g in
  Forall (fun m => role m = ASSISTANT) ms /\
  (forall m, In m ms -> Minimax.usage m = None -> stop_reason m = None) /\
  (forall pre m post, ms = pre ++ m :: post -> Minimax.usage m <> None ->
     post = [] /\ content m = PStr [] /\ stop_reason m <> None /\
     status g' = Finished).
Proof.
  revert g. induction n as [|n IH]; intros g; cbn [pull].
  { split; [constructor|]. split; [intros m []|].
    intros [|x pre] m post H; discriminate H. }
  destruct (next loads g) as [[m| |e] g1] eqn:Hnext.
  - specialize (IH g1).
    apply next_yield in Hnext. destruct Hnext as [Hrole Hshape].
    destruct Hshape as [[Hu Hs] | [[t [r ->]] Hfin]].
    + destruct (pull loads n g1) as [[ms fin] g2].
      destruct IH as [IH1 [IH2 IH3]].
      split; [constructor; assumption|]. split.
      * intros m' [<- | Hin] Hu'; [exact Hs | apply IH2; assumption].
      * intros [|x pre] m' post Heq Hu'.
        -- injection Heq as <- <-. contradiction.
        -- injection Heq as <- Heq. apply (IH3 pre m' post); assumption.
    + destruct g1 as [st src]. cbn [status] in Hfin. subst st.
      rewrite pull_finished.
      split; [constructor; [reflexivity | constructor]|]. split.
      * intros m' [<- | []]. discriminate.
      * intros [|x pre] m' post Heq Hu'.
        -- injection Heq as <- <-. cbn.
           repeat split; discriminate || reflexivity.
        -- injection Heq as _ Heq. destruct pre; discriminate Heq.
  - split; [constructor|]. split; [intros m []|].
    intros [|x pre] m post H; discriminate H.
  - split; [constructor|]. split; [intros m []|].
    intros [|x pre] m post H; discriminate H.
Qed.

(** A record with an empty reply and a non-empty list of choices. *)
Lemma read_lines_choices (line : pybytes) (rest : list pybytes) (d : pydict)
    (reply choice : pyval) (choices : list pyval) :
  line <> [] ->
  decode_record loads line = Ok (PDict d) ->
  check_base_resp (PDict d) = Ok tt ->
  dict_get (lit "reply") d = Some reply ->
  py_truthy reply = false ->
  dict_get (lit "choices") d = Some (PList (choice :: choices)) ->
  next loads {| status := Running []; source := line :: rest |} =
  next loads {| status := Running (choice :: choices); source := rest |}.
Proof.
  intros Hne Hdec Hcheck Hreply Hfalsy Hchoices.
  unfold next; cbn [status source].
  rewrite (read_lines_record loads line rest (PDict d) Hne Hdec).
  unfold handle_record. rewrite Hcheck. cbn [bind py_getitem py_get].
  rewrite Hreply. cbn [bind]. rewrite Hfalsy, Hchoices.
  cbn [bind py_len py_iter].
  replace (len (choice :: choices) =? 0) with false; [reflexivity|].
  symmetry. apply Z.eqb_neq. unfold len. cbn [List.length]. lia.
Qed.

(** Pulling while the pending choices have a [delta]. *)
Lemma pull_pending (good : list pyval) (deltas : list pyval) :
  Forall2 (fun choice delta => py_getitem choice (lit "delta") = Ok delta)
    good deltas ->
  forall (tail : list pyval) (src : list pybytes) (k : nat),
  pull loads (List.length good + k)
    {| status := Running (good ++ tail); source := src |} =
  let '(ms, fin, g') :=
    pull loads k {| status := Running tail; source := src |} in
  (map Views.partial deltas ++ ms, fin, g').
Proof.
  induction 1 as [|choice delta good deltas Hd _ IH]; intros tail src k.
  - cbn. destruct (pull loads k _) as [[ms fin] g']. reflexivity.
  - cbn [List.length Nat.add app pull]. unfold next at 1.
    cbn [status source]. unfold emit_choice. rewrite Hd. rewrite IH.
    destruct (pull loads k _) as [[ms fin] g']. reflexivity.
Qed.

(** X11: a record with an empty reply and a list of choices that all
    have a [delta] yields one partial assistant message per choice, in
    the order of the list and with the delta as content; after the last
    one the generator goes on with the next line. *)
Theorem X11_one_message_per_choice (line : pybytes) (rest : list pybytes)
    (d : pydict) (reply : pyval) (choices deltas : list pyval) :
  line <> [] ->
  decode_record loads line = Ok (PDict d) ->
  check_base_resp (PDict d) = Ok tt ->
  dict_get (lit "reply") d = Some reply ->
  py_truthy reply = false ->
  dict_get (lit "choices") d = Some (PList choices) ->
  choices <> [] ->
  Forall2 (fun choice delta => py_getitem choice (lit "delta") = Ok delta)
    choices deltas ->
  pull loads (List.length choices)
    {| status := Running []; source := line :: rest |} =
  (map (fun delta => new_message delta ASSISTANT) deltas, None,
   {| status := Running []; source := rest |}).
Proof.
  intros Hne Hdec Hcheck Hreply Hfalsy Hchoices Hsome Hall.
  destruct choices as [|choice choices]; [contradiction|].
  assert (Hfirst :
    pull loads (S (List.length choices))
      {| status := Running []; source := line :: rest |} =
    pull loads (S (List.length choices))
      {| status := Running (choice :: choices); source := rest |}).
  { cbn [pull].
    rewrite (read_lines_choices line rest d reply choice choices)
      by assumption.
    reflexivity. }
  cbn [List.length]. rewrite Hfirst.
  pose proof (pull_pending (choice :: choices) deltas Hall [] rest 0) as H.
  rewrite app_nil_r, Nat.add_0_r in H. cbn [List.length] in H.
  rewrite H. cbn [pull]. rewrite app_nil_r. reflexivity.
Qed.

(** X12: when a choice of such a record has no [delta], the choices
    before it are yielded as partial messages, and the pull after them
    raises the error of the missing key and finishes the generator: the
    choices after it and the lines after the record are never
    handled. *)
Theorem X12_choice_without_delta (line : pybytes) (rest : list pybytes)
    (d : pydict) (reply bad : pyval) (good deltas more : list pyval)
    (e : exn) :
  line <> [] ->
  decode_record loads line = Ok (PDict d) ->
  check_base_resp (PDict d) = Ok tt ->
  dict_get (lit "reply") d = Some reply ->
  py_truthy reply = false ->
  dict_get (lit "choices") d = Some (PList (good ++ bad :: more)) ->
  Forall2 (fun choice delta => py_getitem choice (lit "delta") = Ok delta)
    good deltas ->
  py_getitem bad (lit "delta") = Raise e ->
  pull loads (S (List.length good))
    {| status := Running []; source := line :: rest |} =
  (map (fun delta => new_message delta ASSISTANT) deltas, Some (Raised e),
   {| status := Finished; source := rest |}).
Proof.
  intros Hne Hdec Hcheck Hreply Hfalsy Hchoices Hall Hbad.
  assert (Hfirst :
    pull loads (S (List.length good))
      {| status := Running []; source := line :: rest |} =
    pull loads (S (List.length good))
      {| status := Running (good ++ bad :: more); source := rest |}).
  { destruct (good ++ bad :: more) as [|choice choices] eqn:Hcs;
      [destruct good; discriminate Hcs|].
    cbn [pull].
    rewrite (read_lines_choices line rest d reply choice choices)
      by assumption.
    reflexivity. }
  rewrite Hfirst.
  pose proof (pull_pending good deltas Hall (bad :: more) rest 1) as H.
  replace (List.length good + 1)%nat with (S (List.length good)) in H by lia.
  rewrite H. cbn [pull]. unfold next. cbn [status source].
  unfold emit_choice. rewrite Hbad. rewrite app_nil_r. reflexivity.
Qed.

(** X13: a record that has an empty reply and no choices, or an empty
    list of choices, produces nothing: the decoder goes on with the next
    line as if the record were not there. *)
Theorem X13_record_without_choices (line : pybytes) (rest : list pybytes)
    (d : pydict) (reply : pyval) (n : nat) :
  line <> [] ->
  decode_record loads line = Ok (PDict d) ->
  check_base_resp (PDict d) = Ok tt ->
  dict_get (lit "reply") d = Some reply ->
  py_truthy reply = false ->
  (dict_get (lit "choices") d = None \/
   dict_get (lit "choices") d = Some (PList [])) ->
  pull loads (S n) {| status := Running []; source := line :: rest |} =
  pull loads (S n) {| status := Running []; source := rest |}.
Proof.
  intros Hne Hdec Hcheck Hreply Hfalsy Hchoices.
  assert (Hnext :
    next loads {| status := Running []; source := line :: rest |} =
    next loads {| status := Running []; source := rest |}).
  { unfold next; cbn [status source].
    rewrite (read_lines_record loads line rest (PDict d) Hne Hdec).
    unfold handle_record. rewrite Hcheck. cbn [bind py_getitem py_get].
    rewrite Hreply. cbn [bind]. rewrite Hfalsy.
    destruct Hchoices as [-> | ->]; reflexivity. }
  cbn [pull]. rewrite Hnext. reflexivity.
Qed.

End DecoderFacts.

(** * Further properties of the embedding model *)

Lemma py_slice_sub {A} (l : list A) (lo hi : Z) (x : A) :
  In x (py_slice l lo hi) -> In x l.
Proof.
  unfold py_slice. intros H.
  set (a := Z.to_nat (clamp_index (len l) lo)) in *.
  set (b := Z.to_nat _) in H.
  rewrite <- (firstn_skipn a l). apply in_or_app. right.
  rewrite <- (firstn_skipn b (skipn a l)). apply in_or_app. left. exact H.
Qed.

Lemma py_slice_from_zero {A} (l : list A) (hi : Z) :
  exists n, py_slice l 0 hi = firstn n l.
Proof.
  unfold py_slice, clamp_index. cbn [Z.ltb Z.compare].
  rewrite (Z.min_r (len l) 0) by (unfold len; lia). cbn [Z.to_nat skipn].
  eexists; reflexivity.
Qed.


Lemma py_range_negative_step (n step : Z) :
  0 <= n -> step < 0 -> py_range 0 n step = Ok [].
Proof.
  intros Hn Hs. unfold py_range.
  destruct (Z.eqb_spec step 0); [lia|].
  destruct (Z.ltb_spec 0 step); [lia|].
  replace (Z.to_nat ((0 - n - step - 1) / - step)) with 0%nat;
    [reflexivity|].
  destruct (Z.lt_ge_cases (0 - n - step - 1) 0) as [Hneg|Hpos].
  - pose proof (Z.div_lt_upper_bound (0 - n - step - 1) (- step) 0) as Hq.
    lia.
  - rewrite Z.div_small by lia. reflexivity.
Qed.

Section InvokeFacts.

Variables Embedding Decimal Latency World : Type.
Variable _get_num_tokens_by_gpt2 : pystr -> Z.
Variable _get_context_size : pystr -> Credentials -> Z.
Variable _get_max_chunks : pystr -> Credentials -> Z.
Variable get_price : pystr -> Credentials -> Z -> PriceInfo Decimal.
Variable elapsed : World -> Latency.
Variable invoke_embeddings :
  TeiCall -> World -> res (TeiResponse Embedding) * World.

Let truncate := truncate _get_num_tokens_by_gpt2.
Let prepare := prepare _get_num_tokens_by_gpt2.
Let prepare_from := prepare_from _get_num_tokens_by_gpt2.
Let estimated_tokens := estimated_tokens _get_num_tokens_by_gpt2.
Let embed_loop := embed_loop Embedding World invoke_embeddings.
Let _invoke :=
  _invoke Embedding Decimal Latency World _get_num_tokens_by_gpt2
    _get_context_size _get_max_chunks get_price elapsed invoke_embeddings.

Let answered_ok := @Views.answered_ok Embedding.

(** A run of [_invoke] in three steps. *)
Lemma invoke_steps mdl credentials texts w :
  let C := _get_context_size mdl credentials in
  let M := _get_max_chunks mdl credentials in
  let mk := fun iter_texts =>
    {| call_server_url := removesuffix_slash (server_url credentials);
       call_texts := iter_texts;
       call_headers := make_headers (api_key credentials);
       call_timeout :=
         int_or (invoke_timeout credentials) DEFAULT_INVOKE_TIMEOUT;
       call_max_retries :=
         int_or (max_retries credentials) DEFAULT_MAX_RETRIES |} in
  _invoke mdl credentials texts w =
  match prepare C texts with
  | Raise e => (Raise e, w, [])
  | Ok p =>
      match py_range 0 (len (inputs p)) M with
      | Raise e => (Raise e, w, [])
      | Ok iter =>
          let '(out, w', log) := embed_loop mk (inputs p) M iter [] w [] in
          (match out with
           | Raise e => Raise e
           | Ok batched_embeddings =>
               Ok {| model := mdl; embeddings := batched_embeddings;
                     usage := _calc_response_usage Decimal Latency World
                                get_price elapsed mdl credentials
                                (used_tokens p) w' |}
           end, w', log)
      end
  end.
Proof.
  cbv zeta. unfold _invoke, Tei._invoke, prepare.
  destruct (Tei.prepare _ _ _) as [p|e]; [|reflexivity].
  destruct (py_range _ _ _) as [iter|e]; [|reflexivity].
  unfold embed_loop.
  destruct (Tei.embed_loop _ _ _ _ _ _ _ _ _ _) as [[[embs|e] w'] log];
    reflexivity.
Qed.

(** How the second loop ends: with every call answered, or at the first
    call that raised. *)
Lemma embed_loop_outcome (mk : list pystr -> TeiCall) (inps : list pystr)
    (M : Z) (iter : list Z) :
  forall acc w log out w' log',
  embed_loop mk inps M iter acc w log = (out, w', log') ->
  exists new,
    log' = log ++ new /\
    Forall (fun entry => exists iter_texts,
              fst entry = mk iter_texts /\
              forall s, In s iter_texts -> In s inps) new /\
    match out with
    | Ok _ => Forall answered_ok new
    | Raise e =>
        exists done call e0,
          new = done ++ [(call, Raise e0)] /\ Forall answered_ok done /\
          e = Views.converted e0
    end.
Proof.
  induction iter as [|i iter IH]; intros acc w log out w' log' H; cbn in H.
  - injection H as <- <- <-. exists []. rewrite app_nil_r.
    repeat split; constructor.
  - destruct (invoke_embeddings (mk (py_slice inps i (i + M))) w)
      as [o w1] eqn:Ecall.
    assert (Hentry : forall o' : res (TeiResponse Embedding),
              exists iter_texts,
                fst (mk (py_slice inps i (i + M)), o') = mk iter_texts /\
                forall s, In s iter_texts -> In s inps).
    { intros o'. exists (py_slice inps i (i + M)).
      split; [reflexivity|]. intros s. apply py_slice_sub. }
    destruct o as [results|e].
    + apply IH in H. destruct H as [new [Hlog [Hcalls Hout]]].
      exists ((mk (py_slice inps i (i + M)), Ok results) :: new).
      split; [rewrite Hlog, <- app_assoc; reflexivity|].
      split; [constructor; [apply Hentry | exact Hcalls]|].
      destruct out as [embs|e].
      * constructor; [eexists; reflexivity | exact Hout].
      * destruct Hout as [done [call [e0 [-> [Hdone ->]]]]].
        exists ((mk (py_slice inps i (i + M)), Ok results) :: done), call, e0.
        repeat split. constructor; [eexists; reflexivity | exact Hdone].
    + exists [(mk (py_slice inps i (i + M)), Raise e)].
      assert (Hshape : out = Raise (Views.converted e) /\ w' = w1 /\
                log' = log ++ [(mk (py_slice inps i (i + M)), Raise e)]).
      { destruct e; injection H as <- <- <-; repeat split. }
      destruct Hshape as [-> [-> ->]].
      split; [reflexivity|].
      split; [constructor; [apply Hentry | constructor]|].
      exists [], (mk (py_slice inps i (i + M))), e.
      repeat split. constructor.
Qed.


Lemma truncate_prefix (C : Z) (text input : pystr) :
  truncate C text = Ok input ->
  Views.is_prefix input text /\
  (_get_num_tokens_by_gpt2 text < C -> input = text).
Proof.
  unfold truncate, Tei.truncate, Views.is_prefix.
  destruct (Z.geb_spec (_get_num_tokens_by_gpt2 text) C) as [Hge|Hlt].
  - destruct (cutoff_of _ _ _) as [cutoff|e]; cbn [bind]; [|discriminate].
    intros [= <-]. split; [apply py_slice_from_zero | lia].
  - intros [= <-]. split; [|reflexivity].
    exists (List.length text). symmetry. apply firstn_all.
Qed.

Lemma Forall2_in_r {A B} (R : A -> B -> Prop) (l : list A) (l' : list B)
    (y : B) :
  Forall2 R l l' -> In y l' -> exists x, In x l /\ R x y.
Proof.
  induction 1 as [|a b l l' Hab _ IH]; intros Hin; [destruct Hin|].
  destruct Hin as [<- | Hin].
  - exists a. split; [left; reflexivity | exact Hab].
  - destruct (IH Hin) as [x [Hx HR]]. exists x. split; [right|]; assumption.
Qed.

(** X14: truncation only drops a tail: every string [_invoke] sends to
    the server, in any call and whether or not the run succeeds, is a
    prefix of one of the texts given, and is that text itself when its
    token estimate is below the context size. *)
Theorem X14_only_prefixes_are_sent mdl credentials texts w :
  let C := _get_context_size mdl credentials in
  forall entry s,
    In entry (snd (_invoke mdl credentials texts w)) ->
    In s (sent entry) ->
    exists text,
      In text texts /\ Views.is_prefix s text /\
      (_get_num_tokens_by_gpt2 text < C -> s = text).
Proof.
  intros C entry s. rewrite invoke_steps. fold C.
  destruct (prepare C texts) as [p|e] eqn:Hp; [|intros []].
  destruct (py_range _ _ _) as [iter|e]; [|intros []].
  destruct (embed_loop _ _ _ _ _ _ _) as [[out w'] log] eqn:Hloop.
  apply embed_loop_outcome in Hloop.
  destruct Hloop as [new [Hlog [Hcalls _]]]. cbn [app] in Hlog. subst new.
  cbn [snd]. intros Hentry Hs.
  rewrite Forall_forall in Hcalls.
  destruct (Hcalls entry Hentry) as [iter_texts [Hcall Hsub]].
  unfold sent in Hs. rewrite Hcall in Hs. cbn [call_texts] in Hs.
  apply Hsub in Hs.
  destruct (prepare_spec _get_num_tokens_by_gpt2 C texts p Hp) as [Hall _].
  destruct (Forall2_in_r _ _ _ _ Hall Hs) as [text [Hin Htr]].
  exists text. split; [exact Hin|]. apply truncate_prefix. exact Htr.
Qed.


(** A chunk size that is not positive. *)
Lemma invoke_chunk_size_not_positive mdl credentials texts w p :
  let C := _get_context_size mdl credentials in
  let M := _get_max_chunks mdl credentials in
  prepare C texts = Ok p ->
  (M = 0 -> _invoke mdl credentials texts w = (Raise ValueError, w, [])) /\
  (M < 0 ->
   exists r,
     _invoke mdl credentials texts w = (Ok r, w, []) /\
     embeddings r = [] /\ tokens (usage r) = estimated_tokens texts).
Proof.
  intros C M Hp. rewrite invoke_steps. fold C M. rewrite Hp. split.
  - intros ->. reflexivity.
  - intros HM. rewrite py_range_negative_step by (unfold len; lia).
    cbn. eexists. split; [reflexivity|]. split; [reflexivity|].
    apply (prepare_spec _get_num_tokens_by_gpt2 C texts p Hp).
Qed.

(** X16: the chunk size is not checked.  With a chunk size of zero a run
    that got past the first loop raises [ValueError] without any call;
    with a negative chunk size it makes no call either and returns a
    result that has no embeddings, whatever the number of texts, while
    its usage counts the tokens of all of them. *)
Theorem X16_chunk_size_not_positive mdl credentials texts w p :
  let C := _get_context_size mdl credentials in
  let M := _get_max_chunks mdl credentials in
  prepare C texts = Ok p ->
  (M = 0 -> _invoke mdl credentials texts w = (Raise ValueError, w, [])) /\
  (M < 0 ->
   exists r,
     _invoke mdl credentials texts w = (Ok r, w, []) /\
     embeddings r = [] /\ tokens (usage r) = estimated_tokens texts).
Proof. apply invoke_chunk_size_not_positive. Qed.

Lemma prepare_from_failure (C : Z) (pre : list pystr) (text : pystr)
    (post : list pystr) (e : exn) :
  Forall (fun t => exists input, truncate C t = Ok input) pre ->
  truncate C text = Raise e ->
  forall i st, prepare_from C i (pre ++ text :: post) st = Raise e.
Proof.
  intros Hpre Htext.
  induction Hpre as [|t pre [input Ht] _ IH]; intros i st; cbn.
  - fold truncate. rewrite Htext. reflexivity.
  - fold truncate. rewrite Ht. cbn [bind]. apply IH.
Qed.

(** X17: a text whose truncation fails makes [_invoke] fail before any
    call is made: when the texts before it pass, [_invoke] raises the
    error of that text and leaves the world as it was.  This is what
    happens with [ZeroDivisionError] for a text of zero tokens when the
    context size is zero or negative. *)
Theorem X17_truncation_error_precedes_calls mdl credentials pre text post
    w (e : exn) :
  let C := _get_context_size mdl credentials in
  Forall (fun t => exists input, truncate C t = Ok input) pre ->
  (truncate C text = Raise e ->
   _invoke mdl credentials (pre ++ text :: post) w = (Raise e, w, [])) /\
  (_get_num_tokens_by_gpt2 text = 0 -> C <= 0 ->
   _invoke mdl credentials (pre ++ text :: post) w =
     (Raise ZeroDivisionError, w, [])).
Proof.
  intros C Hpre.
  assert (Hgen : forall e', truncate C text = Raise e' ->
            _invoke mdl credentials (pre ++ text :: post) w =
              (Raise e', w, [])).
  { intros e' Ht. rewrite invoke_steps. fold C.
    unfold prepare, Tei.prepare. fold prepare_from.
    rewrite (prepare_from_failure C pre text post e' Hpre Ht). reflexivity. }
  split; [apply Hgen|].
  intros Hzero HC. apply Hgen.
  unfold truncate, Tei.truncate. rewrite Hzero.
  destruct (Z.geb_spec 0 C); [|lia]. reflexivity.
Qed.



(** The usage of a run that returned. *)
Lemma invoke_usage_tokens mdl credentials texts w r w' log :
  _invoke mdl credentials texts w = (Ok r, w', log) ->
  tokens (usage r) = estimated_tokens texts /\
  total_tokens (usage r) = estimated_tokens texts.
Proof.
  rewrite invoke_steps.
  destruct (prepare _ texts) as [p|e] eqn:Hp; [|discriminate].
  destruct (py_range _ _ _) as [iter|e]; [|discriminate].
  destruct (embed_loop _ _ _ _ _ _ _) as [[[embs|e] w2] lg];
    [|discriminate].
  intros [= <- _ _]. cbn [usage tokens total_tokens _calc_response_usage].
  destruct (prepare_spec _get_num_tokens_by_gpt2 _ texts p Hp) as [_ Hused].
  split; exact Hused.
Qed.

End InvokeFacts.

(** * Properties of the set-up of the embedding model *)

Lemma estimated_tokens_sum (tok : pystr -> Z) (texts : list pystr) :
  estimated_tokens tok texts = fold_right Z.add 0 (map tok texts).
Proof.
  induction texts as [|text texts IH]; [reflexivity|].
  cbn. unfold estimated_tokens in IH. rewrite IH. reflexivity.
Qed.

Section SetupFacts.

Variables Embedding Decimal Latency World : Type.
Variable _get_num_tokens_by_gpt2 : pystr -> Z.
Variable _get_context_size : pystr -> TeiSetup.CredentialsDict -> Z.
Variable _get_max_chunks : pystr -> TeiSetup.CredentialsDict -> Z.
Variable get_price :
  pystr -> TeiSetup.CredentialsDict -> Z -> PriceInfo Decimal.
Variable elapsed : World -> Latency.
Variable invoke_embeddings :
  TeiCall -> World -> res (TeiResponse Embedding) * World.
Variable get_tei_extra_parameter :
  TeiSetup.ProbeCall -> World -> res TeiSetup.TeiModelExtraParameter * World.
Variable str : exn -> pystr.

Let get_num_tokens := TeiSetup.get_num_tokens _get_num_tokens_by_gpt2.
Let invoke :=
  TeiSetup._invoke Embedding Decimal Latency World _get_num_tokens_by_gpt2
    _get_context_size _get_max_chunks get_price elapsed invoke_embeddings.
Let validate_credentials :=
  TeiSetup.validate_credentials Embedding Decimal Latency World
    _get_num_tokens_by_gpt2 _get_context_size _get_max_chunks get_price
    elapsed invoke_embeddings get_tei_extra_parameter str.

Lemma get_num_tokens_from_spec (texts : list pystr) (tokens : list Z) :
  TeiSetup.get_num_tokens_from _get_num_tokens_by_gpt2 texts tokens =
  tokens ++ map _get_num_tokens_by_gpt2 texts.
Proof.
  revert tokens. induction texts as [|text texts IH]; intros tokens; cbn.
  - rewrite app_nil_r. reflexivity.
  - rewrite IH, <- app_assoc. reflexivity.
Qed.

(** X19: [get_num_tokens] returns one estimate per text, in the order of
    the texts, each being the tokenizer's count for that text; and the
    usage of an [_invoke] that returns on the same texts is the sum of
    these estimates. *)
Theorem X19_get_num_tokens mdl credentials texts :
  get_num_tokens mdl credentials texts =
    map _get_num_tokens_by_gpt2 texts /\
  List.length (get_num_tokens mdl credentials texts) = List.length texts /\
  forall w r w' log,
    invoke mdl credentials texts w = (Ok r, w', log) ->
    tokens (usage r) =
      fold_right Z.add 0 (get_num_tokens mdl credentials texts).
Proof.
  assert (H : get_num_tokens mdl credentials texts =
              map _get_num_tokens_by_gpt2 texts).
  { unfold get_num_tokens, TeiSetup.get_num_tokens.
    rewrite get_num_tokens_from_spec. reflexivity. }
  rewrite H. split; [reflexivity|]. split; [apply length_map|].
  intros w r w' log Hrun. unfold invoke, TeiSetup._invoke in Hrun.
  apply invoke_usage_tokens in Hrun. destruct Hrun as [-> _].
  apply estimated_tokens_sum.
Qed.

(** A run of [validate_credentials], case by case. *)
Lemma validate_cases mdl credentials w :
  let v := validate_credentials mdl credentials w in
  match get_tei_extra_parameter (TeiSetup.probe_of mdl credentials) w with
  | (Raise ex, w1) =>
      v = {| TeiSetup.verdict :=
               TeiSetup.CredentialsValidateFailedError (str ex);
             TeiSetup.credentials_after := credentials;
             TeiSetup.world_after := w1;
             TeiSetup.probes := [TeiSetup.probe_of mdl credentials];
             TeiSetup.printed := []; TeiSetup.calls := [] |}
  | (Ok extra_args, w1) =>
      if pystr_eqb (TeiSetup.model_type extra_args) (lit "embedding") then
        let run :=
          invoke mdl (TeiSetup.with_limits credentials extra_args) [lit "ping"] w1 in
        v = {| TeiSetup.verdict :=
                 match fst (fst run) with
                 | Ok _ => TeiSetup.Valid
                 | Raise ex =>
                     TeiSetup.CredentialsValidateFailedError (str ex)
                 end;
               TeiSetup.credentials_after :=
                 TeiSetup.with_limits credentials extra_args;
               TeiSetup.world_after := snd (fst run);
               TeiSetup.probes := [TeiSetup.probe_of mdl credentials];
               TeiSetup.printed := [extra_args];
               TeiSetup.calls := snd run |}
      else
        v = {| TeiSetup.verdict :=
                 TeiSetup.CredentialsValidateFailedError
                   (lit "Current model is not a embedding model");
               TeiSetup.credentials_after := credentials;
               TeiSetup.world_after := w1;
               TeiSetup.probes := [TeiSetup.probe_of mdl credentials];
               TeiSetup.printed := [extra_args]; TeiSetup.calls := [] |}
  end.
Proof.
  cbv zeta. unfold validate_credentials, TeiSetup.validate_credentials.
  fold (TeiSetup.probe_of mdl credentials).
  destruct (get_tei_extra_parameter (TeiSetup.probe_of mdl credentials) w)
    as [[extra_args|ex] w1]; [|reflexivity].
  destruct (pystr_eqb (TeiSetup.model_type extra_args) (lit "embedding"));
    cbn [negb]; [|reflexivity].
  fold (TeiSetup.with_limits credentials extra_args). unfold invoke.
  destruct (TeiSetup._invoke _ _ _ _ _ _ _ _ _ _ _ _ _ _)
    as [[out w2] log].
  reflexivity.
Qed.

(** X20: [validate_credentials] probes the server once, with the server
    URL as given, and succeeds exactly when the probe reports the model
    type "embedding" and the [_invoke] of the single text "ping", run
    with the limits the server reported, returns.  When the probe raises,
    or that [_invoke] raises, the failure carries the text of that
    exception; when the model type is another one, the failure carries
    the fixed message and no embedding call is made. *)
Theorem X20_validation_outcome mdl credentials w :
  let v := validate_credentials mdl credentials w in
  let probed := get_tei_extra_parameter (TeiSetup.probe_of mdl credentials) w in
  TeiSetup.probes v = [TeiSetup.probe_of mdl credentials] /\
  (TeiSetup.verdict v = TeiSetup.Valid <->
   exists extra_args w1 r,
     probed = (Ok extra_args, w1) /\
     TeiSetup.model_type extra_args = lit "embedding" /\
     fst (fst (invoke mdl (TeiSetup.with_limits credentials extra_args)
                 [lit "ping"] w1)) = Ok r) /\
  (forall ex w1, probed = (Raise ex, w1) ->
     TeiSetup.verdict v = TeiSetup.CredentialsValidateFailedError (str ex) /\
     TeiSetup.calls v = []) /\
  (forall extra_args w1, probed = (Ok extra_args, w1) ->
     TeiSetup.model_type extra_args <> lit "embedding" ->
     TeiSetup.verdict v =
       TeiSetup.CredentialsValidateFailedError
         (lit "Current model is not a embedding model") /\
     TeiSetup.calls v = []) /\
  (forall extra_args w1 ex, probed = (Ok extra_args, w1) ->
     TeiSetup.model_type extra_args = lit "embedding" ->
     fst (fst (invoke mdl (TeiSetup.with_limits credentials extra_args)
                 [lit "ping"] w1)) = Raise ex ->
     TeiSetup.verdict v = TeiSetup.CredentialsValidateFailedError (str ex)).
Proof.
  intros v probed. pose proof (validate_cases mdl credentials w) as H.
  cbv zeta in H. fold v probed in H.
  destruct probed as [[extra_args|ex] w1].
  - destruct (pystr_eqb (TeiSetup.model_type extra_args) (lit "embedding"))
      eqn:Htype.
    + apply pystr_eqb_eq in Htype. rewrite H. cbn [TeiSetup.probes
        TeiSetup.verdict TeiSetup.calls].
      split; [reflexivity|]. split; [|split; [|split]].
      * split.
        -- intros Hv. exists extra_args, w1.
           destruct (fst (fst (invoke _ _ _ _))) as [r|e];
             [|discriminate Hv].
           exists r. repeat split. exact Htype.
        -- intros [x [w' [r [[= <- <-] [_ ->]]]]]. reflexivity.
      * intros ex w' [=].
      * intros x w' [= <- <-] Hne. contradiction.
      * intros x w' ex [= <- <-] _ ->. reflexivity.
    + assert (Hne : TeiSetup.model_type extra_args <> lit "embedding").
      { intros Heq. apply pystr_eqb_eq in Heq. congruence. }
      rewrite H. cbn [TeiSetup.probes TeiSetup.verdict TeiSetup.calls].
      split; [reflexivity|]. split; [|split; [|split]].
      * split; [discriminate|].
        intros [x [w' [r [[= <- <-] [Heq _]]]]]. contradiction.
      * intros ex w' [=].
      * intros x w' _ _. split; reflexivity.
      * intros x w' ex [= <- <-] Heq. contradiction.
  - rewrite H. cbn [TeiSetup.probes TeiSetup.verdict TeiSetup.calls].
    split; [reflexivity|]. split; [|split; [|split]].
    + split; [discriminate|]. intros [x [w' [r [[=] _]]]].
    + intros ex' w' [= <- <-]. split; reflexivity.
    + intros x w' [=].
    + intros x w' ex' [=].
Qed.

(** X21: [validate_credentials] changes the caller's dictionary only
    after the model type has been accepted: when the probe raises or
    reports another type, the dictionary is left as it was; when the
    type is "embedding", the context size and the chunk size the server
    reported are stored in it, also when the ping that follows fails,
    and the keys [_invoke] reads are kept. *)
Theorem X21_validation_updates_credentials mdl credentials w :
  let v := validate_credentials mdl credentials w in
  let probed := get_tei_extra_parameter (TeiSetup.probe_of mdl credentials) w in
  TeiSetup.known (TeiSetup.credentials_after v) =
    TeiSetup.known credentials /\
  ((forall extra_args, fst probed = Ok extra_args ->
      TeiSetup.model_type extra_args <> lit "embedding") ->
   TeiSetup.credentials_after v = credentials) /\
  (forall extra_args, fst probed = Ok extra_args ->
     TeiSetup.model_type extra_args = lit "embedding" ->
     TeiSetup.context_size (TeiSetup.credentials_after v) =
       Some (TeiSetup.max_input_length extra_args) /\
     TeiSetup.max_chunks (TeiSetup.credentials_after v) =
       Some (TeiSetup.max_client_batch_size extra_args)).
Proof.
  intros v probed. pose proof (validate_cases mdl credentials w) as H.
  cbv zeta in H. fold v probed in H.
  destruct probed as [[extra_args|ex] w1]; cbn [fst].
  - destruct (pystr_eqb (TeiSetup.model_type extra_args) (lit "embedding"))
      eqn:Htype; rewrite H; cbn [TeiSetup.credentials_after].
    + apply pystr_eqb_eq in Htype.
      split; [reflexivity|]. split.
      * intros Hno. elim (Hno extra_args eq_refl). exact Htype.
      * intros x [= <-] _. split; reflexivity.
    + split; [reflexivity|]. split; [reflexivity|].
      intros x [= <-] Heq. apply pystr_eqb_eq in Heq. congruence.
  - rewrite H. cbn [TeiSetup.credentials_after].
    split; [reflexivity|]. split; [reflexivity|]. intros x [=].
Qed.

(** X22: with a framework that reads the two limits from the
    dictionary, and a server that reports the type "embedding" and a
    context size of at least 1: when the reported batch size is at least
    1 and the server answers every call, validation succeeds after one
    embedding call that carries one string, a prefix of "ping"; when the
    reported batch size is zero, validation fails without an embedding
    call; and when it is negative, validation succeeds without an
    embedding call. *)
Theorem X22_validation_ping mdl credentials w extra_args w1 :
  (forall c n, TeiSetup.context_size c = Some n ->
     _get_context_size mdl c = n) ->
  (forall c n, TeiSetup.max_chunks c = Some n ->
     _get_max_chunks mdl c = n) ->
  get_tei_extra_parameter (TeiSetup.probe_of mdl credentials) w
    = (Ok extra_args, w1) ->
  TeiSetup.model_type extra_args = lit "embedding" ->
  1 <= TeiSetup.max_input_length extra_args ->
  let v := validate_credentials mdl credentials w in
  let M := TeiSetup.max_client_batch_size extra_args in
  (1 <= M ->
   (forall call w0, exists results w',
      invoke_embeddings call w0 = (Ok results, w')) ->
   TeiSetup.verdict v = TeiSetup.Valid /\
   exists p,
     map sent (TeiSetup.calls v) = [[p]] /\
     Views.is_prefix p (lit "ping") /\
     (_get_num_tokens_by_gpt2 (lit "ping")
        < TeiSetup.max_input_length extra_args -> p = lit "ping")) /\
  (M = 0 ->
   TeiSetup.verdict v =
     TeiSetup.CredentialsValidateFailedError (str ValueError) /\
   TeiSetup.calls v = []) /\
  (M < 0 -> TeiSetup.verdict v = TeiSetup.Valid /\ TeiSetup.calls v = []).
Proof.
  intros Hreads_context Hreads_chunks Hprobe Htype HC v M.
  pose proof (validate_cases mdl credentials w) as H.
  cbv zeta in H. fold v in H. rewrite Hprobe in H.
  apply pystr_eqb_eq in Htype. rewrite Htype in H. clear Htype.
  set (c := TeiSetup.with_limits credentials extra_args) in *.
  pose proof (Hreads_context c _ eq_refl) as Hctx.
  pose proof (Hreads_chunks c _ eq_refl) as Hmax.
  fold M in Hmax.
  set (gcs := fun (m : pystr) (k : Credentials) =>
         _get_context_size m
           {| TeiSetup.known := k;
              TeiSetup.context_size := TeiSetup.context_size c;
              TeiSetup.max_chunks := TeiSetup.max_chunks c |}).
  set (gmc := fun (m : pystr) (k : Credentials) =>
         _get_max_chunks m
           {| TeiSetup.known := k;
              TeiSetup.context_size := TeiSetup.context_size c;
              TeiSetup.max_chunks := TeiSetup.max_chunks c |}).
  set (gp := fun (m : pystr) (k : Credentials) (t : Z) =>
         get_price m
           {| TeiSetup.known := k;
              TeiSetup.context_size := TeiSetup.context_size c;
              TeiSetup.max_chunks := TeiSetup.max_chunks c |} t).
  assert (Hinv : invoke mdl c [lit "ping"] w1 =
            _invoke Embedding Decimal Latency World _get_num_tokens_by_gpt2
              gcs gmc gp elapsed invoke_embeddings mdl (TeiSetup.known c)
              [lit "ping"] w1) by reflexivity.
  assert (HgC : gcs mdl (TeiSetup.known c)
                = TeiSetup.max_input_length extra_args) by exact Hctx.
  assert (HgM : gmc mdl (TeiSetup.known c) = M) by exact Hmax.
  destruct (prepare_total _get_num_tokens_by_gpt2
              (TeiSetup.max_input_length extra_args) [lit "ping"] HC)
    as [p Hp].
  { constructor; [|constructor]. vm_compute. reflexivity. }
  rewrite <- HgC in Hp.
  rewrite H. cbn [TeiSetup.verdict TeiSetup.calls]. rewrite Hinv.
  split; [|split].
  - intros HM Hserver.
    destruct (invoke_prepared Embedding Decimal Latency World
                _get_num_tokens_by_gpt2 gcs gmc gp elapsed invoke_embeddings
                mdl (TeiSetup.known c) [lit "ping"] w1 p Hp)
      as [_ [Hok Htotal]]; [rewrite HgM; exact HM|].
    destruct (Htotal Hserver) as [r Hr]. rewrite Hr.
    split; [reflexivity|].
    destruct (Hok r Hr) as [Hsent _]. rewrite Hsent, HgM.
    destruct (prepare_spec _get_num_tokens_by_gpt2 _ _ p Hp) as [Hall _].
    inversion Hall as [|text input ? ins Ht Hrest Heq1 Heq2]; subst.
    inversion Hrest; subst.
    exists input. split.
    + destruct (chunks_spec [input] M HM) as [Hlen [Hsize Hcat]].
      destruct (chunks [input] M) as [|ch [|ch2 chs]] eqn:Hch.
      * discriminate Hcat.
      * cbn in Hcat. rewrite app_nil_r in Hcat. subst ch. reflexivity.
      * exfalso. unfold len in Hlen. cbn [List.length] in Hlen.
        assert (Hq : (Z.of_nat 1 + M - 1) / M = 1).
        { replace (Z.of_nat 1 + M - 1) with (1 * M) by lia.
          apply Z.div_mul. lia. }
        rewrite Hq in Hlen. lia.
    + rewrite HgC in Ht.
      apply (truncate_prefix _get_num_tokens_by_gpt2) in Ht. exact Ht.
  - intros HM0.
    destruct (invoke_chunk_size_not_positive Embedding Decimal Latency World
                _get_num_tokens_by_gpt2 gcs gmc gp elapsed invoke_embeddings
                mdl (TeiSetup.known c) [lit "ping"] w1 p Hp) as [Hz _].
    rewrite (Hz ltac:(rewrite HgM; exact HM0)). split; reflexivity.
  - intros HMneg.
    destruct (invoke_chunk_size_not_positive Embedding Decimal Latency World
                _get_num_tokens_by_gpt2 gcs gmc gp elapsed invoke_embeddings
                mdl (TeiSetup.known c) [lit "ping"] w1 p Hp) as [_ Hn].
    destruct (Hn ltac:(rewrite HgM; exact HMneg)) as [r [-> _]].
    split; reflexivity.
Qed.

(** X23: the schema of a customizable model reports the limits stored in
    the credentials: a chunk size of 1 and a context size of 512 when
    the credentials hold none, and, after a validation that succeeded,
    the batch size and the input length that the server reported to that
    validation. *)
Theorem X23_schema_limits mdl credentials w :
  (exists entity,
     TeiSetup.get_customizable_model_schema mdl credentials = Some entity /\
     TeiSetup.entity_model entity = mdl /\
     (TeiSetup.max_chunks credentials = None ->
      TeiSetup.property TeiSetup.MAX_CHUNKS
        (TeiSetup.model_properties entity) = Some 1) /\
     (TeiSetup.context_size credentials = None ->
      TeiSetup.property TeiSetup.CONTEXT_SIZE
        (TeiSetup.model_properties entity) = Some 512)) /\
  (let v := validate_credentials mdl credentials w in
   TeiSetup.verdict v = TeiSetup.Valid ->
   exists extra_args entity,
     fst (get_tei_extra_parameter (TeiSetup.probe_of mdl credentials) w)
       = Ok extra_args /\
     TeiSetup.get_customizable_model_schema mdl
       (TeiSetup.credentials_after v) = Some entity /\
     TeiSetup.property TeiSetup.MAX_CHUNKS
       (TeiSetup.model_properties entity)
       = Some (TeiSetup.max_client_batch_size extra_args) /\
     TeiSetup.property TeiSetup.CONTEXT_SIZE
       (TeiSetup.model_properties entity)
       = Some (TeiSetup.max_input_length extra_args)).
Proof.
  split.
  - eexists. split; [reflexivity|]. split; [reflexivity|].
    split; intros ->; reflexivity.
  - intros v Hv. pose proof (validate_cases mdl credentials w) as H.
    cbv zeta in H. fold v in H.
    destruct (get_tei_extra_parameter (TeiSetup.probe_of mdl credentials) w)
      as [[extra_args|ex] w1].
    + destruct (pystr_eqb (TeiSetup.model_type extra_args)
                  (lit "embedding")).
      * exists extra_args. eexists. rewrite H.
        cbn [fst TeiSetup.credentials_after].
        repeat split.
      * rewrite H in Hv. discriminate Hv.
    + rewrite H in Hv. discriminate Hv.
Qed.

End SetupFacts.

(** * Further properties of the request and of malformed lines *)

Section RequestFacts.

Variable World : Type.
Variable post : Request -> World -> res Response * World.
Variable dumps : pyval -> pystr.
Variable to_completion_dict : MinimaxMessage -> pyval.

Let generate := generate World post dumps to_completion_dict.

(** The fixed fields of a body, whatever the optional parameters. *)
Lemma body_fixed_fields model messages prompt stream model_parameters :
  let body :=
    body_of model messages prompt stream (extra_kwargs_of model_parameters) in
  dict_get (lit "model") body = Some (PStr model) /\
  dict_get (lit "stream") body = Some (PBool stream) /\
  dict_get (lit "role_meta") body = Some (PDict role_meta).
Proof.
  unfold body_of, extra_kwargs_of, forward.
  destruct (dict_get (lit "max_tokens") model_parameters) as [v1|];
    [destruct (isinstance_int v1)|];
  (destruct (dict_get (lit "temperature") model_parameters) as [v2|];
    [destruct (isinstance_float v2)|]);
  (destruct (dict_get (lit "top_p") model_parameters) as [v3|];
    [destruct (isinstance_float v3)|]);
  cbn; repeat split; reflexivity.
Qed.

(** X24: every request [generate] issues has the fixed settings: the
    stream flag as given, both in the call and in the body, a timeout of
    10 and 300 seconds, the API key as a bearer token and a JSON content
    type, and in the body the model as given and the fixed role names;
    no model parameter can replace one of these fields.  The arguments
    [tools], [stop] and [user] have no effect on what [generate]
    does. *)
Theorem X24_request_fixed_fields model api_key group_id endpoint_url
    prompt_messages model_parameters tools stop stream user w request :
  In request
    (snd (generate model api_key group_id endpoint_url prompt_messages
            model_parameters tools stop stream user w)) ->
  req_stream request = stream /\
  req_timeout request = (10, 300) /\
  req_headers request =
    [(lit "Authorization", lit "Bearer " ++ api_key);
     (lit "Content-Type", lit "application/json")] /\
  (exists body,
     req_data request = dumps (PDict body) /\
     dict_get (lit "model") body = Some (PStr model) /\
     dict_get (lit "stream") body = Some (PBool stream) /\
     dict_get (lit "role_meta") body = Some (PDict role_meta)) /\
  (forall tools' stop' user',
     generate model api_key group_id endpoint_url prompt_messages
       model_parameters tools' stop' stream user' w =
     generate model api_key group_id endpoint_url prompt_messages
       model_parameters tools stop stream user w).
Proof.
  unfold generate. rewrite generate_requests.
  destruct api_key as [|a api_key]; [intros []|].
  destruct group_id as [|g group_id]; [intros []|].
  destruct (split_prompt prompt_messages) as [[prompt rest]|e];
    [|intros []].
  intros [<- | []]. cbn [req_stream req_timeout req_headers req_data
                          Minimax.build_request].
  split; [reflexivity|]. split; [reflexivity|]. split; [reflexivity|].
  split; [|reflexivity].
  eexists. split; [reflexivity|].
  apply (body_fixed_fields model (map to_completion_dict rest) prompt stream
           model_parameters).
Qed.

End RequestFacts.

Section MalformedLines.

Variable loads : pystr -> res pyval.

(** Reading a non-empty line that cannot be decoded. *)
Lemma read_lines_undecodable (line : pybytes) (rest : list pybytes)
    (e : exn) :
  line <> [] -> decode_record loads line = Raise e ->
  read_lines loads (line :: rest) =
    (Raised e, {| status := Finished; source := rest |}).
Proof.
  intros Hne Hdec. cbn [read_lines]. unfold handle_line.
  destruct line as [|b line]; [contradiction|].
  rewrite Hdec. reflexivity.
Qed.

(** X25: a line that cannot be decoded ends the stream.  When the bytes
    of a non-empty line are not valid UTF-8, or when [loads] rejects the
    text of the line, taken after the prefix "data: " and stripped when
    the line has that prefix and as it is otherwise, the pull raises
    that exception, the generator is finished and the lines after it
    stay unread. *)
Theorem X25_undecodable_line (line : pybytes) (rest : list pybytes) :
  line <> [] ->
  let g := {| status := Running []; source := line :: rest |} in
  let done := {| status := Finished; source := rest |} in
  (forall e, utf8_decode line = Raise e -> next loads g = (Raised e, done)) /\
  (forall s e, utf8_decode line = Ok s ->
     starts_with (lit "data: ") s = true ->
     loads (strip (skipn 6 s)) = Raise e ->
     next loads g = (Raised e, done)) /\
  (forall s e, utf8_decode line = Ok s ->
     starts_with (lit "data: ") s = false ->
     loads s = Raise e ->
     next loads g = (Raised e, done)).
Proof.
  intros Hne g done. unfold next, g; cbn [status source].
  split; [|split].
  - intros e He. apply read_lines_undecodable; [exact Hne|].
    unfold decode_record. rewrite He. reflexivity.
  - intros s e Hs Hp He. apply read_lines_undecodable; [exact Hne|].
    unfold decode_record. rewrite Hs. cbn [bind]. rewrite Hp. exact He.
  - intros s e Hs Hp He. apply read_lines_undecodable; [exact Hne|].
    unfold decode_record. rewrite Hs. cbn [bind]. rewrite Hp. exact He.
Qed.

(** X26: a line whose JSON value is not an object makes the pull raise
    [TypeError], and an object that passes the status test and has no
    [reply] key makes it raise [KeyError] for that key, whatever else
    the object holds; in both cases the generator is finished and the
    lines after it stay unread. *)
Theorem X26_record_shape (line : pybytes) (rest : list pybytes)
    (data : pyval) :
  line <> [] ->
  decode_record loads line = Ok data ->
  let g := {| status := Running []; source := line :: rest |} in
  let done := {| status := Finished; source := rest |} in
  ((forall d, data <> PDict d) -> next loads g = (Raised TypeError, done)) /\
  (forall d, data = PDict d ->
     check_base_resp data = Ok tt ->
     dict_get (lit "reply") d = None ->
     next loads g = (Raised (KeyError (PStr (lit "reply"))), done)).
Proof.
  intros Hne Hdec g done. unfold next, g; cbn [status source].
  rewrite (read_lines_record loads line rest data Hne Hdec).
  unfold handle_record. split.
  - intros Hshape. unfold check_base_resp, py_contains.
    destruct data as [| | | | s | l | d]; try reflexivity.
    + cbn [bind]. destruct (is_substring (lit "base_resp") s); reflexivity.
    + cbn [bind].
      destruct (existsb (fun v => py_eq_str v (lit "base_resp")) l);
        reflexivity.
    + elim (Hshape d). reflexivity.
  - intros d -> Hcheck Hreply. rewrite Hcheck. cbn [bind py_getitem].
    rewrite Hreply. reflexivity.
Qed.

End MalformedLines.

(** * The further properties on concrete inputs *)

Import MoreSamples.

Lemma X1_generate_request_count_witness :
  snd (sample_generate [] (lit "g") [user_hello] []) = [] /\
  exists request,
    snd (sample_generate (lit "k") (lit "g") [user_hello] []) = [request] /\
    snd (fst (sample_generate (lit "k") (lit "g") [user_hello] []))
      = snd (post_refused request tt).
Proof.
  unfold sample_generate. split.
  - apply (proj1 (X1_generate_request_count unit post_refused dumps_keys
                    to_content (lit "abab5.5-chat") [] (lit "g")
                    (lit "https://api.minimax.chat/") [user_hello] []
                    [] None false (lit "u") tt)).
    left; reflexivity.
  - apply (proj2 (X1_generate_request_count unit post_refused dumps_keys
                    to_content (lit "abab5.5-chat") (lit "k") (lit "g")
                    (lit "https://api.minimax.chat/") [user_hello] []
                    [] None false (lit "u") tt)).
    intros H. vm_compute in H. discriminate H.
Defined.

Lemma X2_generate_transport_errors_witness :
  sample_generate (lit "k") (lit "g") [user_hello] [] =
    (Raise (InternalServerError
              (ArgExn (OtherException (lit "ConnectionError")))),
     tt, [hello_request]).
Proof.
  unfold sample_generate.
  apply (proj1 (X2_generate_transport_errors unit post_refused dumps_keys
                  to_content (lit "abab5.5-chat") (lit "k") (lit "g")
                  (lit "https://api.minimax.chat/") [user_hello] []
                  [] None false (lit "u") tt hello_request eq_refl)).
  reflexivity.
Defined.

Lemma X3_endpoint_trailing_slashes_witness :
  exists base,
    req_url hello_request =
      base ++ lit "/v1/text/chatcompletion?GroupId=" ++ lit "g" /\
    last base 0 <> 47 /\
    exists k, lit "https://api.minimax.chat/" = base ++ repeat 47 k.
Proof.
  apply (proj2 (X3_endpoint_trailing_slashes unit post_refused dumps_keys
                  to_content (lit "abab5.5-chat") (lit "k") (lit "g")
                  (lit "https://api.minimax.chat/") [user_hello] []
                  [] None false (lit "u") tt 0%nat) hello_request).
  left; reflexivity.
Defined.

Lemma X4_no_leading_system_message_witness :
  exists request,
    snd (sample_generate (lit "k") (lit "g") [user_hello; system_x] [])
      = [request] /\
    req_data request =
      dumps_keys
        (PDict (body_of (lit "abab5.5-chat")
                  [PStr (lit "hello"); PStr (lit "X")]
                  (PStr default_prompt) false [])).
Proof.
  unfold sample_generate.
  apply (X4_no_leading_system_message unit post_refused dumps_keys
           to_content (lit "abab5.5-chat") (lit "k") (lit "g")
           (lit "https://api.minimax.chat/") user_hello [system_x] []
           [] None false (lit "u") tt);
    discriminate.
Defined.

Lemma X5_error_mapper_on_any_value_witness :
  _handle_error (PList [PInt 1004]) (PStr (lit "denied")) = Raise TypeError /\
  exists e,
    In e (Views.mapped_errors (PStr (lit "denied"))) /\
    _handle_error (PStr (lit "1004")) (PStr (lit "denied")) = Raise e.
Proof.
  split.
  - apply (proj1 (proj2 (X5_error_mapper_on_any_value (PList [PInt 1004])
                           (PStr (lit "denied"))))).
    left. eexists; reflexivity.
  - apply (proj2 (proj2 (X5_error_mapper_on_any_value (PStr (lit "1004"))
                           (PStr (lit "denied")))));
      intros; discriminate.
Defined.

Lemma X6_error_status_on_both_paths_witness :
  exists e,
    _handle_chat_generate_response
      (json_response
         (PDict [(lit "base_resp",
                  PDict [(lit "status_code", PInt 1004)])])) = Raise e /\
    next Json.loads (stream_of [line_status_only; line_final]) =
      (Raised e, {| status := Finished; source := [line_final] |}).
Proof.
  destruct (X6_error_status_on_both_paths Json.loads
              [(lit "base_resp", PDict [(lit "status_code", PInt 1004)])]
              (PDict [(lit "status_code", PInt 1004)]) (PInt 1004)
              eq_refl eq_refl eq_refl) as [e [Hmessage Hstream]].
  exists e. split.
  - apply Hmessage. reflexivity.
  - apply Hstream; [discriminate | vm_compute; reflexivity].
Defined.

Lemma X7_non_stream_reply_witness :
  sample_reply =
    (Ok (Message {| role := ASSISTANT; content := PStr (lit "Hi");
                    Minimax.usage :=
                      Some {| prompt_tokens := PInt 0;
                              completion_tokens := PInt 3;
                              Minimax.total_tokens := PInt 3 |};
                    stop_reason := Some (PStr (lit "stop")) |}),
     tt, [hello_request]).
Proof.
  unfold sample_reply.
  apply (X7_non_stream_reply unit (post_ok (json_response reply_body))
           dumps_keys to_content (lit "abab5.5-chat") (lit "k") (lit "g")
           (lit "https://api.minimax.chat/") [user_hello] [] [] None
           (lit "u") tt hello_request (json_response reply_body) tt
           [(lit "reply", PStr (lit "Hi"));
            (lit "usage", PDict [(lit "total_tokens", PInt 3)]);
            (lit "choices",
             PList [PDict [(lit "finish_reason", PStr (lit "stop"))]])]
           (PStr (lit "Hi")) (PDict [(lit "total_tokens", PInt 3)])
           (PInt 3) (PStr (lit "stop")));
    reflexivity.
Defined.

Lemma X9_single_forward_pass_witness :
  next Json.loads {| status := Finished; source := [line_final] |} =
    (StopIteration, {| status := Finished; source := [line_final] |}).
Proof.
  destruct (proj2 (proj2 (X9_single_forward_pass Json.loads
                            {| status := Finished;
                               source := [line_final] |})) eq_refl)
    as [Hev Hg].
  rewrite (surjective_pairing (next Json.loads _)), Hev, Hg. reflexivity.
Defined.

Lemma X10_yielded_messages_witness :
  Forall (fun m => role m = ASSISTANT)
    (fst (fst (pull Json.loads 3
                 (stream_of [line_delta_reply; line_final])))).
Proof.
  pose proof (X10_yielded_messages Json.loads 3
                (stream_of [line_delta_reply; line_final])) as H.
  destruct (pull Json.loads 3 (stream_of [line_delta_reply; line_final]))
    as [[ms fin] g']. exact (proj1 H).
Defined.

Lemma X11_one_message_per_choice_witness :
  pull Json.loads 2 (stream_of [line_two_choices; line_final]) =
    ([new_message (PStr (lit "a")) ASSISTANT;
      new_message (PStr (lit "b")) ASSISTANT],
     None, {| status := Running []; source := [line_final] |}).
Proof.
  apply (X11_one_message_per_choice Json.loads line_two_choices [line_final]
           [(lit "reply", PStr []);
            (lit "choices",
             PList [PDict [(lit "delta", PStr (lit "a"))];
                    PDict [(lit "delta", PStr (lit "b"))]])]
           (PStr [])
           [PDict [(lit "delta", PStr (lit "a"))];
            PDict [(lit "delta", PStr (lit "b"))]]
           [PStr (lit "a"); PStr (lit "b")]);
    [discriminate | vm_compute; reflexivity | reflexivity | reflexivity
    | reflexivity | reflexivity | discriminate
    | repeat constructor].
Defined.

Lemma X12_choice_without_delta_witness :
  pull Json.loads 2 (stream_of [line_broken_choice; line_final]) =
    ([new_message (PStr (lit "a")) ASSISTANT],
     Some (Raised (KeyError (PStr (lit "delta")))),
     {| status := Finished; source := [line_final] |}).
Proof.
  apply (X12_choice_without_delta Json.loads line_broken_choice [line_final]
           [(lit "reply", PStr []);
            (lit "choices",
             PList [PDict [(lit "delta", PStr (lit "a"))];
                    PDict [(lit "index", PInt 1)]])]
           (PStr []) (PDict [(lit "index", PInt 1)])
           [PDict [(lit "delta", PStr (lit "a"))]] [PStr (lit "a")] []
           (KeyError (PStr (lit "delta"))));
    [discriminate | vm_compute; reflexivity | reflexivity | reflexivity
    | reflexivity | reflexivity | repeat constructor | reflexivity].
Defined.

Lemma X13_record_without_choices_witness :
  pull Json.loads 3 (stream_of [line_keep_alive; line_final]) =
  pull Json.loads 3 (stream_of [line_final]).
Proof.
  apply (X13_record_without_choices Json.loads line_keep_alive [line_final]
           [(lit "reply", PStr [])] (PStr []) 2);
    [discriminate | vm_compute; reflexivity | reflexivity | reflexivity
    | reflexivity | left; reflexivity].
Defined.

Lemma X14_only_prefixes_are_sent_witness :
  exists text,
    In text [lit "a"; lit "bc"; lit "defgh"] /\
    Views.is_prefix (lit "de") text /\
    (char_tokens text < 2 -> lit "de" = text).
Proof.
  apply (X14_only_prefixes_are_sent Z unit unit unit char_tokens
           (fun _ _ => 2) (fun _ _ => 2)
           (fun _ _ _ =>
              {| pi_unit_price := tt; pi_unit := tt;
                 pi_total_amount := tt; pi_currency := lit "USD" |})
           (fun _ => tt) echo_server (lit "tei") sample_credentials
           [lit "a"; lit "bc"; lit "defgh"] tt
           (tei_call [lit "de"], Ok {| data := [{| embedding := 2 |}] |})
           (lit "de"));
    [right; left; reflexivity | left; reflexivity].
Defined.


Lemma X16_chunk_size_not_positive_witness :
  sample_invoke 2 0 [lit "a"] = (Raise ValueError, tt, []) /\
  exists r,
    sample_invoke 2 (-1) [lit "a"] = (Ok r, tt, []) /\
    embeddings r = [] /\ tokens (usage r) = 1.
Proof.
  unfold sample_invoke. split.
  - apply (proj1 (X16_chunk_size_not_positive Z unit unit unit char_tokens
                    (fun _ _ => 2) (fun _ _ => 0)
                    (fun _ _ _ =>
                       {| pi_unit_price := tt; pi_unit := tt;
                          pi_total_amount := tt; pi_currency := lit "USD" |})
                    (fun _ => tt) echo_server (lit "tei") sample_credentials
                    [lit "a"] tt
                    {| inputs := [lit "a"]; indices := [0];
                       used_tokens := 1 |} eq_refl)).
    reflexivity.
  - apply (proj2 (X16_chunk_size_not_positive Z unit unit unit char_tokens
                    (fun _ _ => 2) (fun _ _ => -1)
                    (fun _ _ _ =>
                       {| pi_unit_price := tt; pi_unit := tt;
                          pi_total_amount := tt; pi_currency := lit "USD" |})
                    (fun _ => tt) echo_server (lit "tei") sample_credentials
                    [lit "a"] tt
                    {| inputs := [lit "a"]; indices := [0];
                       used_tokens := 1 |} eq_refl)).
    reflexivity.
Defined.

Lemma X17_truncation_error_precedes_calls_witness :
  sample_invoke 0 2 [lit "a"; []; lit "b"] =
    (Raise ZeroDivisionError, tt, []).
Proof.
  unfold sample_invoke.
  apply (proj2 (X17_truncation_error_precedes_calls Z unit unit unit
                  char_tokens (fun _ _ => 0) (fun _ _ => 2)
                  (fun _ _ _ =>
                     {| pi_unit_price := tt; pi_unit := tt;
                        pi_total_amount := tt; pi_currency := lit "USD" |})
                  (fun _ => tt) echo_server (lit "tei") sample_credentials
                  [lit "a"] [] [lit "b"] tt ZeroDivisionError
                  ltac:(constructor;
                        [eexists; vm_compute; reflexivity | constructor])));
    [reflexivity | discriminate].
Defined.


Lemma X19_get_num_tokens_witness :
  match sample_invoke_dict [lit "a"; lit "bc"] with
  | (Ok r, _, _) => tokens (usage r) = 3
  | (Raise _, _, _) => False
  end.
Proof.
  unfold sample_invoke_dict.
  destruct (TeiSetup._invoke _ _ _ _ _ _ _ _ _ _ _ _ _ _)
    as [[[r|e] w'] log] eqn:E.
  - exact (proj2 (proj2 (X19_get_num_tokens Z unit unit unit char_tokens
                           limit_context_size limit_max_chunks no_price
                           (fun _ => tt) echo_server (lit "tei")
                           bare_credentials [lit "a"; lit "bc"]))
             tt r w' log E).
  - vm_compute in E. discriminate E.
Defined.

Lemma X20_validation_outcome_witness :
  TeiSetup.verdict (sample_validate embedding_server) = TeiSetup.Valid /\
  TeiSetup.verdict (sample_validate reranker_server) =
    TeiSetup.CredentialsValidateFailedError
      (lit "Current model is not a embedding model").
Proof.
  unfold sample_validate. split.
  - apply (proj1 (proj2 (X20_validation_outcome Z unit unit unit char_tokens
                           limit_context_size limit_max_chunks no_price
                           (fun _ => tt) echo_server
                           (probe_server embedding_server) str_of
                           (lit "tei") bare_credentials tt))).
    exists embedding_server, tt. eexists.
    split; [reflexivity|]. split; [reflexivity|].
    vm_compute. reflexivity.
  - apply (proj1 (proj2 (proj2 (proj2
             (X20_validation_outcome Z unit unit unit char_tokens
                limit_context_size limit_max_chunks no_price
                (fun _ => tt) echo_server
                (probe_server reranker_server) str_of
                (lit "tei") bare_credentials tt))))
             reranker_server tt eq_refl).
    discriminate.
Defined.

Lemma X21_validation_updates_credentials_witness :
  TeiSetup.context_size
    (TeiSetup.credentials_after (sample_validate embedding_server))
    = Some 512 /\
  TeiSetup.max_chunks
    (TeiSetup.credentials_after (sample_validate embedding_server))
    = Some 32.
Proof.
  unfold sample_validate.
  apply (proj2 (proj2 (X21_validation_updates_credentials Z unit unit unit
                         char_tokens limit_context_size limit_max_chunks
                         no_price (fun _ => tt) echo_server
                         (probe_server embedding_server) str_of
                         (lit "tei") bare_credentials tt))
           embedding_server eq_refl eq_refl).
Defined.

Lemma X22_validation_ping_witness :
  TeiSetup.verdict (sample_validate embedding_server) = TeiSetup.Valid /\
  map sent (TeiSetup.calls (sample_validate embedding_server))
    = [[lit "ping"]].
Proof.
  unfold sample_validate.
  destruct (proj1 (X22_validation_ping Z unit unit unit char_tokens
                     limit_context_size limit_max_chunks no_price
                     (fun _ => tt) echo_server
                     (probe_server embedding_server) str_of
                     (lit "tei") bare_credentials tt embedding_server tt
                     ltac:(intros c n H; unfold limit_context_size;
                           rewrite H; reflexivity)
                     ltac:(intros c n H; unfold limit_max_chunks;
                           rewrite H; reflexivity)
                     eq_refl eq_refl ltac:(cbn; lia))
             ltac:(cbn; lia)
             ltac:(intros call w0; do 2 eexists; reflexivity))
    as [Hvalid [p [Hsent [_ Hwhole]]]].
  split; [exact Hvalid|].
  rewrite Hsent, (Hwhole ltac:(vm_compute; reflexivity)). reflexivity.
Defined.

Lemma X23_schema_limits_witness :
  exists entity,
    TeiSetup.get_customizable_model_schema (lit "tei")
      (TeiSetup.credentials_after (sample_validate embedding_server))
      = Some entity /\
    TeiSetup.property TeiSetup.MAX_CHUNKS (TeiSetup.model_properties entity)
      = Some 32 /\
    TeiSetup.property TeiSetup.CONTEXT_SIZE
      (TeiSetup.model_properties entity) = Some 512.
Proof.
  unfold sample_validate.
  destruct (proj2 (X23_schema_limits Z unit unit unit char_tokens
                     limit_context_size limit_max_chunks no_price
                     (fun _ => tt) echo_server
                     (probe_server embedding_server) str_of
                     (lit "tei") bare_credentials tt)
             ltac:(vm_compute; reflexivity))
    as [extra_args [entity [Hprobe [Hschema [Hchunks Hcontext]]]]].
  injection Hprobe as <-.
  exists entity. split; [exact Hschema|]. split; assumption.
Defined.

Lemma X24_request_fixed_fields_witness :
  req_stream hello_request = false /\
  req_timeout hello_request = (10, 300) /\
  req_headers hello_request =
    [(lit "Authorization", lit "Bearer k");
     (lit "Content-Type", lit "application/json")].
Proof.
  destruct (X24_request_fixed_fields unit post_refused dumps_keys to_content
              (lit "abab5.5-chat") (lit "k") (lit "g")
              (lit "https://api.minimax.chat/") [user_hello] []
              [] None false (lit "u") tt hello_request
              ltac:(left; reflexivity))
    as (Hstream & Htimeout & Hheaders & _).
  split; [exact Hstream|]. split; [exact Htimeout | exact Hheaders].
Defined.

Lemma X25_undecodable_line_witness :
  next Json.loads (stream_of [line_not_utf8; line_final]) =
    (Raised UnicodeDecodeError,
     {| status := Finished; source := [line_final] |}) /\
  next Json.loads (stream_of [line_cut_short; line_final]) =
    (Raised JSONDecodeError,
     {| status := Finished; source := [line_final] |}).
Proof.
  split.
  - apply (proj1 (X25_undecodable_line Json.loads line_not_utf8 [line_final]
                    ltac:(discriminate))).
    vm_compute. reflexivity.
  - apply (proj1 (proj2 (X25_undecodable_line Json.loads line_cut_short
                           [line_final] ltac:(discriminate)))
             (lit "data: {" ++ [34] ++ lit "reply" ++ [34] ++ lit ":"));
      vm_compute; reflexivity.
Defined.

Lemma X26_record_shape_witness :
  next Json.loads (stream_of [line_array; line_final]) =
    (Raised TypeError, {| status := Finished; source := [line_final] |}) /\
  next Json.loads (stream_of [line_delta; line_final]) =
    (Raised (KeyError (PStr (lit "reply"))),
     {| status := Finished; source := [line_final] |}).
Proof.
  split.
  - apply (proj1 (X26_record_shape Json.loads line_array [line_final]
                    (PList [PInt 1; PInt 2]) ltac:(discriminate)
                    ltac:(vm_compute; reflexivity))).
    intros d; discriminate.
  - apply (proj2 (X26_record_shape Json.loads line_delta [line_final]
                    (PDict [(lit "choices",
                             PList [PDict [(lit "delta",
                                            PStr (lit "Hi"))]])])
                    ltac:(discriminate) ltac:(vm_compute; reflexivity))
             [(lit "choices",
               PList [PDict [(lit "delta", PStr (lit "Hi"))]])]);
      reflexivity.
Defined.
